(** * GitLab AI reviewer: the diff-to-review pipeline

    A shallow embedding of the diff parser ([DiffParser]), the response
    parser of the AI service ([AIService]) and the orchestration and comment
    rendering of the reviewer ([GitLabReviewer]), then of the validation of
    the configuration ([Config]), the request to the model ([AIRequest]),
    the search for a comment of the bot ([GitLabAPI]) and the run over a
    merge request ([ReviewRun]), followed by the properties proved about
    them.

    Conventions of the embedding.
    - A JavaScript string is a [string]: a sequence of 8-bit units, text
      being read as its UTF-8 bytes.  The whitespace that [trim] strips is
      the ASCII part of the ECMAScript set (TAB, LF, VT, FF, CR, SPACE), and
      case conversion acts on the ASCII letters.  The length of a text is
      the number of its units, which is the length that the source sees when
      the text is ASCII.
    - A JavaScript number that holds an integer is a [Z] inside [JNum]; [JNaN]
      is the not-a-number value.  Integers are exact, as they are in the
      source below 2^53.
    - [null] and [undefined] are [None].
    - Calls that leave the process (the model API, the regular-expression
      engine of the host) are parameters of the sections that use them. *)

From Stdlib Require Import String Ascii List ZArith Bool Lia Arith Permutation.
Import ListNotations.
Open Scope string_scope.

(** ** Host primitives: strings and numbers *)

Module JS.

Definition LF : ascii := Ascii.ascii_of_nat 10.
Definition CR : ascii := Ascii.ascii_of_nat 13.

(** The string made of one line feed, written ['\n'] in the source. *)
Definition nl : string := String LF EmptyString.

(** WhiteSpace and LineTerminator code units below 128. *)
Definition isWhite (c : ascii) : bool :=
  let n := nat_of_ascii c in
  ((9 <=? n) && (n <=? 13) || (n =? 32))%nat.

Definition isEmpty (s : string) : bool :=
  match s with EmptyString => true | String _ _ => false end.

(** [s.startsWith(p)] *)
Fixpoint startsWith (s p : string) {struct p} : bool :=
  match p with
  | EmptyString => true
  | String b p' =>
      match s with
      | EmptyString => false
      | String a s' => Ascii.eqb a b && startsWith s' p'
      end
  end.

Arguments startsWith s p : simpl nomatch.

(** [s.includes(p)] *)
Fixpoint includes (s p : string) : bool :=
  startsWith s p ||
  match s with
  | EmptyString => false
  | String _ s' => includes s' p
  end.

(** [s.substring(n)] for a natural [n]. *)
Fixpoint drop (n : nat) (s : string) : string :=
  match n, s with
  | O, _ => s
  | S _, EmptyString => EmptyString
  | S n', String _ s' => drop n' s'
  end.

(** [s.substring(z)]: a negative start counts as 0. *)
Definition substring (z : Z) (s : string) : string := drop (Z.to_nat z) s.

(** [s.endsWith(p)] *)
Definition endsWith (s p : string) : bool :=
  (String.length p <=? String.length s)%nat &&
  String.eqb (drop (String.length s - String.length p) s) p.

(** [s.indexOf(c)] for a one-character [c]; -1 when [c] does not occur. *)
Fixpoint indexOfFrom (i : Z) (c : ascii) (s : string) : Z :=
  match s with
  | EmptyString => (-1)%Z
  | String a s' => if Ascii.eqb a c then i else indexOfFrom (i + 1)%Z c s'
  end.

Definition indexOf (c : ascii) (s : string) : Z := indexOfFrom 0%Z c s.

(** [s.trimStart()], [s.trimEnd()] and [s.trim()]. *)
Fixpoint trimStart (s : string) : string :=
  match s with
  | EmptyString => EmptyString
  | String c s' => if isWhite c then trimStart s' else s
  end.

Fixpoint trimEnd (s : string) : string :=
  match s with
  | EmptyString => EmptyString
  | String c s' =>
      match trimEnd s' with
      | EmptyString => if isWhite c then EmptyString else String c EmptyString
      | String d t => String c (String d t)
      end
  end.

Definition trim (s : string) : string := trimEnd (trimStart s).

(** [s.split('\n')]: never empty, the empty string gives one empty line. *)
Fixpoint split (s : string) : list string :=
  match s with
  | EmptyString => [EmptyString]
  | String c s' =>
      if Ascii.eqb c LF then EmptyString :: split s'
      else match split s' with
           | [] => [String c EmptyString]
           | l :: ls => String c l :: ls
           end
  end.

(** [ls.join(sep)] *)
Fixpoint join (sep : string) (ls : list string) : string :=
  match ls with
  | [] => EmptyString
  | [l] => l
  | l :: ls' => l ++ sep ++ join sep ls'
  end.

(** [s.replace(/c/g, r)] for a one-character pattern [c]. *)
Fixpoint replaceAll (c : ascii) (r : string) (s : string) : string :=
  match s with
  | EmptyString => EmptyString
  | String a s' =>
      if Ascii.eqb a c then r ++ replaceAll c r s'
      else String a (replaceAll c r s')
  end.

Definition lowerChar (c : ascii) : ascii :=
  let n := nat_of_ascii c in
  if ((65 <=? n) && (n <=? 90))%nat then ascii_of_nat (n + 32) else c.

Definition upperChar (c : ascii) : ascii :=
  let n := nat_of_ascii c in
  if ((97 <=? n) && (n <=? 122))%nat then ascii_of_nat (n - 32) else c.

Fixpoint mapChars (f : ascii -> ascii) (s : string) : string :=
  match s with
  | EmptyString => EmptyString
  | String c s' => String (f c) (mapChars f s')
  end.

Definition toLowerCase : string -> string := mapChars lowerChar.
Definition toUpperCase : string -> string := mapChars upperChar.

(** *** Numbers *)

Inductive number : Type :=
| JNaN
| JNum (z : Z).

(** The value of a character as a digit in the given radix, if it is one. *)
Definition digitValue (radix : Z) (c : ascii) : option Z :=
  let n := Z.of_nat (nat_of_ascii c) in
  let v :=
    if ((48 <=? n) && (n <=? 57))%Z then Some (n - 48)%Z
    else if ((97 <=? n) && (n <=? 122))%Z then Some (n - 87)%Z
    else if ((65 <=? n) && (n <=? 90))%Z then Some (n - 55)%Z
    else None in
  match v with
  | Some d => if (d <? radix)%Z then Some d else None
  | None => None
  end.

(** Reads the longest prefix of digits; [None] while no digit was read. *)
Fixpoint readDigits (radix : Z) (acc : option Z) (s : string) : option Z :=
  match s with
  | EmptyString => acc
  | String c s' =>
      match digitValue radix c with
      | Some d =>
          let a := match acc with Some a => a | None => 0%Z end in
          readDigits radix (Some (a * radix + d)%Z) s'
      | None => acc
      end
  end.

(** [parseInt(s)] with no radix argument: leading whitespace, a sign, a
    [0x] prefix for base 16, then the longest run of digits; NaN when that
    run is empty. *)
Definition parseInt (s : string) : number :=
  let s := trimStart s in
  let '(sign, s) :=
    match s with
    | String c s' =>
        if Ascii.eqb c "-" then ((-1)%Z, s')
        else if Ascii.eqb c "+" then (1%Z, s')
        else (1%Z, s)
    | EmptyString => (1%Z, s)
    end in
  let '(radix, s) :=
    match s with
    | String c0 (String c1 s') =>
        if Ascii.eqb c0 "0" && (Ascii.eqb c1 "x" || Ascii.eqb c1 "X")
        then (16%Z, s') else (10%Z, s)
    | _ => (10%Z, s)
    end in
  match readDigits radix None s with
  | Some v => JNum (sign * v)
  | None => JNaN
  end.

Definition digitChar (d : Z) : ascii := ascii_of_nat (48 + Z.to_nat d).

(** Decimal digits of a non-negative integer, most significant first, put
    in front of [acc]. *)
Fixpoint digitsOf (fuel : nat) (n : Z) (acc : string) : string :=
  match fuel with
  | O => acc
  | S fuel' =>
      let acc' := String (digitChar (n mod 10)) acc in
      if (n / 10 =? 0)%Z then acc' else digitsOf fuel' (n / 10) acc'
  end.

(** [String(z)] for an integer [z]. *)
Definition numToString (z : Z) : string :=
  if (z <? 0)%Z
  then String "-" (digitsOf (S (Z.to_nat (Z.log2 (- z)))) (- z) EmptyString)
  else digitsOf (S (Z.to_nat (Z.log2 z))) z EmptyString.

(** Truthiness of a number: neither 0 nor NaN. *)
Definition truthyNumber (n : number) : bool :=
  match n with
  | JNaN => false
  | JNum z => negb (z =? 0)%Z
  end.

(** *** A fragment of the regular expressions of the host

    Sources made of plain characters, the dot and the star applied to one
    of them, with the flag [i], as [test] runs them: a match may start
    anywhere in the subject.  [compile] answers [None] on any other
    character of the syntax. *)

Inductive atom : Type :=
| AnyChar
| Lit (c : ascii).

Inductive piece : Type :=
| One (a : atom)
| Star (a : atom).

Definition isSyntaxChar (c : ascii) : bool :=
  existsb (Ascii.eqb c)
    (list_ascii_of_string "\^$*+?()[]{}|").

Fixpoint compile (source : string) : option (list piece) :=
  match source with
  | EmptyString => Some []
  | String c s' =>
      if isSyntaxChar c then None
      else
        let a := if Ascii.eqb c "." then AnyChar else Lit c in
        match s' with
        | String d s'' =>
            if Ascii.eqb d "*" then option_map (cons (Star a)) (compile s'')
            else option_map (cons (One a)) (compile s')
        | EmptyString => option_map (cons (One a)) (compile s')
        end
  end.

Definition atomMatches (a : atom) (c : ascii) : bool :=
  match a with
  | AnyChar => negb (Ascii.eqb c LF || Ascii.eqb c CR)
  | Lit l => Ascii.eqb (upperChar l) (upperChar c)
  end.

Fixpoint matchHere (ps : list piece) (s : string) {struct ps} : bool :=
  match ps with
  | [] => true
  | One a :: ps' =>
      match s with
      | String c s' => atomMatches a c && matchHere ps' s'
      | EmptyString => false
      end
  | Star a :: ps' =>
      (fix star (s : string) : bool :=
         matchHere ps' s ||
         match s with
         | String c s' => atomMatches a c && star s'
         | EmptyString => false
         end) s
  end.

Fixpoint matchAnywhere (ps : list piece) (s : string) : bool :=
  matchHere ps s ||
  match s with
  | String _ s' => matchAnywhere ps s'
  | EmptyString => false
  end.

(** [new RegExp(source, 'i').test(subject)] on the fragment. *)
Definition wildcardRegExp (source subject : string) : option bool :=
  option_map (fun ps => matchAnywhere ps subject) (compile source).

(** *** Replacing a text by a text

    [s.replace(p, r)] for texts [p] and [r]: the first occurrence of [p] is
    replaced, and [r] is a template in which [$$] stands for a dollar, [$&]
    for the match, and a dollar followed by a backquote or by a quote for
    what comes before or after the match; without groups any other dollar
    stands for itself. *)

Fixpoint take (n : nat) (s : string) : string :=
  match n, s with
  | O, _ => EmptyString
  | S _, EmptyString => EmptyString
  | S n', String c s' => String c (take n' s')
  end.

(** [s.indexOf(p)] for a text [p]. *)
Fixpoint indexOfText (p s : string) : option nat :=
  if startsWith s p then Some O
  else
    match s with
    | EmptyString => None
    | String _ s' => option_map S (indexOfText p s')
    end.

Fixpoint substitution (matched before after template : string) : string :=
  match template with
  | EmptyString => EmptyString
  | String c t =>
      if Ascii.eqb c "$" then
        match t with
        | String d t' =>
            if Ascii.eqb d "$"
            then String "$" (substitution matched before after t')
            else if Ascii.eqb d "&"
            then matched ++ substitution matched before after t'
            else if Ascii.eqb d "`"
            then before ++ substitution matched before after t'
            else if Ascii.eqb d "'"
            then after ++ substitution matched before after t'
            else String c (substitution matched before after t)
        | EmptyString => String c EmptyString
        end
      else String c (substitution matched before after t)
  end.

Definition replace (p r s : string) : string :=
  match indexOfText p s with
  | None => s
  | Some i =>
      let before := take i s in
      let after := drop (i + String.length p) s in
      before ++ substitution p before after r ++ after
  end.

End JS.

(** ** The diff parser (class [DiffParser]) *)

Module DiffParser.

(** The part of [config.review] that the parser reads. *)
Record ReviewConfig : Type := {
  maxDiffSize : Z;
  supportedLanguages : list string;
  skipFiles : list string
}.

(** A change record of the merge-request API.  An absent [diff] or
    [old_path] is [None]; an absent flag is [false]. *)
Record Change : Type := {
  old_path : option string;
  new_path : string;
  new_file : bool;
  deleted_file : bool;
  renamed_file : bool;
  diff : option string
}.

(** The values of [config.review] when the environment sets none. *)
Definition defaultConfig : ReviewConfig :=
  {| maxDiffSize := 10000;
     supportedLanguages :=
       [ "javascript"; "typescript"; "python"; "java"; "go"; "rust"; "php";
         "ruby"; "csharp"; "cpp"; "c"; "kotlin"; "swift"; "scala"; "dart" ];
     skipFiles :=
       [ "package-lock.json"; "yarn.lock"; "*.min.js"; "*.bundle.js"; "*.map";
         "*.lock"; "dist/*"; "build/*"; "node_modules/*" ] |}.

Inductive ChangeType : Type := added | deleted | renamed | modified.

(** What [detectLanguage] returns: a tag of the table (or ['unknown']), or,
    for the two lower-case names that every object literal inherits, the
    inherited member, which is no string. *)
Inductive Language : Type :=
| Lang (tag : string)
| Inherited (name : string).

(** The two shapes of object that [parseFileChange] returns share one
    record; a field that a shape leaves out is [None].  The field [diff] of
    the source is [cleaned] here, [diff] being the field of [Change]. *)
Record ParsedFile : Type := {
  filename : string;
  oldFilename : option string;
  language : Language;
  changeType : ChangeType;
  cleaned : string;
  additions : option nat;
  deletions : option nat;
  isNewFile : option bool;
  isDeletedFile : option bool;
  isRenamedFile : option bool;
  tooLarge : bool;
  size : option nat
}.

Record AddedLine : Type := {
  lineNumber : JS.number;
  content : string
}.

(** [arr.some(f)] where [f] may throw ([None]): the scan stops at the first
    element for which [f] answers true, and at the first throw. *)
Fixpoint some {A : Type} (f : A -> option bool) (l : list A) : option bool :=
  match l with
  | [] => Some false
  | x :: l' =>
      match f x with
      | Some true => Some true
      | Some false => some f l'
      | None => None
      end
  end.

(** The regular expression that [shouldSkipFile] builds from a pattern. *)
Definition globSource (pattern : string) : string :=
  JS.replaceAll "?" "." (JS.replaceAll "*" ".*" pattern).

Section WithHost.

(** [regExpTest source subject] stands for
    [new RegExp(source, 'i').test(subject)]; it is [None] when the constructor
    throws on [source]. *)
Variable regExpTest : string -> string -> option bool.
Variable config : ReviewConfig.

Definition matchesSkipPattern (filename pattern : string) : option bool :=
  if JS.includes pattern "*"
  then regExpTest (globSource pattern) filename
  else Some (String.eqb filename pattern || JS.endsWith filename pattern).

Definition shouldSkipFile (filename : string) : option bool :=
  some (matchesSkipPattern filename) (skipFiles config).

(** The last component of [filename.split('.')]. *)
Fixpoint lastDotComponent (s : string) : string :=
  match s with
  | EmptyString => EmptyString
  | String c s' =>
      if JS.includes s' "." then lastDotComponent s'
      else if Ascii.eqb c "." then s' else s
  end.

Definition languageMap : list (string * string) :=
  [ ("js", "javascript"); ("jsx", "javascript"); ("ts", "typescript");
    ("tsx", "typescript"); ("py", "python"); ("java", "java"); ("go", "go");
    ("rs", "rust"); ("php", "php"); ("rb", "ruby"); ("cs", "csharp");
    ("cpp", "cpp"); ("cc", "cpp"); ("cxx", "cpp"); ("c", "c"); ("h", "c");
    ("hpp", "cpp"); ("kt", "kotlin"); ("swift", "swift"); ("scala", "scala");
    ("dart", "dart"); ("vue", "javascript"); ("svelte", "javascript");
    ("html", "html"); ("css", "css"); ("scss", "scss"); ("sass", "sass");
    ("less", "less"); ("sql", "sql"); ("sh", "bash"); ("bash", "bash");
    ("zsh", "bash"); ("ps1", "powershell"); ("yaml", "yaml"); ("yml", "yaml");
    ("json", "json"); ("xml", "xml"); ("md", "markdown");
    ("dockerfile", "dockerfile") ].

Fixpoint lookup (k : string) (m : list (string * string)) : option string :=
  match m with
  | [] => None
  | (k', v) :: m' => if String.eqb k k' then Some v else lookup k m'
  end.

Definition detectLanguage (filename : string) : Language :=
  let extension := JS.toLowerCase (lastDotComponent filename) in
  match lookup extension languageMap with
  | Some tag => Lang tag
  | None =>
      if String.eqb extension "constructor" || String.eqb extension "__proto__"
      then Inherited extension
      else Lang "unknown"
  end.

Definition isLanguageSupported (l : Language) : bool :=
  match l with
  | Lang tag => existsb (String.eqb tag) (supportedLanguages config)
  | Inherited _ => false
  end.

Definition getChangeType (change : Change) : ChangeType :=
  if new_file change then added
  else if deleted_file change then deleted
  else if renamed_file change then renamed
  else modified.

Definition binaryPlaceholder : string :=
  "// Binary file - cannot review content".

(** One turn of the loop of [cleanDiff] over the lines. *)
Definition cleanStep (cleanedLines : list string) (line : string)
  : list string :=
  if JS.startsWith line "diff --git" || JS.startsWith line "index " ||
     JS.startsWith line "+++" || JS.startsWith line "---"
  then cleanedLines
  else if JS.startsWith line "@@"
  then (cleanedLines ++ [line])%list
  else if JS.startsWith line "+" || JS.startsWith line "-" ||
          JS.startsWith line " "
  then (cleanedLines ++ [line])%list
  else cleanedLines.

Definition cleanDiff (diff : string) : string :=
  if JS.includes diff "Binary files differ" then binaryPlaceholder
  else JS.join JS.nl (fold_left cleanStep (JS.split diff) []).

(** The number of matches of [/^c(?!c)/gm]: the places at the start of the
    text or just after a line terminator that hold [c] not followed by [c]. *)
Fixpoint countAtLineStart (c : ascii) (atStart : bool) (s : string) : nat :=
  match s with
  | EmptyString => 0
  | String a s' =>
      (if atStart && Ascii.eqb a c && negb (JS.startsWith s' (String c EmptyString))
       then 1 else 0) +
      countAtLineStart c (Ascii.eqb a JS.LF || Ascii.eqb a JS.CR) s'
  end.

Definition countAdditions (diff : string) : nat := countAtLineStart "+" true diff.
Definition countDeletions (diff : string) : nat := countAtLineStart "-" true diff.

Definition parseFileChange (change : Change) : option (option ParsedFile) :=
  match diff change with
  | None => Some None
  | Some d =>
      if JS.isEmpty d || String.eqb (JS.trim d) EmptyString then Some None
      else
        match shouldSkipFile (new_path change) with
        | None => None
        | Some true => Some None
        | Some false =>
            if (maxDiffSize config <? Z.of_nat (String.length d))%Z
            then Some (Some {|
              filename := new_path change;
              oldFilename := None;
              language := detectLanguage (new_path change);
              changeType := getChangeType change;
              cleaned := "// Diff too large for review";
              additions := None;
              deletions := None;
              isNewFile := None;
              isDeletedFile := None;
              isRenamedFile := None;
              tooLarge := true;
              size := Some (String.length d) |})
            else
              let language := detectLanguage (new_path change) in
              if negb (isLanguageSupported language) then Some None
              else Some (Some {|
                filename := new_path change;
                oldFilename := old_path change;
                language := language;
                changeType := getChangeType change;
                cleaned := cleanDiff d;
                additions := Some (countAdditions d);
                deletions := Some (countDeletions d);
                isNewFile := Some (new_file change);
                isDeletedFile := Some (deleted_file change);
                isRenamedFile := Some (renamed_file change);
                tooLarge := false;
                size := None |})
        end
  end.

(** A change whose parsing throws is logged and left out. *)
Definition parseMergeRequestChanges (changes : list Change) : list ParsedFile :=
  fold_left
    (fun parsedFiles change =>
       match parseFileChange change with
       | Some (Some parsedFile) => (parsedFiles ++ [parsedFile])%list
       | Some None | None => parsedFiles
       end)
    changes [].

End WithHost.

(** *** Added lines *)

Definition isDigit (c : ascii) : bool :=
  let n := nat_of_ascii c in ((48 <=? n) && (n <=? 57))%nat.

Fixpoint skipDigits (s : string) : string :=
  match s with
  | String c s' => if isDigit c then skipDigits s' else s
  | EmptyString => s
  end.

Fixpoint takeDigits (s : string) : string :=
  match s with
  | String c s' => if isDigit c then String c (takeDigits s') else EmptyString
  | EmptyString => EmptyString
  end.

Definition skipComma (s : string) : string :=
  match s with
  | String c s' => if Ascii.eqb c "," then s' else s
  | EmptyString => s
  end.

Definition expect (p s : string) : option string :=
  if JS.startsWith s p then Some (JS.drop (String.length p) s) else None.

(** A match of [/@@ -\d+,?\d* \+(\d+),?\d* @@/] that starts at the head
    of [s]; the result is the text of the group.  Every run of digits is
    followed by a character that is no digit, so the longest run is the only
    one that can lead to a match. *)
Definition hunkHeaderAt (s : string) : option string :=
  match expect "@@ -" s with
  | None => None
  | Some s1 =>
      if JS.isEmpty (takeDigits s1) then None
      else
        match expect " +" (skipDigits (skipComma (skipDigits s1))) with
        | None => None
        | Some s2 =>
            if JS.isEmpty (takeDigits s2) then None
            else
              match expect " @@" (skipDigits (skipComma (skipDigits s2))) with
              | None => None
              | Some _ => Some (takeDigits s2)
              end
        end
  end.

(** [line.match(...)]: the leftmost match anywhere in the line. *)
Fixpoint hunkHeaderMatch (s : string) : option string :=
  match hunkHeaderAt s with
  | Some g => Some g
  | None =>
      match s with
      | String _ s' => hunkHeaderMatch s'
      | EmptyString => None
      end
  end.

Definition numAdd (n : JS.number) (k : Z) : JS.number :=
  match n with
  | JS.JNum z => JS.JNum (z + k)
  | JS.JNaN => JS.JNaN
  end.

Record ScanState : Type := {
  currentLineNumber : JS.number;
  inHunk : bool;
  addedLines : list AddedLine
}.

(** One turn of the loop of [extractAddedLines]. *)
Definition scanStep (st : ScanState) (line : string) : ScanState :=
  if JS.startsWith line "@@" then
    match hunkHeaderMatch line with
    | Some g =>
        {| currentLineNumber := numAdd (JS.parseInt g) (-1);
           inHunk := true;
           addedLines := addedLines st |}
    | None => st
    end
  else if negb (inHunk st) then st
  else
    let added :=
      if JS.startsWith line "+" && negb (JS.startsWith line "+++")
      then (addedLines st ++
            [{| lineNumber := numAdd (currentLineNumber st) 1;
                content := JS.substring 1 line |}])%list
      else addedLines st in
    let current :=
      if JS.startsWith line " " || JS.startsWith line "+"
      then numAdd (currentLineNumber st) 1
      else currentLineNumber st in
    {| currentLineNumber := current; inHunk := inHunk st; addedLines := added |}.

Definition scanStart : ScanState :=
  {| currentLineNumber := JS.JNum 0; inHunk := false; addedLines := [] |}.

Definition scanLines (lines : list string) : ScanState :=
  fold_left scanStep lines scanStart.

Definition extractAddedLines (diff : string) : list AddedLine :=
  addedLines (scanLines (JS.split diff)).

End DiffParser.

(** ** The response parser (class [AIService]) *)

Module AIService.

(** An issue as [parseReview] builds it; [line] is [None] for [null]. *)
Record Issue : Type := {
  type : string;
  severity : string;
  line : option JS.number;
  description : string;
  suggestion : string;
  example : string
}.

Record Review : Type := {
  summary : string;
  issues : list Issue;
  rawReview : string
}.

Definition extractValue (line : string) : string :=
  let colonIndex := JS.indexOf ":" line in
  if (colonIndex =? -1)%Z then EmptyString
  else JS.trim (JS.substring (colonIndex + 1) line).

Fixpoint summaryLoop (lines : list string) (summaryLines : list string)
  : list string :=
  match lines with
  | [] => summaryLines
  | line :: rest =>
      let trimmedLine := JS.trim line in
      if negb (JS.isEmpty trimmedLine) && negb (JS.startsWith trimmedLine "- **")
      then summaryLoop rest (summaryLines ++ [trimmedLine])%list
      else if JS.startsWith trimmedLine "- **"
      then summaryLines
      else summaryLoop rest summaryLines
  end.

Definition defaultSummary : string := "Code review completed.".

Definition extractSummary (reviewText : string) : string :=
  let joined := JS.trim (JS.join " " (summaryLoop (JS.split reviewText) [])) in
  if JS.isEmpty joined then defaultSummary else joined.

Definition newIssue (trimmedLine : string) : Issue :=
  {| type := extractValue trimmedLine;
     severity := "MEDIUM";
     line := None;
     description := EmptyString;
     suggestion := EmptyString;
     example := EmptyString |}.

(** The chain of field markers applied to the issue being accumulated. *)
Definition setField (currentIssue : Issue) (trimmedLine : string) : Issue :=
  if JS.startsWith trimmedLine "- **Severity**:" then
    {| type := type currentIssue;
       severity := extractValue trimmedLine;
       line := line currentIssue;
       description := description currentIssue;
       suggestion := suggestion currentIssue;
       example := example currentIssue |}
  else if JS.startsWith trimmedLine "- **Line**:" then
    let lineValue := extractValue trimmedLine in
    {| type := type currentIssue;
       severity := severity currentIssue;
       line := if negb (String.eqb lineValue "N/A")
               then Some (JS.parseInt lineValue) else None;
       description := description currentIssue;
       suggestion := suggestion currentIssue;
       example := example currentIssue |}
  else if JS.startsWith trimmedLine "- **Description**:" then
    {| type := type currentIssue;
       severity := severity currentIssue;
       line := line currentIssue;
       description := extractValue trimmedLine;
       suggestion := suggestion currentIssue;
       example := example currentIssue |}
  else if JS.startsWith trimmedLine "- **Suggestion**:" then
    {| type := type currentIssue;
       severity := severity currentIssue;
       line := line currentIssue;
       description := description currentIssue;
       suggestion := extractValue trimmedLine;
       example := example currentIssue |}
  else if JS.startsWith trimmedLine "- **Example**:" then
    {| type := type currentIssue;
       severity := severity currentIssue;
       line := line currentIssue;
       description := description currentIssue;
       suggestion := suggestion currentIssue;
       example := extractValue trimmedLine |}
  else currentIssue.

(** The state of the loop of [parseReview]: the issues pushed so far and
    the issue being accumulated. *)
Definition ParseState : Type := (list Issue * option Issue)%type.

Definition pushCurrent (st : ParseState) : list Issue :=
  let '(issues, currentIssue) := st in
  match currentIssue with
  | Some issue => (issues ++ [issue])%list
  | None => issues
  end.

Definition parseStep (st : ParseState) (line : string) : ParseState :=
  let trimmedLine := JS.trim line in
  if JS.startsWith trimmedLine "- **Issue Type**:" then
    (pushCurrent st, Some (newIssue trimmedLine))
  else
    match snd st with
    | Some issue => (fst st, Some (setField issue trimmedLine))
    | None => st
    end.

Definition parseLines (lines : list string) : ParseState :=
  fold_left parseStep lines ([], None).

Definition parseReview (reviewText : string) : Review :=
  {| summary := extractSummary reviewText;
     issues := pushCurrent (parseLines (JS.split reviewText));
     rawReview := reviewText |}.

End AIService.

(** ** Orchestration and rendering (class [GitLabReviewer]) *)

Module GitLabReviewer.

Record ReviewContext : Type := {
  ctxDescription : option string;
  commitMessages : list string
}.

(** An entry of [reviews].  The three object literals of the loop share
    this record; a property that a literal leaves out is [None], or [false]
    for the two flags. *)
Record FileReview : Type := {
  filename : string;
  language : option DiffParser.Language;
  changeType : option DiffParser.ChangeType;
  skipped : bool;
  reason : option string;
  error : bool;
  errorMessage : option string;
  summary : option string;
  issues : option (list AIService.Issue);
  rawReview : option string
}.

Definition skippedReview (file : DiffParser.ParsedFile) : FileReview :=
  {| filename := DiffParser.filename file;
     language := None; changeType := None;
     skipped := true; reason := Some "File too large";
     error := false; errorMessage := None;
     summary := None; issues := Some []; rawReview := None |}.

Definition normalReview (file : DiffParser.ParsedFile)
  (review : AIService.Review) : FileReview :=
  {| filename := DiffParser.filename file;
     language := Some (DiffParser.language file);
     changeType := Some (DiffParser.changeType file);
     skipped := false; reason := None;
     error := false; errorMessage := None;
     summary := Some (AIService.summary review);
     issues := Some (AIService.issues review);
     rawReview := Some (AIService.rawReview review) |}.

Definition erroredReview (file : DiffParser.ParsedFile) (message : string)
  : FileReview :=
  {| filename := DiffParser.filename file;
     language := None; changeType := None;
     skipped := false; reason := None;
     error := true; errorMessage := Some message;
     summary := None; issues := Some []; rawReview := None |}.

Section ReviewLoop.

(** The state of the model API and of whatever else the call touches. *)
Variable World : Type.

(** [aiService.reviewCode(filename, language, diff, context)]: the call
    either returns a review ([inr]) or throws an error with a message
    ([inl]), and moves the world on in both cases. *)
Variable reviewCode :
  string -> DiffParser.Language -> string -> ReviewContext ->
  World -> World * (string + AIService.Review).

Variable context : ReviewContext.

(** One turn of the loop [for (const file of parsedFiles)]. *)
Definition reviewFile (st : World * list FileReview)
  (file : DiffParser.ParsedFile) : World * list FileReview :=
  let '(w, reviews) := st in
  if DiffParser.tooLarge file then (w, reviews ++ [skippedReview file])%list
  else
    match reviewCode (DiffParser.filename file) (DiffParser.language file)
            (DiffParser.cleaned file) context w with
    | (w', inr review) => (w', reviews ++ [normalReview file review])%list
    | (w', inl message) => (w', reviews ++ [erroredReview file message])%list
    end.

Definition reviewFiles (w : World) (parsedFiles : list DiffParser.ParsedFile)
  : World * list FileReview :=
  fold_left reviewFile parsedFiles (w, []).

End ReviewLoop.

(** *** The comment *)

Definition issueCount (review : FileReview) : nat :=
  match issues review with
  | Some l => List.length l
  | None => 0
  end.

Definition countWhere (p : AIService.Issue -> bool) (review : FileReview) : nat :=
  match issues review with
  | Some l => List.length (filter p l)
  | None => 0
  end.

Definition hasSeverity (s : string) (issue : AIService.Issue) : bool :=
  String.eqb (AIService.severity issue) s.

Definition hasType (t : string) (issue : AIService.Issue) : bool :=
  String.eqb (AIService.type issue) t.

(** [reviews.reduce((sum, review) => sum + f(review), 0)] *)
Definition sumOver (f : FileReview -> nat) (reviews : list FileReview) : nat :=
  fold_left (fun sum review => sum + f review) reviews 0.

Definition str (n : nat) : string := JS.numToString (Z.of_nat n).

Definition severityIcon (severity : string) : string :=
  if String.eqb severity "CRITICAL" then "🚨"
  else if String.eqb severity "HIGH" then "⚠️"
  else if String.eqb severity "MEDIUM" then "⚡"
  else if String.eqb severity "LOW" then "💡"
  else "undefined".

Definition renderIssue (comment : string) (issue : AIService.Issue) : string :=
  let comment := comment ++ "**" ++ AIService.type issue ++ "**" in
  let comment :=
    match AIService.line issue with
    | Some (JS.JNum z) =>
        if JS.truthyNumber (JS.JNum z)
        then comment ++ " (Line " ++ JS.numToString z ++ ")"
        else comment
    | Some JS.JNaN | None => comment
    end in
  let comment := comment ++ JS.nl in
  let comment := comment ++ AIService.description issue ++ JS.nl ++ JS.nl in
  let comment :=
    if negb (JS.isEmpty (AIService.suggestion issue))
    then comment ++ "*Suggestion:* " ++ AIService.suggestion issue ++ JS.nl ++ JS.nl
    else comment in
  if negb (JS.isEmpty (AIService.example issue))
  then comment ++ "*Example:*" ++ JS.nl ++ "```" ++ JS.nl ++
       AIService.example issue ++ JS.nl ++ "```" ++ JS.nl ++ JS.nl
  else comment.

(** [Object.entries(issuesBySeverity)]: the keys in the order of the
    object literal. *)
Definition issuesBySeverity (l : list AIService.Issue)
  : list (string * list AIService.Issue) :=
  [ ("CRITICAL", filter (hasSeverity "CRITICAL") l);
    ("HIGH", filter (hasSeverity "HIGH") l);
    ("MEDIUM", filter (hasSeverity "MEDIUM") l);
    ("LOW", filter (hasSeverity "LOW") l) ].

Definition renderGroup (comment : string)
  (entry : string * list AIService.Issue) : string :=
  let '(severity, issues) := entry in
  if (List.length issues =? 0)%nat then comment
  else
    let comment :=
      comment ++ "#### " ++ severityIcon severity ++ " " ++ severity ++
      " Issues" ++ JS.nl ++ JS.nl in
    fold_left renderIssue issues comment.

Definition renderReview (comment : string) (review : FileReview) : string :=
  if error review then
    comment ++ "### ❌ " ++ filename review ++ JS.nl ++
    "*Error during review: " ++
    match errorMessage review with Some m => m | None => "undefined" end ++
    "*" ++ JS.nl ++ JS.nl
  else if skipped review then
    comment ++ "### ⏭️ " ++ filename review ++ JS.nl ++
    "*Skipped: " ++
    match reason review with Some r => r | None => "undefined" end ++
    "*" ++ JS.nl ++ JS.nl
  else
    match issues review with
    | None | Some [] =>
        comment ++ "### ✅ " ++ filename review ++ JS.nl ++
        "*No issues found*" ++ JS.nl ++ JS.nl
    | Some l =>
        let comment :=
          comment ++ "### 📝 " ++ filename review ++ JS.nl ++
          "*" ++ str (List.length l) ++ " issue(s) found*" ++ JS.nl ++ JS.nl in
        fold_left renderGroup (issuesBySeverity l) comment
    end.

Section Comment.

(** [new Date().toISOString()] at the time of the call, and the two
    configuration strings of the footer. *)
Variable now : string.
Variable provider : string.
Variable model : string.

Definition generateReviewComment (reviews : list FileReview) : string :=
  let totalIssues := sumOver issueCount reviews in
  let criticalIssues := sumOver (countWhere (hasSeverity "CRITICAL")) reviews in
  let securityIssues := sumOver (countWhere (hasType "SECURITY")) reviews in
  let comment := "## 🤖 AI Code Review" ++ JS.nl ++ JS.nl in
  let comment :=
    if (totalIssues =? 0)%nat then
      comment ++ "✅ **Great work!** No issues found in this merge request." ++
      JS.nl ++ JS.nl
    else
      let comment := comment ++ "📊 **Review Summary:**" ++ JS.nl in
      let comment :=
        comment ++ "- **Files Reviewed:** " ++ str (List.length reviews) ++ JS.nl in
      let comment :=
        comment ++ "- **Total Issues:** " ++ str totalIssues ++ JS.nl in
      let comment :=
        if (0 <? criticalIssues)%nat
        then comment ++ "- **Critical Issues:** ⚠️ " ++ str criticalIssues ++ JS.nl
        else comment in
      let comment :=
        if (0 <? securityIssues)%nat
        then comment ++ "- **Security Issues:** 🔒 " ++ str securityIssues ++ JS.nl
        else comment in
      comment ++ JS.nl in
  let comment := fold_left renderReview reviews comment in
  let comment := comment ++ "---" ++ JS.nl in
  let comment :=
    comment ++ "*Review generated by GitLab AI Reviewer at " ++ now ++ "*" ++ JS.nl in
  comment ++ "*Powered by " ++ JS.toUpperCase provider ++ " " ++ model ++ "*".

End Comment.

End GitLabReviewer.

(** ** The prompts and the keys ([config]) *)

Module Config.

(** [config.prompts.reviewPrompt] and [config.prompts.systemPrompt]. *)
Definition reviewPrompt : string :=
  "Please review the following code changes and provide feedback:" ++ JS.nl ++
  EmptyString ++ JS.nl ++
  "**File**: {filename}" ++ JS.nl ++
  "**Language**: {language}" ++ JS.nl ++
  "**Changes**:" ++ JS.nl ++
  "```diff" ++ JS.nl ++
  "{diff}" ++ JS.nl ++
  "```" ++ JS.nl ++
  EmptyString ++ JS.nl ++
  "Focus on security, performance, code quality, and potential bugs. Provide specific, actionable feedback.".

Definition systemPrompt : string :=
  "You are an expert code reviewer with deep knowledge of software engineering best practices, security, and performance optimization. " ++ JS.nl ++
  EmptyString ++ JS.nl ++
  "Your task is to review code changes and provide constructive feedback. Focus on:" ++ JS.nl ++
  EmptyString ++ JS.nl ++
  "1. **Security Issues**: Identify potential vulnerabilities, injection attacks, authentication/authorization issues" ++ JS.nl ++
  "2. **Performance Problems**: Spot inefficient algorithms, memory leaks, unnecessary computations" ++ JS.nl ++
  "3. **Code Quality**: Check for readability, maintainability, proper naming conventions" ++ JS.nl ++
  "4. **Best Practices**: Ensure adherence to language-specific conventions and patterns" ++ JS.nl ++
  "5. **Potential Bugs**: Identify logic errors, edge cases, null pointer issues" ++ JS.nl ++
  EmptyString ++ JS.nl ++
  "Provide feedback in this format:" ++ JS.nl ++
  "- **Issue Type**: [SECURITY|PERFORMANCE|STYLE|BUG|BEST_PRACTICE]" ++ JS.nl ++
  "- **Severity**: [CRITICAL|HIGH|MEDIUM|LOW]" ++ JS.nl ++
  "- **Line**: [line number if applicable]" ++ JS.nl ++
  "- **Description**: Clear explanation of the issue" ++ JS.nl ++
  "- **Suggestion**: Specific recommendation for improvement" ++ JS.nl ++
  "- **Example**: Code example if helpful" ++ JS.nl ++
  EmptyString ++ JS.nl ++
  "Be constructive and educational. Focus on the most important issues first.".

(** The flags of [config.review] that choose the focus areas. *)
Record ReviewCriteria : Type := {
  enableSecurityChecks : bool;
  enablePerformanceChecks : bool;
  enableCodeStyleChecks : bool;
  enableBestPracticesChecks : bool;
  enableBugDetection : bool
}.

(** The provider and the keys as [config.ai] holds them. *)
Record AIKeys : Type := {
  provider : string;
  openaiKey : option string;
  openrouterKey : option string;
  deepseekKey : option string;
  anthropicKey : option string
}.

(** [v || d] for a text that may be absent. *)
Definition orDefault (v : option string) (d : string) : string :=
  match v with
  | Some s => if JS.isEmpty s then d else s
  | None => d
  end.

(** The provider and the keys of [config.ai], as the module reads them from
    the environment when it is loaded. *)
Definition aiKeys (env : string -> option string) : AIKeys :=
  {| provider := orDefault (env "AI_PROVIDER") "openrouter";
     openaiKey := env "OPENAI_API_KEY";
     openrouterKey := env "OPENROUTER_API_KEY";
     deepseekKey := env "DEEPSEEK_API_KEY";
     anthropicKey := env "ANTHROPIC_API_KEY" |}.

(** [!v] for a text that may be absent. *)
Definition missingValue (v : option string) : bool :=
  match v with
  | Some s => JS.isEmpty s
  | None => true
  end.

(** [validateConfig()], with [env] for [process.env] at the time of the
    call; [inl] is the message of the error thrown. *)
Definition validateConfig (env : string -> option string) (ai : AIKeys)
  : string + unit :=
  let required :=
    (["GITLAB_TOKEN"] ++
     (if String.eqb (provider ai) "openai" then ["OPENAI_API_KEY"]
      else if String.eqb (provider ai) "openrouter" then ["OPENROUTER_API_KEY"]
      else if String.eqb (provider ai) "deepseek" then ["DEEPSEEK_API_KEY"]
      else if String.eqb (provider ai) "anthropic" then ["ANTHROPIC_API_KEY"]
      else []))%list in
  let missing := filter (fun key => missingValue (env key)) required in
  if (0 <? List.length missing)%nat then
    inl ("Missing required environment variables: " ++ JS.join ", " missing)
  else if String.eqb (provider ai) "openai" && missingValue (openaiKey ai) then
    inl "OpenAI API key is required when using OpenAI provider"
  else if String.eqb (provider ai) "openrouter" &&
          missingValue (openrouterKey ai) then
    inl "OpenRouter API key is required when using OpenRouter provider"
  else if String.eqb (provider ai) "deepseek" && missingValue (deepseekKey ai) then
    inl "DeepSeek API key is required when using DeepSeek provider"
  else if String.eqb (provider ai) "anthropic" &&
          missingValue (anthropicKey ai) then
    inl "Anthropic API key is required when using Anthropic provider"
  else inr tt.

End Config.

(** ** The request to the model (class [AIService]) *)

Module AIRequest.

(** [prompt.replace('{language}', language)]: a tag is a text; of the two
    inherited members that [detectLanguage] may give, the constructor of
    objects is a function, which [replace] calls with the match and whose
    answer reads as the match again, and the prototype of objects reads as
    [[object Object]]. *)
Definition replaceLanguage (language : DiffParser.Language) (prompt : string)
  : string :=
  match language with
  | DiffParser.Lang tag => JS.replace "{language}" tag prompt
  | DiffParser.Inherited name =>
      if String.eqb name "constructor" then prompt
      else JS.replace "{language}" "[object Object]" prompt
  end.

Definition criteriaOf (criteria : Config.ReviewCriteria) : list string :=
  ((if Config.enableSecurityChecks criteria
    then ["security vulnerabilities"] else []) ++
   (if Config.enablePerformanceChecks criteria
    then ["performance issues"] else []) ++
   (if Config.enableCodeStyleChecks criteria
    then ["code style and formatting"] else []) ++
   (if Config.enableBestPracticesChecks criteria
    then ["best practices"] else []) ++
   (if Config.enableBugDetection criteria
    then ["potential bugs"] else []))%list.

Definition buildReviewPrompt (template : string)
  (flags : Config.ReviewCriteria)
  (filename : string) (language : DiffParser.Language) (diff : string)
  (context : GitLabReviewer.ReviewContext) : string :=
  let prompt :=
    JS.replace "{diff}" diff
      (replaceLanguage language (JS.replace "{filename}" filename template)) in
  let prompt :=
    match GitLabReviewer.ctxDescription context with
    | Some description =>
        if JS.isEmpty description then prompt
        else prompt ++ JS.nl ++ JS.nl ++ "**Merge Request Description**:" ++
             JS.nl ++ description
    | None => prompt
    end in
  let prompt :=
    if (0 <? List.length (GitLabReviewer.commitMessages context))%nat
    then prompt ++ JS.nl ++ JS.nl ++ "**Recent Commit Messages**:" ++ JS.nl ++
         JS.join JS.nl (GitLabReviewer.commitMessages context)
    else prompt in
  let criteria := criteriaOf flags in
  if (0 <? List.length criteria)%nat
  then prompt ++ JS.nl ++ JS.nl ++ "**Focus Areas**: " ++ JS.join ", " criteria
  else prompt.

(** What the constructor of the client is given. *)
Record ClientOptions : Type := {
  apiKey : option string;
  baseURL : option string
}.

(** The keys and addresses of [config.ai] that the clients use. *)
Record ClientConfig : Type := {
  openaiApiKey : option string;
  deepseekApiKey : option string;
  deepseekBaseURL : option string;
  azureApiKey : option string;
  azureEndpoint : option string
}.

(** [initializeProvider]: the options with which the client is built, or
    the message of the error thrown. *)
Definition initializeProvider (provider : string) (keys : ClientConfig)
  : string + ClientOptions :=
  if String.eqb provider "openai" then
    inr {| apiKey := openaiApiKey keys; baseURL := None |}
  else if String.eqb provider "deepseek" then
    inr {| apiKey := deepseekApiKey keys;
           baseURL := Some (Config.orDefault (deepseekBaseURL keys)
                              "https://api.deepseek.com/v1") |}
  else if String.eqb provider "anthropic" then
    inl "Anthropic provider not implemented yet"
  else if String.eqb provider "google" then
    inl "Google AI provider not implemented yet"
  else if String.eqb provider "azure" then
    inr {| apiKey := azureApiKey keys; baseURL := azureEndpoint keys |}
  else inl ("Unsupported AI provider: " ++ provider).

Definition noContent : string := "No review content received from AI".

Section Calls.

(** The type of the temperatures, which the embedding only passes on. *)
Variable Temperature : Type.

Record ModelConfig : Type := {
  model : string;
  maxTokens : Z;
  temperature : Temperature
}.

Record ProviderConfig : Type := {
  providerName : string;
  openai : ModelConfig;
  deepseek : ModelConfig;
  azureModel : string
}.

Definition getModelConfig (ai : ProviderConfig) : ModelConfig :=
  if String.eqb (providerName ai) "openai" then openai ai
  else if String.eqb (providerName ai) "deepseek" then deepseek ai
  else if String.eqb (providerName ai) "azure" then
    {| model := azureModel ai;
       maxTokens := maxTokens (openai ai);
       temperature := temperature (openai ai) |}
  else openai ai.

(** The request of a chat completion and its answer. *)
Record ChatRequest : Type := {
  requestModel : string;
  systemContent : string;
  userContent : string;
  max_tokens : Z;
  requestTemperature : Temperature
}.

Record ChatMessage : Type := { content : option string }.
Record Choice : Type := { message : option ChatMessage }.
Record ChatResponse : Type := { choices : list Choice }.

(** [response.choices[0]?.message?.content] *)
Definition firstContent (response : ChatResponse) : option string :=
  match choices response with
  | [] => None
  | choice :: _ =>
      match message choice with
      | Some m => content m
      | None => None
      end
  end.

Variable World : Type.

(** [client.chat.completions.create(request)]: an answer, or an error with
    its message. *)
Variable create : ChatRequest -> World -> World * (string + ChatResponse).

Variable template : string.
Variable flags : Config.ReviewCriteria.
Variable ai : ProviderConfig.

(** [reviewCode], for a service whose client exists; the handler of the
    method logs the error and throws it again. *)
Definition reviewCode (filename : string) (language : DiffParser.Language)
  (diff : string) (context : GitLabReviewer.ReviewContext) (w : World)
  : World * (string + AIService.Review) :=
  let prompt := buildReviewPrompt template flags filename language diff context in
  let modelConfig := getModelConfig ai in
  match create {| requestModel := model modelConfig;
                  systemContent := Config.systemPrompt;
                  userContent := prompt;
                  max_tokens := maxTokens modelConfig;
                  requestTemperature := temperature modelConfig |} w with
  | (w', inl error) => (w', inl error)
  | (w', inr response) =>
      match firstContent response with
      | Some review =>
          if JS.isEmpty review then (w', inl noContent)
          else (w', inr (AIService.parseReview review))
      | None => (w', inl noContent)
      end
  end.

End Calls.

End AIRequest.

(** ** The notes of a merge request (class [GitLabAPI]) *)

Module GitLabAPI.

Record Note : Type := {
  id : Z;
  body : string;
  system : bool
}.

(** The default of the parameter [botIdentifier], with the bytes that the
    source file holds. *)
Definition botIdentifier : string := "ðŸ¤– AI Code Review".

Definition isBotComment (identifier : string) (comment : Note) : bool :=
  JS.includes (body comment) identifier && Bool.eqb (system comment) false.

Section Calls.

Variable World : Type.
Variable getMergeRequestComments :
  string -> string -> World -> World * (string + list Note).

(** [findExistingBotComment]: a failure of the request is logged and gives
    [null]. *)
Definition findExistingBotComment (projectId mergeRequestIid : string)
  (identifier : string) (w : World) : World * option Note :=
  match getMergeRequestComments projectId mergeRequestIid w with
  | (w', inr comments) => (w', find (isBotComment identifier) comments)
  | (w', inl _) => (w', None)
  end.

End Calls.

End GitLabAPI.

(** ** The review of a merge request (class [GitLabReviewer], continued) *)

Module ReviewRun.

Record MergeRequest : Type := {
  title : string;
  authorName : string;
  description : option string
}.

Record Commit : Type := { message : string }.

Definition noReviewComment (timestamp : string) : string :=
  "## 🤖 AI Code Review" ++ JS.nl ++ JS.nl ++
  "ℹ️ No reviewable code changes found in this merge request." ++ JS.nl ++ JS.nl ++
  "This might be because:" ++ JS.nl ++
  "- Only configuration files or documentation were changed" ++ JS.nl ++
  "- Files are too large to review" ++ JS.nl ++
  "- File types are not supported for review" ++ JS.nl ++ JS.nl ++
  "---" ++ JS.nl ++
  "*Review generated by GitLab AI Reviewer at " ++ timestamp ++ "*".

Definition errorComment (errorMessage timestamp : string) : string :=
  "## 🤖 AI Code Review" ++ JS.nl ++ JS.nl ++
  "❌ **Review Failed**" ++ JS.nl ++ JS.nl ++
  "An error occurred while reviewing this merge request:" ++ JS.nl ++
  "`" ++ errorMessage ++ "`" ++ JS.nl ++ JS.nl ++
  "Please check the configuration and try again." ++ JS.nl ++ JS.nl ++
  "---" ++ JS.nl ++
  "*Error reported by GitLab AI Reviewer at " ++ timestamp ++ "*".

Section Run.

Variable World : Type.

(** The calls that leave the process: each gives a value or throws an error
    with a message, and moves the world on.  [clock] reads
    [new Date().toISOString()]. *)
Variable validateConfig : World -> string + unit.
Variable getMergeRequest :
  string -> string -> World -> World * (string + MergeRequest).
Variable getMergeRequestChanges :
  string -> string -> World -> World * (string + list DiffParser.Change).
Variable getMergeRequestCommits :
  string -> string -> World -> World * (string + list Commit).
Variable postMergeRequestComment :
  string -> string -> string -> World -> World * (string + unit).
Variable getMergeRequestComments :
  string -> string -> World -> World * (string + list GitLabAPI.Note).
Variable updateMergeRequestComment :
  string -> string -> Z -> string -> World -> World * (string + unit).
Variable reviewCode :
  string -> DiffParser.Language -> string -> GitLabReviewer.ReviewContext ->
  World -> World * (string + AIService.Review).
Variable clock : World -> string.

Variable regExpTest : string -> string -> option bool.
Variable config : DiffParser.ReviewConfig.
Variable provider : string.
Variable model : string.

(** [gatherContext]: a failure to get the commits is logged and leaves the
    list of messages empty. *)
Definition gatherContext (projectId mergeRequestIid : string)
  (mergeRequest : MergeRequest) (w : World)
  : World * GitLabReviewer.ReviewContext :=
  match getMergeRequestCommits projectId mergeRequestIid w with
  | (w', inr commits) =>
      (w', {| GitLabReviewer.ctxDescription := description mergeRequest;
              GitLabReviewer.commitMessages := map message (firstn 5 commits) |})
  | (w', inl _) =>
      (w', {| GitLabReviewer.ctxDescription := description mergeRequest;
              GitLabReviewer.commitMessages := [] |})
  end.

(** [postReviewComment]: the search for a comment of the bot is made with
    the default identifier; the handler of the method logs an error and
    throws it again. *)
Definition postReviewComment (projectId mergeRequestIid : string)
  (reviews : list GitLabReviewer.FileReview) (w : World)
  : World * (string + unit) :=
  let '(w1, existingComment) :=
    GitLabAPI.findExistingBotComment World getMergeRequestComments
      projectId mergeRequestIid GitLabAPI.botIdentifier w in
  let commentContent :=
    GitLabReviewer.generateReviewComment (clock w1) provider model reviews in
  match existingComment with
  | Some comment =>
      updateMergeRequestComment projectId mergeRequestIid
        (GitLabAPI.id comment) commentContent w1
  | None =>
      postMergeRequestComment projectId mergeRequestIid commentContent w1
  end.

Definition postNoReviewComment (projectId mergeRequestIid : string) (w : World)
  : World * (string + unit) :=
  postMergeRequestComment projectId mergeRequestIid (noReviewComment (clock w)) w.

Definition postErrorComment (projectId mergeRequestIid : string)
  (errorMessage : string) (w : World) : World * (string + unit) :=
  postMergeRequestComment projectId mergeRequestIid
    (errorComment errorMessage (clock w)) w.

(** The block guarded by [try] in [reviewMergeRequest]. *)
Definition reviewSteps (projectId mergeRequestIid : string) (w : World)
  : World * (string + unit) :=
  match validateConfig w with
  | inl error => (w, inl error)
  | inr _ =>
      match getMergeRequest projectId mergeRequestIid w with
      | (w1, inl error) => (w1, inl error)
      | (w1, inr mergeRequest) =>
          match getMergeRequestChanges projectId mergeRequestIid w1 with
          | (w2, inl error) => (w2, inl error)
          | (w2, inr changes) =>
              let parsedFiles :=
                DiffParser.parseMergeRequestChanges regExpTest config changes in
              if (List.length parsedFiles =? 0)%nat
              then postNoReviewComment projectId mergeRequestIid w2
              else
                let '(w3, context) :=
                  gatherContext projectId mergeRequestIid mergeRequest w2 in
                let '(w4, reviews) :=
                  GitLabReviewer.reviewFiles World reviewCode context w3
                    parsedFiles in
                postReviewComment projectId mergeRequestIid reviews w4
          end
      end
  end.

(** [reviewMergeRequest]: on an error the handler tries to post the error
    comment, whose own failure is only logged, and throws the error again. *)
Definition reviewMergeRequest (projectId mergeRequestIid : string) (w : World)
  : World * (string + unit) :=
  match reviewSteps projectId mergeRequestIid w with
  | (w', inr done) => (w', inr done)
  | (w', inl error) =>
      (fst (postErrorComment projectId mergeRequestIid error w'), inl error)
  end.

End Run.

End ReviewRun.

(** ** Vocabulary of the statements *)

(** A text without line feed. *)
Fixpoint singleLine (s : string) : bool :=
  match s with
  | EmptyString => true
  | String c s' => negb (Ascii.eqb c JS.LF) && singleLine s'
  end.

(** A text that [trim] leaves as it is. *)
Definition Trimmed (s : string) : Prop := JS.trim s = s.

(** The elements before the first one that satisfies [p]. *)
Fixpoint takeUntil {A : Type} (p : A -> bool) (l : list A) : list A :=
  match l with
  | [] => []
  | x :: l' => if p x then [] else x :: takeUntil p l'
  end.

(** A line that opens an issue, and a line that starts as a field does. *)
Definition isIssueMarker (line : string) : bool :=
  JS.startsWith (JS.trim line) "- **Issue Type**:".

Definition isFieldLine (line : string) : bool :=
  JS.startsWith (JS.trim line) "- **".

(** The lines that the summary is made of, in the words of the
    specification: trimmed, not empty, before the first field line. *)
Definition summaryLines (reviewText : string) : list string :=
  filter (fun t => negb (JS.isEmpty t))
    (map JS.trim (takeUntil isFieldLine (JS.split reviewText))).

(** The last element that satisfies [p]. *)
Fixpoint findLast {A : Type} (p : A -> bool) (l : list A) : option A :=
  match l with
  | [] => None
  | x :: l' =>
      match findLast p l' with
      | Some y => Some y
      | None => if p x then Some x else None
      end
  end.

Definition isSeverityLine (line : string) : bool :=
  JS.startsWith (JS.trim line) "- **Severity**:".

Definition isLineLine (line : string) : bool :=
  JS.startsWith (JS.trim line) "- **Line**:".

(** What a [Line] field with the given trimmed line sets. *)
Definition lineOfField (trimmedLine : string) : option JS.number :=
  if String.eqb (AIService.extractValue trimmedLine) "N/A" then None
  else Some (JS.parseInt (AIService.extractValue trimmedLine)).

(** The text starts, after whitespace and one sign, with a decimal digit. *)
Definition leadingDigit (v : string) : bool :=
  match JS.trimStart v with
  | EmptyString => false
  | String c s =>
      if Ascii.eqb c "-" || Ascii.eqb c "+"
      then match s with
           | EmptyString => false
           | String d _ => DiffParser.isDigit d
           end
      else DiffParser.isDigit c
  end.

(** Nothing follows, or the next line opens an issue. *)
Definition endsSpan (post : list string) : bool :=
  match post with
  | [] => true
  | l :: _ => isIssueMarker l
  end.

(** The lines that [cleanDiff] keeps: no header line, and a hunk header or
    a line that starts with a plus, a minus or a space. *)
Definition isHeaderLine (line : string) : bool :=
  JS.startsWith line "diff --git" || JS.startsWith line "index " ||
  JS.startsWith line "+++" || JS.startsWith line "---".

Definition keepLine (line : string) : bool :=
  negb (isHeaderLine line) &&
  (JS.startsWith line "@@" || JS.startsWith line "+" ||
   JS.startsWith line "-" || JS.startsWith line " ").

Definition binaryMark : string := "Binary files differ".

(** A text made of decimal digits only. *)
Fixpoint allDigits (s : string) : bool :=
  match s with
  | EmptyString => true
  | String c s' => DiffParser.isDigit c && allDigits s'
  end.

(** A field line of a response: the name of the field between its marks,
    a colon, a space and the value. *)
Definition fieldLine (name v : string) : string := (name ++ ":") ++ " " ++ v.

(** The text of a line number, [N/A] when there is none. *)
Definition lineText (l : option JS.number) : string :=
  match l with
  | Some (JS.JNum n) => JS.numToString n
  | Some JS.JNaN | None => "N/A"
  end.

(** The six lines that carry an issue, and the response that carries a
    list of issues. *)
Definition issueLines (i : AIService.Issue) : list string :=
  [ fieldLine "- **Issue Type**" (AIService.type i);
    fieldLine "- **Severity**" (AIService.severity i);
    fieldLine "- **Line**" (lineText (AIService.line i));
    fieldLine "- **Description**" (AIService.description i);
    fieldLine "- **Suggestion**" (AIService.suggestion i);
    fieldLine "- **Example**" (AIService.example i) ].

Definition responseOf (l : list AIService.Issue) : string :=
  JS.join JS.nl (flat_map issueLines l).

(** A field value: one line, trimmed. *)
Definition FieldValue (v : string) : Prop :=
  singleLine v = true /\ Trimmed v.

Definition KnownSeverity (s : string) : Prop :=
  s = "CRITICAL" \/ s = "HIGH" \/ s = "MEDIUM" \/ s = "LOW".

Record WellFormedIssue (i : AIService.Issue) : Prop := {
  wf_type : FieldValue (AIService.type i);
  wf_severity : KnownSeverity (AIService.severity i);
  wf_line : AIService.line i = None \/
            exists n, (0 < n)%Z /\ AIService.line i = Some (JS.JNum n);
  wf_description : FieldValue (AIService.description i);
  wf_suggestion : FieldValue (AIService.suggestion i);
  wf_example : FieldValue (AIService.example i)
}.

(** A field name that [fieldLine] can carry: no colon inside, and no
    whitespace in front. *)
Definition fieldName (name : string) : bool :=
  negb (JS.includes name ":") &&
  match name with
  | String c _ => negb (JS.isWhite c)
  | EmptyString => false
  end.

(** A hunk header [@@ -a,b +c,d @@], followed by any text. *)
Definition hunkHeader (a b c d : Z) (tail : string) : string :=
  "@@ -" ++ JS.numToString a ++ "," ++ JS.numToString b ++
  " +" ++ JS.numToString c ++ "," ++ JS.numToString d ++ " @@" ++ tail.

(** The group that a line gives as a hunk header, if it is one. *)
Definition headerOf (line : string) : option string :=
  if JS.startsWith line "@@" then DiffParser.hunkHeaderMatch line else None.

(** The added lines of the body of a hunk, in the words of the
    specification: a counter of target lines, a record at counter + 1 for
    each line that starts with one or two plus signs only, and a step of the
    counter on context lines and on lines that start with a plus sign. *)
Fixpoint addedFrom (counter : Z) (body : list string)
  : list DiffParser.AddedLine :=
  match body with
  | [] => []
  | l :: rest =>
      ((if JS.startsWith l "+" && negb (JS.startsWith l "+++")
        then [ {| DiffParser.lineNumber := JS.JNum (counter + 1);
                  DiffParser.content := JS.drop 1 l |} ]
        else []) ++
       addedFrom
         (if JS.startsWith l " " || JS.startsWith l "+"
          then counter + 1 else counter)%Z
         rest)%list
  end.

(** The texts in a row. *)
Definition concatAll (l : list string) : string :=
  fold_right append EmptyString l.

(** What an issue, a group of one severity and a file review add to the
    comment. *)
Definition issueText (issue : AIService.Issue) : string :=
  GitLabReviewer.renderIssue EmptyString issue.

Definition groupText (severity : string) (l : list AIService.Issue) : string :=
  GitLabReviewer.renderGroup EmptyString (severity, l).

Definition fileText (review : GitLabReviewer.FileReview) : string :=
  GitLabReviewer.renderReview EmptyString review.

Definition severityOrder : list string := ["CRITICAL"; "HIGH"; "MEDIUM"; "LOW"].

(** The severities whose group is rendered, in the order of rendering. *)
Definition renderedGroups (l : list AIService.Issue) : list string :=
  map fst
    (filter (fun entry => negb (List.length (snd entry) =? 0)%nat)
       (GitLabReviewer.issuesBySeverity l)).

(** ** Sample inputs *)

Definition sampleReview : string :=
  "Looks fine." ++ JS.nl ++
  "- **Issue Type**: BUG" ++ JS.nl ++
  "- **Line**: abc" ++ JS.nl ++
  "- **Issue Type**: STYLE".

(** A text that does not go on with a digit. *)
Definition noDigitAhead (s : string) : bool :=
  match s with
  | EmptyString => true
  | String c _ => negb (DiffParser.isDigit c)
  end.

Definition sampleDiff : string :=
  "@@ -1,3 +1,4 @@" ++ JS.nl ++
  " function test() {" ++ JS.nl ++
  "+  console.log(1);" ++ JS.nl ++
  "   return true;" ++ JS.nl ++
  " }".

Definition readmeChange : DiffParser.Change :=
  {| DiffParser.old_path := Some "README.md";
     DiffParser.new_path := "README.md";
     DiffParser.new_file := false;
     DiffParser.deleted_file := false;
     DiffParser.renamed_file := false;
     DiffParser.diff := Some "+# Title" |}.

(** A configuration with a small maximum, as [MAX_DIFF_SIZE=20] gives. *)
Definition smallConfig : DiffParser.ReviewConfig :=
  {| DiffParser.maxDiffSize := 20;
     DiffParser.supportedLanguages :=
       DiffParser.supportedLanguages DiffParser.defaultConfig;
     DiffParser.skipFiles := DiffParser.skipFiles DiffParser.defaultConfig |}.

Definition longReadmeChange : DiffParser.Change :=
  {| DiffParser.old_path := Some "README.md";
     DiffParser.new_path := "README.md";
     DiffParser.new_file := false;
     DiffParser.deleted_file := false;
     DiffParser.renamed_file := false;
     DiffParser.diff := Some "+# A title of more than twenty characters" |}.

Definition fileNamed (name : string) : DiffParser.ParsedFile :=
  {| DiffParser.filename := name;
     DiffParser.oldFilename := Some name;
     DiffParser.language := DiffParser.Lang "javascript";
     DiffParser.changeType := DiffParser.modified;
     DiffParser.cleaned := "+  return true;";
     DiffParser.additions := Some 1;
     DiffParser.deletions := Some 0;
     DiffParser.isNewFile := Some false;
     DiffParser.isDeletedFile := Some false;
     DiffParser.isRenamedFile := Some false;
     DiffParser.tooLarge := false;
     DiffParser.size := None |}.

(** A service that counts its calls and fails on one file name. *)
Definition failingService (name : string) (_ : DiffParser.Language)
  (_ : string) (_ : GitLabReviewer.ReviewContext) (calls : nat)
  : nat * (string + AIService.Review) :=
  (S calls,
   if String.eqb name "src/bad.js" then inl "AI service unavailable"
   else inr {| AIService.summary := "Code looks good";
               AIService.issues := [];
               AIService.rawReview := "Code looks good" |}).

Definition noContext : GitLabReviewer.ReviewContext :=
  {| GitLabReviewer.ctxDescription := None;
     GitLabReviewer.commitMessages := [] |}.

(** Two issues, and a review that lists a low issue before a critical one. *)
Definition injectionIssue : AIService.Issue :=
  {| AIService.type := "SECURITY";
     AIService.severity := "CRITICAL";
     AIService.line := Some (JS.JNum 10);
     AIService.description := "SQL injection vulnerability";
     AIService.suggestion := "Use parameterized queries";
     AIService.example := EmptyString |}.

Definition semicolonIssue : AIService.Issue :=
  {| AIService.type := "STYLE";
     AIService.severity := "LOW";
     AIService.line := None;
     AIService.description := "Missing semicolon";
     AIService.suggestion := "Add semicolon";
     AIService.example := "return x;" |}.

Definition lowThenCritical : GitLabReviewer.FileReview :=
  {| GitLabReviewer.filename := "src/test.js";
     GitLabReviewer.language := Some (DiffParser.Lang "javascript");
     GitLabReviewer.changeType := Some DiffParser.modified;
     GitLabReviewer.skipped := false;
     GitLabReviewer.reason := None;
     GitLabReviewer.error := false;
     GitLabReviewer.errorMessage := None;
     GitLabReviewer.summary := Some "Two findings";
     GitLabReviewer.issues := Some [semicolonIssue; injectionIssue];
     GitLabReviewer.rawReview := None |}.

(** The character occurs in the text. *)
Fixpoint occurs (c : ascii) (s : string) : bool :=
  match s with
  | EmptyString => false
  | String a s' => Ascii.eqb a c || occurs c s'
  end.

(** A line that starts with the sign and does not go on with it: what
    [countAdditions] and [countDeletions] count, for the plus and the minus. *)
Definition signedLine (sign : ascii) (line : string) : bool :=
  JS.startsWith line (String sign EmptyString) &&
  negb (JS.startsWith line (String sign (String sign EmptyString))).

(** The lines of a cleaned text that keeps the lines [kept]. *)
Definition linesOrBlank (kept : list string) : list string :=
  match kept with
  | [] => [EmptyString]
  | _ :: _ => kept
  end.

(** A diff with file headers in front of its hunk. *)
Definition headedDiff : string :=
  "diff --git a/src/test.js b/src/test.js" ++ JS.nl ++
  "index 83db48f..bf12a4c 100644" ++ JS.nl ++
  "--- a/src/test.js" ++ JS.nl ++
  "+++ b/src/test.js" ++ JS.nl ++
  "@@ -1,3 +1,4 @@" ++ JS.nl ++
  " function test() {" ++ JS.nl ++
  "-  return false;" ++ JS.nl ++
  "+  console.log(1);" ++ JS.nl ++
  "+  return true;" ++ JS.nl ++
  "\ No newline at end of file" ++ JS.nl ++
  " }".

(** A configuration whose list of skip patterns ends with an empty one, as
    [SKIP_FILES=*.lock,] gives once split at the commas. *)
Definition trailingCommaConfig : DiffParser.ReviewConfig :=
  {| DiffParser.maxDiffSize := 10000;
     DiffParser.supportedLanguages :=
       DiffParser.supportedLanguages DiffParser.defaultConfig;
     DiffParser.skipFiles := ["*.lock"; EmptyString] |}.

(** A configuration with literal skip patterns only. *)
Definition literalConfig : DiffParser.ReviewConfig :=
  {| DiffParser.maxDiffSize := 10000;
     DiffParser.supportedLanguages :=
       DiffParser.supportedLanguages DiffParser.defaultConfig;
     DiffParser.skipFiles := ["package-lock.json"; "yarn.lock"] |}.

(** What the loop of [parseMergeRequestChanges] adds for one change. *)
Definition parsedOf (regExpTest : string -> string -> option bool)
  (config : DiffParser.ReviewConfig) (change : DiffParser.Change)
  : list DiffParser.ParsedFile :=
  match DiffParser.parseFileChange regExpTest config change with
  | Some (Some file) => [file]
  | Some None | None => []
  end.

Definition sampleChange : DiffParser.Change :=
  {| DiffParser.old_path := Some "src/test.js";
     DiffParser.new_path := "src/test.js";
     DiffParser.new_file := false;
     DiffParser.deleted_file := false;
     DiffParser.renamed_file := false;
     DiffParser.diff := Some headedDiff |}.

(** A line that, once trimmed, starts with one of the six markers that
    [parseReview] knows. *)
Definition isMarkerLine (line : string) : bool :=
  let t := JS.trim line in
  JS.startsWith t "- **Issue Type**:" || JS.startsWith t "- **Severity**:" ||
  JS.startsWith t "- **Line**:" || JS.startsWith t "- **Description**:" ||
  JS.startsWith t "- **Suggestion**:" || JS.startsWith t "- **Example**:".

(** The texts of an issue are field values. *)
Definition CleanIssue (issue : AIService.Issue) : Prop :=
  FieldValue (AIService.type issue) /\
  FieldValue (AIService.severity issue) /\
  FieldValue (AIService.description issue) /\
  FieldValue (AIService.suggestion issue) /\
  FieldValue (AIService.example issue).

(** A response with carriage returns, indentation and prose around the
    markers, and the same response without them. *)
Definition noisyReview : string :=
  "  The change is small.  " ++ String JS.CR JS.nl ++
  String JS.CR JS.nl ++
  "   - **Issue Type**: BUG" ++ String JS.CR JS.nl ++
  "Some words of the model." ++ String JS.CR JS.nl ++
  "   - **Severity**: HIGH   " ++ String JS.CR JS.nl ++
  "   - **Line**: 12" ++ String JS.CR JS.nl ++
  "   - **Description**: Off by one".

Definition tidyReview : string :=
  "The change is small." ++ JS.nl ++
  JS.nl ++
  "- **Issue Type**: BUG" ++ JS.nl ++
  "Some words of the model." ++ JS.nl ++
  "- **Severity**: HIGH" ++ JS.nl ++
  "- **Line**: 12" ++ JS.nl ++
  "- **Description**: Off by one".

(** The parts of the prompt template around the three names. *)
Definition fileHeading : string :=
  "Please review the following code changes and provide feedback:" ++ JS.nl ++
  JS.nl ++ "**File**: ".

Definition languageHeading : string := JS.nl ++ "**Language**: ".

Definition changesHeading : string :=
  JS.nl ++ "**Changes**:" ++ JS.nl ++ "```diff" ++ JS.nl.

Definition promptFoot : string :=
  JS.nl ++ "```" ++ JS.nl ++ JS.nl ++
  "Focus on security, performance, code quality, and potential bugs. Provide specific, actionable feedback.".

(** The template with three texts in the place of the three names. *)
Definition promptBody (filename tag diff : string) : string :=
  fileHeading ++ filename ++ languageHeading ++ tag ++ changesHeading ++
  diff ++ promptFoot.

(** What [buildReviewPrompt] puts after the template: the description, the
    commit messages and the focus areas. *)
Definition promptTail (flags : Config.ReviewCriteria)
  (context : GitLabReviewer.ReviewContext) : string :=
  AIRequest.buildReviewPrompt EmptyString flags EmptyString
    (DiffParser.Lang EmptyString) EmptyString context.

(** A text that holds neither a dollar nor an opening brace. *)
Definition plainName (s : string) : Prop :=
  occurs "$" s = false /\ occurs "{" s = false.

Definition allChecks : Config.ReviewCriteria :=
  {| Config.enableSecurityChecks := true;
     Config.enablePerformanceChecks := true;
     Config.enableCodeStyleChecks := true;
     Config.enableBestPracticesChecks := true;
     Config.enableBugDetection := true |}.

Definition sampleContext : GitLabReviewer.ReviewContext :=
  {| GitLabReviewer.ctxDescription := Some "Adds logging";
     GitLabReviewer.commitMessages := ["add log"; "fix return"] |}.

(** The request that [reviewCode] sends for a parsed file. *)
Definition requestFor {Temperature : Type}
  (ai : AIRequest.ProviderConfig Temperature) (flags : Config.ReviewCriteria)
  (context : GitLabReviewer.ReviewContext) (file : DiffParser.ParsedFile)
  : AIRequest.ChatRequest Temperature :=
  {| AIRequest.requestModel :=
       AIRequest.model Temperature (AIRequest.getModelConfig Temperature ai);
     AIRequest.systemContent := Config.systemPrompt;
     AIRequest.userContent :=
       AIRequest.buildReviewPrompt Config.reviewPrompt flags
         (DiffParser.filename file) (DiffParser.language file)
         (DiffParser.cleaned file) context;
     AIRequest.max_tokens :=
       AIRequest.maxTokens Temperature (AIRequest.getModelConfig Temperature ai);
     AIRequest.requestTemperature :=
       AIRequest.temperature Temperature
         (AIRequest.getModelConfig Temperature ai) |}.

(** An answer of the model with one choice. *)
Definition answerOf (text : option string) : AIRequest.ChatResponse :=
  {| AIRequest.choices :=
       [ {| AIRequest.message := Some {| AIRequest.content := text |} |} ] |}.

(** A provider configuration with whole numbers for temperatures. *)
Definition sampleProvider : AIRequest.ProviderConfig Z :=
  {| AIRequest.providerName := "deepseek";
     AIRequest.openai :=
       {| AIRequest.model := "gpt-4"; AIRequest.maxTokens := 2000;
          AIRequest.temperature := 0%Z |};
     AIRequest.deepseek :=
       {| AIRequest.model := "deepseek-coder"; AIRequest.maxTokens := 4000;
          AIRequest.temperature := 0%Z |};
     AIRequest.azureModel := "gpt-4" |}.

(** A model that answers every request with the same text, or with no
    text, and counts its calls. *)
Definition fixedAnswer (text : option string)
  (_ : AIRequest.ChatRequest Z) (calls : nat)
  : nat * (string + AIRequest.ChatResponse) :=
  (S calls, inr (answerOf text)).

(** The heading of every comment of the bot. *)
Definition commentHeading : string := "## 🤖 AI Code Review" ++ JS.nl ++ JS.nl.

(** The byte with which the default identifier of the bot begins. *)
Definition identifierHead : ascii :=
  match GitLabAPI.botIdentifier with
  | String c _ => c
  | EmptyString => Ascii.zero
  end.

(** A text in which that byte does not occur; a text of ASCII characters
    is one, and so is a text with emoji. *)
Definition identifierFree (s : string) : Prop := occurs identifierHead s = false.

Definition identifierFreeOption (v : option string) : Prop :=
  match v with
  | Some s => identifierFree s
  | None => True
  end.

Definition PlainIssue (issue : AIService.Issue) : Prop :=
  identifierFree (AIService.type issue) /\
  identifierFree (AIService.description issue) /\
  identifierFree (AIService.suggestion issue) /\
  identifierFree (AIService.example issue).

Definition PlainReview (review : GitLabReviewer.FileReview) : Prop :=
  identifierFree (GitLabReviewer.filename review) /\
  identifierFreeOption (GitLabReviewer.errorMessage review) /\
  identifierFreeOption (GitLabReviewer.reason review) /\
  match GitLabReviewer.issues review with
  | Some l => Forall PlainIssue l
  | None => True
  end.

(** The comments that the bot writes, for texts without the byte. *)
Inductive BotComment : string -> Prop :=
| isReviewComment (now provider model : string)
    (reviews : list GitLabReviewer.FileReview) :
    identifierFree now -> identifierFree provider -> identifierFree model ->
    Forall PlainReview reviews ->
    BotComment (GitLabReviewer.generateReviewComment now provider model reviews)
| isNoReviewComment (timestamp : string) :
    identifierFree timestamp ->
    BotComment (ReviewRun.noReviewComment timestamp)
| isErrorComment (errorMessage timestamp : string) :
    identifierFree errorMessage -> identifierFree timestamp ->
    BotComment (ReviewRun.errorComment errorMessage timestamp).

Definition sampleMergeRequest : ReviewRun.MergeRequest :=
  {| ReviewRun.title := "Add logging";
     ReviewRun.authorName := "dev";
     ReviewRun.description := Some "Adds logging" |}.

Definition sampleTime : string := "2024-05-01T10:00:00.000Z".

(** A GitLab that holds the notes of a merge request and takes every
    comment: posting adds a note, updating replaces the body of the note
    with the given id. *)
Definition notesOf (_ _ : string) (notes : list GitLabAPI.Note)
  : list GitLabAPI.Note * (string + list GitLabAPI.Note) :=
  (notes, inr notes).

Definition postNote (_ _ : string) (comment : string)
  (notes : list GitLabAPI.Note) : list GitLabAPI.Note * (string + unit) :=
  ((notes ++ [ {| GitLabAPI.id := Z.of_nat (List.length notes);
                  GitLabAPI.body := comment;
                  GitLabAPI.system := false |} ])%list,
   inr tt).

Definition updateNote (_ _ : string) (noteId : Z) (comment : string)
  (notes : list GitLabAPI.Note) : list GitLabAPI.Note * (string + unit) :=
  (map (fun note =>
          if (GitLabAPI.id note =? noteId)%Z
          then {| GitLabAPI.id := noteId; GitLabAPI.body := comment;
                  GitLabAPI.system := GitLabAPI.system note |}
          else note) notes,
   inr tt).

Definition noCommits (_ _ : string) (notes : list GitLabAPI.Note)
  : list GitLabAPI.Note * (string + list ReviewRun.Commit) :=
  (notes, inl "commits unavailable").

(** A model that fails on every file, in the world of the notes. *)
Definition brokenService (_ : string) (_ : DiffParser.Language) (_ : string)
  (_ : GitLabReviewer.ReviewContext) (notes : list GitLabAPI.Note)
  : list GitLabAPI.Note * (string + AIService.Review) :=
  (notes, inl "AI service unavailable").

(** An environment with the token of GitLab and the key of OpenRouter, and
    no provider named. *)
Definition defaultProviderEnv (key : string) : option string :=
  if String.eqb key "GITLAB_TOKEN" then Some "glpat-token"
  else if String.eqb key "OPENROUTER_API_KEY" then Some "sk-or-key"
  else None.

Definition noClientKeys : AIRequest.ClientConfig :=
  {| AIRequest.openaiApiKey := None;
     AIRequest.deepseekApiKey := None;
     AIRequest.deepseekBaseURL := None;
     AIRequest.azureApiKey := None;
     AIRequest.azureEndpoint := None |}.

(** The other calls of a run in the world of the notes. *)
Definition validConfig (_ : list GitLabAPI.Note) : string + unit := inr tt.

Definition mergeRequestOf (_ _ : string) (notes : list GitLabAPI.Note)
  : list GitLabAPI.Note * (string + ReviewRun.MergeRequest) :=
  (notes, inr sampleMergeRequest).

Definition changesOf (changes : list DiffParser.Change) (_ _ : string)
  (notes : list GitLabAPI.Note)
  : list GitLabAPI.Note * (string + list DiffParser.Change) :=
  (notes, inr changes).

Definition fixedClock (_ : list GitLabAPI.Note) : string := sampleTime.

(** A configuration that is refused. *)
Definition invalidConfig (_ : list GitLabAPI.Note) : string + unit :=
  inl "Missing required environment variables: OPENROUTER_API_KEY".

(** A run in that world, for the given changes, with a model that fails. *)
Definition sampleRun (changes : list DiffParser.Change)
  (notes : list GitLabAPI.Note) : list GitLabAPI.Note * (string + unit) :=
  ReviewRun.reviewMergeRequest (list GitLabAPI.Note) validConfig mergeRequestOf
    (changesOf changes) noCommits postNote notesOf updateNote brokenService
    fixedClock JS.wildcardRegExp DiffParser.defaultConfig "deepseek" "gpt-4"
    "42" "7" notes.

(** The note that an earlier run has left. *)
Definition earlierNote : GitLabAPI.Note :=
  {| GitLabAPI.id := 0;
     GitLabAPI.body :=
       GitLabReviewer.generateReviewComment sampleTime "deepseek" "gpt-4"
         [GitLabReviewer.erroredReview (fileNamed "src/test.js")
            "AI service unavailable"];
     GitLabAPI.system := false |}.

(** The two line terminators of the host outside ASCII, U+2028 and U+2029,
    as their bytes; the embedding reads LF and CR as line ends, so a
    statement on the lines of a text is made for texts without them. *)
Definition lineSeparator : string :=
  String (ascii_of_nat 226) (String (ascii_of_nat 128)
    (String (ascii_of_nat 168) EmptyString)).

Definition paragraphSeparator : string :=
  String (ascii_of_nat 226) (String (ascii_of_nat 128)
    (String (ascii_of_nat 169) EmptyString)).

(** A text of ASCII characters: on such a text the case conversions of the
    embedding are those of the host. *)
Fixpoint asciiText (s : string) : bool :=
  match s with
  | EmptyString => true
  | String c s' => (nat_of_ascii c <? 128)%nat && asciiText s'
  end.

(** * Properties *)

(** ** Strings *)

Section StringFacts.

Lemma append_nil_r (s : string) : s ++ EmptyString = s.
Proof. induction s as [|c s IH]; simpl; [reflexivity | now rewrite IH]. Qed.

Lemma append_assoc (a b c : string) : (a ++ b) ++ c = a ++ (b ++ c).
Proof. induction a as [|x a IH]; simpl; [reflexivity | now rewrite IH]. Qed.

Lemma append_empty (a b : string) :
  a ++ b = EmptyString -> a = EmptyString /\ b = EmptyString.
Proof. destruct a; simpl; [auto | discriminate]. Qed.

Lemma length_append (a b : string) :
  String.length (a ++ b) = String.length a + String.length b.
Proof. induction a as [|x a IH]; simpl; [reflexivity | now rewrite IH]. Qed.

Lemma isEmpty_true (s : string) : JS.isEmpty s = true <-> s = EmptyString.
Proof. destruct s; simpl; split; congruence. Qed.

Lemma isEmpty_false (s : string) : JS.isEmpty s = false <-> s <> EmptyString.
Proof. destruct s; simpl; split; congruence. Qed.

(** *** Lines *)

Lemma split_not_nil (s : string) : JS.split s <> [].
Proof.
  induction s as [|c s IH]; simpl; [discriminate |].
  destruct (Ascii.eqb c JS.LF); [discriminate |].
  destruct (JS.split s); [contradiction | discriminate].
Qed.

Lemma split_line_then (l s : string) :
  singleLine l = true -> JS.split (l ++ JS.nl ++ s) = l :: JS.split s.
Proof.
  induction l as [|c l IH]; simpl; intros H.
  - reflexivity.
  - apply andb_prop in H as [Hc Hl].
    apply negb_true_iff in Hc. rewrite Hc.
    change (l ++ String JS.LF s) with (l ++ JS.nl ++ s).
    now rewrite (IH Hl).
Qed.

Lemma split_single (l : string) : singleLine l = true -> JS.split l = [l].
Proof.
  induction l as [|c l IH]; simpl; intros H; [reflexivity |].
  apply andb_prop in H as [Hc Hl].
  apply negb_true_iff in Hc. rewrite Hc. now rewrite (IH Hl).
Qed.

Lemma join_cons2 (sep l l' : string) (ls : list string) :
  JS.join sep (l :: l' :: ls) = l ++ sep ++ JS.join sep (l' :: ls).
Proof. reflexivity. Qed.

(** Splitting what was joined gives the lines back. *)
Lemma split_join (ls : list string) :
  ls <> [] -> Forall (fun l => singleLine l = true) ls ->
  JS.split (JS.join JS.nl ls) = ls.
Proof.
  induction ls as [|l ls IH]; intros Hne Hall; [contradiction |].
  inversion Hall as [|? ? Hl Hls]; subst.
  destruct ls as [|l' ls].
  - simpl. now apply split_single.
  - rewrite join_cons2, split_line_then by assumption.
    f_equal. apply IH; [discriminate | assumption].
Qed.

(** Joining the lines of a text gives the text back. *)
Lemma join_split (s : string) : JS.join JS.nl (JS.split s) = s.
Proof.
  induction s as [|c s IH]; [reflexivity |].
  simpl. destruct (Ascii.eqb_spec c JS.LF) as [-> | Hc].
  - pose proof (split_not_nil s) as Hne.
    destruct (JS.split s) as [|l ls] eqn:E; [contradiction |].
    rewrite join_cons2, IH. reflexivity.
  - pose proof (split_not_nil s) as Hne.
    destruct (JS.split s) as [|l ls] eqn:E; [contradiction |].
    destruct ls as [|l' ls].
    + simpl in *. now rewrite IH.
    + rewrite join_cons2 in *. rewrite <- IH. reflexivity.
Qed.

Lemma split_singleLine (s : string) :
  Forall (fun l => singleLine l = true) (JS.split s).
Proof.
  induction s as [|c s IH]; simpl.
  - repeat constructor.
  - destruct (Ascii.eqb c JS.LF) eqn:Hc.
    + constructor; [reflexivity | assumption].
    + destruct (JS.split s) as [|l ls].
      * constructor; [simpl; now rewrite Hc | constructor].
      * inversion IH; subst. constructor; [simpl | assumption].
        rewrite Hc. assumption.
Qed.

(** *** Trimming *)

Lemma trimStart_length (s : string) :
  String.length (JS.trimStart s) <= String.length s.
Proof.
  induction s as [|c s IH]; simpl; [lia |].
  destruct (JS.isWhite c); simpl; lia.
Qed.

Lemma trimEnd_length (s : string) :
  String.length (JS.trimEnd s) <= String.length s.
Proof.
  induction s as [|c s IH]; simpl; [lia |].
  destruct (JS.trimEnd s); [destruct (JS.isWhite c) |]; simpl in *; lia.
Qed.

Lemma trimEnd_append (a b : string) :
  JS.trimEnd b <> EmptyString -> JS.trimEnd (a ++ b) = a ++ JS.trimEnd b.
Proof.
  intros Hb. induction a as [|c a IH]; simpl; [reflexivity |].
  rewrite IH. destruct (a ++ JS.trimEnd b) eqn:E; [| reflexivity].
  apply append_empty in E as [_ E]. contradiction.
Qed.

Lemma trimEnd_cons (c : ascii) (s : string) :
  JS.trimEnd (String c s) =
  match JS.trimEnd s with
  | EmptyString => if JS.isWhite c then EmptyString else String c EmptyString
  | String d t => String c (String d t)
  end.
Proof. reflexivity. Qed.

Lemma trimEnd_idem (s : string) : JS.trimEnd (JS.trimEnd s) = JS.trimEnd s.
Proof.
  induction s as [|c s IH]; [reflexivity |].
  rewrite trimEnd_cons.
  destruct (JS.trimEnd s) as [|d t] eqn:E.
  - destruct (JS.isWhite c) eqn:Hc; simpl; [reflexivity | now rewrite Hc].
  - rewrite trimEnd_cons, IH. reflexivity.
Qed.

(** A trimmed text that is not empty starts with a character that is no
    whitespace and is its own [trimEnd]. *)
Lemma Trimmed_inv (s : string) :
  Trimmed s -> s <> EmptyString ->
  JS.trimEnd s = s /\
  exists c s', s = String c s' /\ JS.isWhite c = false.
Proof.
  unfold Trimmed, JS.trim. intros H Hne.
  destruct s as [|c s]; [contradiction |].
  simpl in H. destruct (JS.isWhite c) eqn:Hc.
  - exfalso.
    pose proof (trimEnd_length (JS.trimStart s)) as H1.
    pose proof (trimStart_length s) as H2.
    rewrite H in H1. simpl in H1. lia.
  - split; [exact H | eauto].
Qed.

Lemma Trimmed_intro (c : ascii) (s : string) :
  JS.isWhite c = false -> JS.trimEnd (String c s) = String c s ->
  Trimmed (String c s).
Proof.
  intros Hc H. unfold Trimmed, JS.trim. cbn [JS.trimStart]. now rewrite Hc.
Qed.

Lemma trimEnd_head (c : ascii) (s : string) :
  JS.isWhite c = false ->
  exists t, JS.trimEnd (String c s) = String c t.
Proof.
  intros Hc. simpl. destruct (JS.trimEnd s); [rewrite Hc |]; eauto.
Qed.

Lemma trimStart_head (s : string) :
  JS.trimStart s = EmptyString \/
  exists c t, JS.trimStart s = String c t /\ JS.isWhite c = false.
Proof.
  induction s as [|c s IH]; simpl; [now left |].
  destruct (JS.isWhite c) eqn:Hc; [exact IH | right; eauto].
Qed.

Lemma trim_Trimmed (s : string) : Trimmed (JS.trim s).
Proof.
  unfold Trimmed.
  change (JS.trim s) with (JS.trimEnd (JS.trimStart s)).
  destruct (trimStart_head s) as [E | (c & t & E & Hc)].
  - rewrite E. reflexivity.
  - rewrite E. destruct (trimEnd_head c t Hc) as [u Hu].
    unfold JS.trim. rewrite Hu. cbn [JS.trimStart]. rewrite Hc.
    rewrite <- Hu. apply trimEnd_idem.
Qed.

(** In front of a trimmed text that is not empty, a text that starts with
    a character that is no whitespace stays as it is. *)
Lemma trim_append (c : ascii) (a v : string) :
  JS.isWhite c = false -> Trimmed v -> v <> EmptyString ->
  JS.trim (String c a ++ v) = String c a ++ v.
Proof.
  intros Hc Hv Hne. destruct (Trimmed_inv v Hv Hne) as [He _].
  unfold JS.trim. cbn [append JS.trimStart]. rewrite Hc.
  change (String c (a ++ v)) with (String c a ++ v).
  rewrite trimEnd_append; rewrite He; [reflexivity | assumption].
Qed.

Lemma join_space_Trimmed (ls : list string) :
  ls <> [] ->
  Forall (fun l => Trimmed l /\ l <> EmptyString) ls ->
  Trimmed (JS.join " " ls) /\ JS.join " " ls <> EmptyString.
Proof.
  induction ls as [|l ls IH]; intros Hne Hall; [contradiction |].
  inversion Hall as [|? ? [Hl Hle] Hls]; subst.
  destruct ls as [|l' ls]; [simpl; auto |].
  destruct IH as [IH1 IH2]; [discriminate | assumption |].
  rewrite join_cons2.
  destruct (Trimmed_inv l Hl Hle) as [_ (c & s' & -> & Hc)].
  split; [| discriminate].
  unfold Trimmed. rewrite <- append_assoc.
  cbn [append]. change (String c ((s' ++ " ") ++ JS.join " " (l' :: ls)))
    with (String c (s' ++ " ") ++ JS.join " " (l' :: ls)).
  now apply trim_append.
Qed.

End StringFacts.

(** ** Numbers and their decimal text *)

Section NumberFacts.

Lemma digit_facts (c : ascii) :
  DiffParser.isDigit c = true ->
  JS.isWhite c = false /\ Ascii.eqb c "-" = false /\ Ascii.eqb c "+" = false /\
  Ascii.eqb c "x" = false /\ Ascii.eqb c "X" = false /\
  Ascii.eqb c JS.LF = false /\ Ascii.eqb c "N" = false /\
  Ascii.eqb c " " = false /\ Ascii.eqb c "," = false.
Proof.
  destruct c as [[] [] [] [] [] [] [] []]; intros H;
    solve [discriminate H | repeat split].
Qed.

(** A property of the ten digits holds below ten. *)
Lemma below_ten (P : Z -> Prop) :
  Forall P (map Z.of_nat (seq 0 10)) ->
  forall n, (0 <= n < 10)%Z -> P n.
Proof.
  intros H n Hn. rewrite Forall_forall in H. apply H.
  apply in_map_iff. exists (Z.to_nat n). split; [lia |].
  apply in_seq. lia.
Qed.

Lemma digitChar_isDigit (n : Z) :
  (0 <= n < 10)%Z -> DiffParser.isDigit (JS.digitChar n) = true.
Proof.
  apply (below_ten (fun n => DiffParser.isDigit (JS.digitChar n) = true)).
  repeat constructor.
Qed.

Lemma digitChar_value (n : Z) :
  (0 <= n < 10)%Z -> JS.digitValue 10 (JS.digitChar n) = Some n.
Proof.
  apply (below_ten (fun n => JS.digitValue 10 (JS.digitChar n) = Some n)).
  repeat constructor.
Qed.

Lemma digitsOf_allDigits (fuel : nat) (n : Z) (acc : string) :
  (0 <= n)%Z -> allDigits acc = true -> allDigits (JS.digitsOf fuel n acc) = true.
Proof.
  revert n acc. induction fuel as [|fuel IH]; intros n acc Hn Hacc; simpl;
    [assumption |].
  assert (allDigits (String (JS.digitChar (n mod 10)) acc) = true) as H.
  { cbn [allDigits]. rewrite digitChar_isDigit, Hacc; [reflexivity |].
    apply Z.mod_pos_bound. lia. }
  destruct (n / 10 =? 0)%Z; [exact H |].
  apply IH; [apply Z.div_pos; lia | exact H].
Qed.

Lemma digitsOf_not_empty (fuel : nat) (n : Z) (acc : string) :
  JS.digitsOf (S fuel) n acc <> EmptyString.
Proof.
  revert n acc. induction fuel as [|fuel IH]; intros n acc.
  - simpl. destruct (n / 10 =? 0)%Z; discriminate.
  - change (JS.digitsOf (S (S fuel)) n acc)
      with (if (n / 10 =? 0)%Z then String (JS.digitChar (n mod 10)) acc
            else JS.digitsOf (S fuel) (n / 10)
                   (String (JS.digitChar (n mod 10)) acc)).
    destruct (n / 10 =? 0)%Z; [discriminate | apply IH].
Qed.

(** Reading back the digits of [n] gives [n]. *)
Lemma readDigits_digitsOf (fuel : nat) (n : Z) (rest : string) (acc : option Z) :
  (0 <= n < 2 ^ Z.of_nat (S fuel))%Z ->
  match acc with Some a => a | None => 0%Z end = 0%Z ->
  JS.readDigits 10 acc (JS.digitsOf (S fuel) n rest) =
  JS.readDigits 10 (Some n) rest.
Proof.
  revert n rest acc. induction fuel as [|fuel IH]; intros n rest acc Hn Hacc.
  - change (2 ^ Z.of_nat 1)%Z with 2%Z in Hn.
    assert (n / 10 = 0)%Z as E by (apply Z.div_small; lia).
    change (JS.digitsOf 1 n rest)
      with (if (n / 10 =? 0)%Z then String (JS.digitChar (n mod 10)) rest
            else String (JS.digitChar (n mod 10)) rest).
    rewrite E. cbn [Z.eqb JS.readDigits].
    rewrite digitChar_value by (apply Z.mod_pos_bound; lia).
    rewrite Hacc. do 2 f_equal. rewrite Z.mod_small; lia.
  - change (JS.digitsOf (S (S fuel)) n rest)
      with (if (n / 10 =? 0)%Z then String (JS.digitChar (n mod 10)) rest
            else JS.digitsOf (S fuel) (n / 10)
                   (String (JS.digitChar (n mod 10)) rest)).
    destruct (Z.eqb_spec (n / 10) 0) as [E | E].
    + cbn [JS.readDigits].
      rewrite digitChar_value by (apply Z.mod_pos_bound; lia).
      rewrite Hacc. do 2 f_equal.
      pose proof (Z.div_mod n 10). lia.
    + rewrite IH; [| | assumption].
      * cbn [JS.readDigits].
        rewrite digitChar_value by (apply Z.mod_pos_bound; lia).
        do 2 f_equal. pose proof (Z.div_mod n 10). lia.
      * split; [apply Z.div_pos; lia |].
        apply Z.div_lt_upper_bound; [lia |].
        rewrite (Nat2Z.inj_succ (S fuel)), Z.pow_succ_r in Hn by lia. lia.
Qed.

Lemma log2_fuel (n : Z) :
  (0 <= n)%Z -> (0 <= n < 2 ^ Z.of_nat (S (Z.to_nat (Z.log2 n))))%Z.
Proof.
  intros Hn. split; [assumption |].
  rewrite Nat2Z.inj_succ, Z2Nat.id by apply Z.log2_nonneg.
  destruct (Z.eq_dec n 0) as [-> | Hz]; [reflexivity |].
  apply Z.log2_spec. lia.
Qed.

(** The decimal text of a natural number: digits only, and not empty. *)
Lemma numToString_digits (n : Z) :
  (0 <= n)%Z ->
  allDigits (JS.numToString n) = true /\
  exists c s, JS.numToString n = String c s /\ DiffParser.isDigit c = true.
Proof.
  intros Hn. unfold JS.numToString.
  destruct (Z.ltb_spec n 0) as [H | _]; [lia |].
  assert (allDigits (JS.digitsOf (S (Z.to_nat (Z.log2 n))) n EmptyString) = true)
    as Hd by (now apply digitsOf_allDigits).
  split; [exact Hd |].
  pose proof (digitsOf_not_empty (Z.to_nat (Z.log2 n)) n EmptyString) as Hne.
  destruct (JS.digitsOf (S (Z.to_nat (Z.log2 n))) n EmptyString) as [|c s];
    [contradiction |].
  cbn [allDigits] in Hd. apply andb_prop in Hd as [Hc _]. eauto.
Qed.

(** [parseInt] reads back what [String] wrote. *)
Lemma parseInt_numToString (n : Z) :
  (0 <= n)%Z -> JS.parseInt (JS.numToString n) = JS.JNum n.
Proof.
  intros Hn.
  destruct (numToString_digits n Hn) as [Hall (c & s & E & Hc)].
  assert (JS.readDigits 10 None (JS.numToString n) = Some n) as Hr.
  { unfold JS.numToString.
    destruct (Z.ltb_spec n 0) as [H | _]; [lia |].
    rewrite readDigits_digitsOf; [reflexivity | now apply log2_fuel | reflexivity]. }
  unfold JS.parseInt. rewrite E in *.
  destruct (digit_facts c Hc) as (Hw & Hm & Hp & _).
  cbn [JS.trimStart]. rewrite Hw, Hm, Hp.
  destruct s as [|c1 s].
  - rewrite Hr. f_equal. lia.
  - cbn [allDigits] in Hall.
    apply andb_prop in Hall as [_ Hall]. apply andb_prop in Hall as [Hc1 _].
    destruct (digit_facts c1 Hc1) as (_ & _ & _ & Hx & HX & _).
    rewrite Hx, HX, andb_false_r. rewrite Hr. f_equal. lia.
Qed.

Lemma allDigits_singleLine (s : string) :
  allDigits s = true -> singleLine s = true.
Proof.
  induction s as [|c s IH]; simpl; [reflexivity |].
  intros H. apply andb_prop in H as [Hc Hs].
  destruct (digit_facts c Hc) as (_ & _ & _ & _ & _ & Hl & _).
  rewrite Hl. now apply IH.
Qed.

Lemma allDigits_trimEnd (s : string) :
  allDigits s = true -> JS.trimEnd s = s.
Proof.
  induction s as [|c s IH]; [reflexivity |].
  cbn [allDigits]. intros H. apply andb_prop in H as [Hc Hs].
  rewrite trimEnd_cons, (IH Hs).
  destruct (digit_facts c Hc) as (Hw & _).
  destruct s; [now rewrite Hw | reflexivity].
Qed.

Lemma allDigits_Trimmed (s : string) : allDigits s = true -> Trimmed s.
Proof.
  intros H. destruct s as [|c s]; [reflexivity |].
  assert (DiffParser.isDigit c = true) as Hc
    by (cbn [allDigits] in H; now apply andb_prop in H as [Hc _]).
  destruct (digit_facts c Hc) as (Hw & _).
  apply Trimmed_intro; [assumption | now apply allDigits_trimEnd].
Qed.

End NumberFacts.

(** ** The response parser *)

Section ParserFacts.

Import AIService.

Lemma fold_left_snoc {A B : Type} (f : A -> B -> A) (l : list B) (x : B) (a : A) :
  fold_left f (l ++ [x])%list a = f (fold_left f l a) x.
Proof. rewrite fold_left_app. reflexivity. Qed.

(** Each turn keeps the number of issues seen so far, pushed or being
    accumulated, and a marker line adds one. *)
Lemma parseStep_count (st : ParseState) (line : string) :
  List.length (pushCurrent (parseStep st line)) =
  List.length (pushCurrent st) + (if isIssueMarker line then 1 else 0).
Proof.
  unfold parseStep, isIssueMarker.
  destruct (JS.startsWith (JS.trim line) "- **Issue Type**:").
  - cbn [pushCurrent]. rewrite length_app. reflexivity.
  - destruct st as [issues [issue|]]; cbn; rewrite ?length_app; simpl; lia.
Qed.

Lemma parseLines_count (lines : list string) (st : ParseState) :
  List.length (pushCurrent (fold_left parseStep lines st)) =
  List.length (pushCurrent st) + List.length (filter isIssueMarker lines).
Proof.
  revert st. induction lines as [|line lines IH]; intros st; simpl; [lia |].
  rewrite IH, parseStep_count.
  destruct (isIssueMarker line); simpl; lia.
Qed.


(** The loop of [extractSummary] adds to what it holds the trimmed lines
    that are not empty, up to the first field line. *)
Lemma summaryLoop_spec (lines acc : list string) :
  summaryLoop lines acc =
  (acc ++ filter (fun t => negb (JS.isEmpty t))
            (map JS.trim (takeUntil isFieldLine lines)))%list.
Proof.
  revert acc. induction lines as [|line lines IH]; intros acc;
    cbn [summaryLoop takeUntil].
  - cbn. now rewrite app_nil_r.
  - unfold isFieldLine at 1.
    destruct (JS.startsWith (JS.trim line) "- **") eqn:Hf.
    + rewrite andb_false_r. cbn [map filter]. now rewrite app_nil_r.
    + rewrite andb_true_r. cbn [map filter].
      destruct (JS.isEmpty (JS.trim line)); cbn [negb].
      * apply IH.
      * rewrite IH, <- app_assoc. reflexivity.
Qed.

Lemma summaryLines_Trimmed (reviewText : string) :
  Forall (fun l => Trimmed l /\ l <> EmptyString) (summaryLines reviewText).
Proof.
  unfold summaryLines. apply Forall_forall. intros l Hl.
  apply filter_In in Hl as [Hl Hne].
  apply in_map_iff in Hl as (x & <- & _).
  split; [apply trim_Trimmed |].
  apply isEmpty_false. now apply negb_true_iff.
Qed.


End ParserFacts.

(** *** Fields of one issue *)

Section IssueFields.

Import AIService.

(** Two texts that both start a third one: one of them starts the other. *)
Lemma startsWith_both (t a b : string) :
  JS.startsWith t a = true -> JS.startsWith t b = true ->
  JS.startsWith a b = true \/ JS.startsWith b a = true.
Proof.
  revert a b. induction t as [|c t IH]; intros [|x a] [|y b]; simpl; auto;
    try discriminate.
  intros Ha Hb. apply andb_prop in Ha as [Hx Ha], Hb as [Hy Hb].
  apply Ascii.eqb_eq in Hx, Hy. subst x y.
  rewrite Ascii.eqb_refl. simpl. now apply IH.
Qed.

(** A line cannot carry two different markers. *)
Lemma startsWith_exclusive (t a b : string) :
  JS.startsWith a b = false -> JS.startsWith b a = false ->
  JS.startsWith t a = true -> JS.startsWith t b = false.
Proof.
  intros Hab Hba Ha. destruct (JS.startsWith t b) eqn:Hb; [| reflexivity].
  destruct (startsWith_both t a b Ha Hb); congruence.
Qed.

Lemma severity_setField (issue : Issue) (t : string) :
  severity (setField issue t) =
  if JS.startsWith t "- **Severity**:" then extractValue t else severity issue.
Proof.
  unfold setField.
  repeat match goal with
         | |- context [if JS.startsWith t ?m then _ else _] =>
             destruct (JS.startsWith t m); try reflexivity
         end.
Qed.

Lemma line_setField (issue : Issue) (t : string) :
  line (setField issue t) =
  if JS.startsWith t "- **Line**:" then lineOfField t else line issue.
Proof.
  unfold setField, lineOfField.
  destruct (JS.startsWith t "- **Severity**:") eqn:Hs.
  - rewrite (startsWith_exclusive t "- **Severity**:" "- **Line**:");
      reflexivity || assumption.
  - destruct (JS.startsWith t "- **Line**:").
    + cbn [line]. now destruct (String.eqb (extractValue t) "N/A").
    + repeat match goal with
             | |- context [if JS.startsWith t ?m then _ else _] =>
                 destruct (JS.startsWith t m); try reflexivity
             end.
Qed.

Lemma findLast_map {A B : Type} (f : A -> B) (p : B -> bool) (l : list A) :
  findLast p (map f l) = option_map f (findLast (fun x => p (f x)) l).
Proof.
  induction l as [|x l IH]; simpl; [reflexivity |].
  rewrite IH. destruct (findLast (fun x => p (f x)) l); simpl; [reflexivity |].
  now destruct (p (f x)).
Qed.

Lemma severity_fold (ts : list string) (issue : Issue) :
  severity (fold_left setField ts issue) =
  match findLast (fun t => JS.startsWith t "- **Severity**:") ts with
  | Some t => extractValue t
  | None => severity issue
  end.
Proof.
  revert issue. induction ts as [|t ts IH]; intros issue; simpl; [reflexivity |].
  rewrite IH, severity_setField.
  destruct (findLast _ ts); [reflexivity |].
  now destruct (JS.startsWith t "- **Severity**:").
Qed.

Lemma line_fold (ts : list string) (issue : Issue) :
  line (fold_left setField ts issue) =
  match findLast (fun t => JS.startsWith t "- **Line**:") ts with
  | Some t => lineOfField t
  | None => line issue
  end.
Proof.
  revert issue. induction ts as [|t ts IH]; intros issue; simpl; [reflexivity |].
  rewrite IH, line_setField.
  destruct (findLast _ ts); [reflexivity |].
  now destruct (JS.startsWith t "- **Line**:").
Qed.

(** Lines that open no issue only touch the issue being accumulated. *)
Lemma parseStep_span (span : list string) (issues : list Issue) (issue : Issue) :
  forallb (fun l => negb (isIssueMarker l)) span = true ->
  fold_left parseStep span (issues, Some issue) =
  (issues, Some (fold_left setField (map JS.trim span) issue)).
Proof.
  revert issue. induction span as [|l span IH]; intros issue H; simpl in *;
    [reflexivity |].
  apply andb_prop in H as [Hl Hs]. apply negb_true_iff in Hl.
  unfold parseStep at 2. unfold isIssueMarker in Hl. rewrite Hl. cbn [fst snd].
  now apply IH.
Qed.

(** The issue that a marker line opens, after the lines of its span. *)
Lemma parseLines_issue (pre span : list string) (m : string) :
  isIssueMarker m = true ->
  forallb (fun l => negb (isIssueMarker l)) span = true ->
  pushCurrent (parseLines (pre ++ m :: span)) =
  (pushCurrent (parseLines pre) ++
   [fold_left setField (map JS.trim span) (newIssue (JS.trim m))])%list.
Proof.
  intros Hm Hs. unfold parseLines.
  rewrite fold_left_app. cbn [fold_left].
  unfold parseStep at 2. unfold isIssueMarker in Hm. rewrite Hm.
  rewrite parseStep_span by assumption. reflexivity.
Qed.

Lemma isDigit_digitValue (c : ascii) :
  DiffParser.isDigit c = false -> JS.digitValue 10 c = None.
Proof.
  destruct c as [[] [] [] [] [] [] [] []]; intros H;
    solve [reflexivity | discriminate H].
Qed.

(** A text without leading digit parses to NaN. *)
Lemma parseInt_NaN (v : string) :
  leadingDigit v = false -> JS.parseInt v = JS.JNaN.
Proof.
  unfold leadingDigit, JS.parseInt.
  destruct (JS.trimStart v) as [|c s]; [reflexivity |].
  destruct (Ascii.eqb c "-") eqn:Hm; [| destruct (Ascii.eqb c "+") eqn:Hp];
    cbn [orb].
  - destruct s as [|d s]; [reflexivity |]. intros Hd.
    assert (Ascii.eqb d "0" = false) as H0
      by (destruct (Ascii.eqb_spec d "0"); [subst; discriminate | reflexivity]).
    destruct s as [|e s]; simpl; rewrite ?H0; simpl;
      now rewrite (isDigit_digitValue d Hd).
  - destruct s as [|d s]; [reflexivity |]. intros Hd.
    assert (Ascii.eqb d "0" = false) as H0
      by (destruct (Ascii.eqb_spec d "0"); [subst; discriminate | reflexivity]).
    destruct s as [|e s]; simpl; rewrite ?H0; simpl;
      now rewrite (isDigit_digitValue d Hd).
  - intros Hd.
    assert (Ascii.eqb c "0" = false) as H0
      by (destruct (Ascii.eqb_spec c "0"); [subst; discriminate | reflexivity]).
    destruct s as [|e s]; simpl; rewrite ?H0; simpl;
      now rewrite (isDigit_digitValue c Hd).
Qed.

End IssueFields.

Section IssueSpans.

Import AIService.

(** Issues pushed before a run of the loop stay in front of its result. *)
Lemma parseStep_prefix (l : list string) (P x : list Issue) (c : option Issue) :
  fold_left parseStep l ((P ++ x)%list, c) =
  ((P ++ fst (fold_left parseStep l (x, c)))%list,
   snd (fold_left parseStep l (x, c))).
Proof.
  revert x c. induction l as [|a l IH]; intros x c; [reflexivity |].
  cbn [fold_left]. unfold parseStep at 2 4 6.
  destruct (JS.startsWith (JS.trim a) "- **Issue Type**:").
  - destruct c as [i|]; cbn [pushCurrent].
    + rewrite <- app_assoc. apply IH.
    + apply IH.
  - destruct c as [i|]; cbn [fst snd]; apply IH.
Qed.

Lemma pushCurrent_after (post : list string) (P : list Issue) (issue : Issue) :
  endsSpan post = true ->
  pushCurrent (fold_left parseStep post (P, Some issue)) =
  (P ++ [issue] ++ pushCurrent (parseLines post))%list.
Proof.
  destruct post as [|m post]; intros H.
  - reflexivity.
  - unfold parseLines. cbn [fold_left]. unfold parseStep at 2 4.
    cbn [endsSpan] in H. unfold isIssueMarker in H. rewrite H.
    cbn [pushCurrent].
    rewrite <- (app_nil_r (P ++ [issue])) at 1.
    rewrite parseStep_prefix.
    destruct (fold_left parseStep post ([], Some (newIssue (JS.trim m))))
      as [a [b|]]; cbn [fst snd pushCurrent]; now rewrite <- !app_assoc.
Qed.




End IssueSpans.

(** ** The diff parser *)

Section CleanDiffFacts.

Import DiffParser.

Lemma startsWith_line (l rest p : string) :
  singleLine p = true ->
  JS.startsWith (l ++ JS.nl ++ rest) p = JS.startsWith l p.
Proof.
  revert p. induction l as [|c l IH]; intros [|b p] Hp; try reflexivity.
  - cbn [singleLine] in Hp. apply andb_prop in Hp as [Hb _].
    apply negb_true_iff in Hb.
    change (JS.startsWith (String JS.LF rest) (String b p) = false).
    cbn [JS.startsWith]. now rewrite Ascii.eqb_sym, Hb.
  - cbn [singleLine] in Hp. apply andb_prop in Hp as [_ Hp].
    change (String c l ++ JS.nl ++ rest) with (String c (l ++ JS.nl ++ rest)).
    cbn [JS.startsWith]. f_equal. now apply IH.
Qed.

Lemma includes_empty (p : string) :
  p <> EmptyString -> JS.includes EmptyString p = false.
Proof. destruct p; [contradiction | reflexivity]. Qed.

Lemma includes_line (l rest p : string) :
  p <> EmptyString -> singleLine p = true ->
  JS.includes (l ++ JS.nl ++ rest) p = JS.includes l p || JS.includes rest p.
Proof.
  intros Hne Hp. induction l as [|c l IH].
  - rewrite includes_empty by assumption.
    change (EmptyString ++ JS.nl ++ rest) with (String JS.LF rest).
    cbn [JS.includes].
    change (String JS.LF rest) with (EmptyString ++ JS.nl ++ rest).
    rewrite startsWith_line by assumption.
    destruct p; [contradiction | reflexivity].
  - change (String c l ++ JS.nl ++ rest) with (String c (l ++ JS.nl ++ rest)).
    cbn [JS.includes]. rewrite IH.
    change (String c (l ++ JS.nl ++ rest)) with (String c l ++ JS.nl ++ rest).
    rewrite startsWith_line by assumption.
    now rewrite orb_assoc.
Qed.

(** A mark without line feed occurs in a text when it occurs in a line. *)
Lemma includes_join (ls : list string) (p : string) :
  p <> EmptyString -> singleLine p = true ->
  JS.includes (JS.join JS.nl ls) p = existsb (fun l => JS.includes l p) ls.
Proof.
  intros Hne Hp. induction ls as [|l ls IH].
  - now apply includes_empty.
  - destruct ls as [|l' ls].
    + simpl. now rewrite orb_false_r.
    + rewrite join_cons2, includes_line, IH by assumption. reflexivity.
Qed.

Lemma existsb_filter {A : Type} (p q : A -> bool) (l : list A) :
  existsb p l = false -> existsb p (filter q l) = false.
Proof.
  induction l as [|x l IH]; simpl; [reflexivity |].
  intros H. apply orb_false_elim in H as [Hx Hl].
  destruct (q x); simpl; [rewrite Hx |]; auto.
Qed.

Lemma cleanStep_keep (acc : list string) (line : string) :
  cleanStep acc line = if keepLine line then (acc ++ [line])%list else acc.
Proof.
  unfold cleanStep, keepLine, isHeaderLine.
  destruct (JS.startsWith line "diff --git" || JS.startsWith line "index " ||
            JS.startsWith line "+++" || JS.startsWith line "---");
    [reflexivity |].
  cbn [negb andb].
  destruct (JS.startsWith line "@@"); [reflexivity |].
  cbn [orb].
  now destruct (JS.startsWith line "+" || JS.startsWith line "-" ||
                JS.startsWith line " ").
Qed.

(** The loop of [cleanDiff] is a filter. *)
Lemma cleanLoop_filter (lines acc : list string) :
  fold_left cleanStep lines acc = (acc ++ filter keepLine lines)%list.
Proof.
  revert acc. induction lines as [|l lines IH]; intros acc; simpl.
  - now rewrite app_nil_r.
  - rewrite IH, cleanStep_keep.
    destruct (keepLine l); [now rewrite <- app_assoc | reflexivity].
Qed.

Lemma filter_all {A : Type} (p : A -> bool) (l : list A) :
  Forall (fun x => p x = true) l -> filter p l = l.
Proof.
  induction 1 as [|x l Hx _ IH]; simpl; [reflexivity |].
  now rewrite Hx, IH.
Qed.

Lemma filter_kept {A : Type} (p : A -> bool) (l : list A) :
  Forall (fun x => p x = true) (filter p l).
Proof.
  apply Forall_forall. intros x Hx. now apply filter_In in Hx.
Qed.

Lemma Forall_filter {A : Type} (P : A -> Prop) (p : A -> bool) (l : list A) :
  Forall P l -> Forall P (filter p l).
Proof.
  intros H. apply Forall_forall. intros x Hx. apply filter_In in Hx as [Hx _].
  revert x Hx. now apply Forall_forall.
Qed.

(** Cleaning a diff that carries no binary mark a second time changes
    nothing. *)
Lemma cleanDiff_again (d : string) :
  JS.includes d binaryMark = false -> cleanDiff (cleanDiff d) = cleanDiff d.
Proof.
  intros Hd.
  assert (binaryMark <> EmptyString) as Hne by discriminate.
  assert (singleLine binaryMark = true) as Hsl by reflexivity.
  assert (cleanDiff d = JS.join JS.nl (filter keepLine (JS.split d))) as E.
  { unfold cleanDiff. fold binaryMark. rewrite Hd.
    now rewrite cleanLoop_filter. }
  rewrite E. unfold cleanDiff at 1. fold binaryMark.
  rewrite includes_join by assumption.
  rewrite existsb_filter.
  2:{ rewrite <- includes_join by assumption. now rewrite join_split. }
  rewrite cleanLoop_filter. cbn [app]. f_equal.
  destruct (filter keepLine (JS.split d)) as [|k ks] eqn:K; [reflexivity |].
  rewrite split_join.
  - rewrite <- K. apply filter_all, filter_kept.
  - discriminate.
  - rewrite <- K. apply Forall_filter, split_singleLine.
Qed.

(** C3, as the code has it.  Cleaning twice equals cleaning once for every
    diff without the binary mark; for a diff with the mark the first pass
    gives the placeholder and the second pass, which drops the placeholder
    line, gives the empty text. *)
Theorem cleanDiff_twice (d : string) :
  cleanDiff (cleanDiff d) =
  if JS.includes d binaryMark then EmptyString else cleanDiff d.
Proof.
  destruct (JS.includes d binaryMark) eqn:Hd.
  - unfold cleanDiff at 2. fold binaryMark. rewrite Hd. reflexivity.
  - now apply cleanDiff_again.
Qed.

(** C3, as stated, fails on a binary diff: the placeholder is not a fixed
    point of [cleanDiff]. *)
Lemma cleanDiff_not_idempotent :
  cleanDiff "Binary files differ" = "// Binary file - cannot review content" /\
  cleanDiff (cleanDiff "Binary files differ") = EmptyString /\
  cleanDiff (cleanDiff "Binary files differ") <> cleanDiff "Binary files differ".
Proof. repeat split; [reflexivity .. | discriminate]. Qed.

End CleanDiffFacts.

(** ** Round trip through the response format *)

Section FieldLines.

Import AIService.

Variables (name v : string).
Hypothesis Hname : fieldName name = true.
Hypothesis Hv : Trimmed v.

Lemma startsWith_refl (s : string) : JS.startsWith s s = true.
Proof.
  induction s as [|c s IH]; simpl; [reflexivity |].
  now rewrite Ascii.eqb_refl.
Qed.

Lemma startsWith_append (a b p : string) :
  JS.startsWith a p = true -> JS.startsWith (a ++ b) p = true.
Proof.
  revert p. induction a as [|c a IH]; intros [|d p]; simpl; try easy.
  intros H. apply andb_prop in H as [-> H]. now apply IH.
Qed.

Lemma fieldName_inv :
  JS.includes name ":" = false /\
  exists c n', name = String c n' /\ JS.isWhite c = false.
Proof.
  unfold fieldName in Hname. apply andb_prop in Hname as [H1 H2].
  apply negb_true_iff in H1. split; [assumption |].
  destruct name as [|c n']; [discriminate |].
  apply negb_true_iff in H2. eauto.
Qed.

(** The trimmed line: the marker alone when the value is empty. *)
Lemma trim_fieldLine :
  JS.trim (fieldLine name v) =
  if JS.isEmpty v then name ++ ":" else fieldLine name v.
Proof.
  destruct fieldName_inv as [_ (c & n' & -> & Hc)].
  unfold fieldLine. destruct v as [|d w] eqn:E; cbn [JS.isEmpty].
  - replace ((String c n' ++ ":") ++ " " ++ EmptyString)
      with (String c n' ++ ": ") by (now rewrite append_assoc).
    unfold JS.trim.
    change (String c n' ++ ": ") with (String c (n' ++ ": ")).
    cbn [JS.trimStart]. rewrite Hc.
    change (String c (n' ++ ": ")) with (String c n' ++ ": ").
    rewrite trimEnd_append; [reflexivity | discriminate].
  - rewrite <- E in *.
    replace ((String c n' ++ ":") ++ " " ++ v)
      with (String c ((n' ++ ":") ++ " ") ++ v)
      by (cbn [append]; now rewrite append_assoc).
    apply trim_append; [assumption | assumption | rewrite E; discriminate].
Qed.

Lemma indexOfFrom_append (p rest : string) (i : Z) :
  JS.includes p ":" = false ->
  JS.indexOfFrom i ":" (p ++ ":" ++ rest) = (i + Z.of_nat (String.length p))%Z.
Proof.
  revert i. induction p as [|c p IH]; intros i H.
  - simpl. lia.
  - cbn [JS.includes] in H. apply orb_false_elim in H as [Hc Hp].
    cbn [JS.startsWith] in Hc. rewrite andb_true_r in Hc.
    cbn [append JS.indexOfFrom]. rewrite Hc.
    rewrite IH by assumption. cbn [String.length]. lia.
Qed.

Lemma drop_append (p rest : string) : JS.drop (String.length p) (p ++ rest) = rest.
Proof. induction p as [|c p IH]; [now destruct rest | exact IH]. Qed.

Lemma extractValue_append (rest : string) :
  extractValue ((name ++ ":") ++ rest) = JS.trim rest.
Proof.
  destruct fieldName_inv as [Hcolon _].
  unfold extractValue, JS.indexOf. rewrite append_assoc.
  rewrite indexOfFrom_append by assumption.
  destruct (Z.eqb_spec (0 + Z.of_nat (String.length name)) (-1)) as [E | _];
    [lia |].
  unfold JS.substring.
  replace (Z.to_nat (0 + Z.of_nat (String.length name) + 1))
    with (S (String.length name)) by lia.
  change (String.length name) with (String.length name).
  replace (name ++ ":" ++ rest) with ((name ++ ":") ++ rest)
    by apply append_assoc.
  replace (S (String.length name)) with (String.length (name ++ ":"))
    by (rewrite length_append; simpl; lia).
  now rewrite drop_append.
Qed.

(** The value comes back from the trimmed line. *)
Lemma extractValue_fieldLine : extractValue (JS.trim (fieldLine name v)) = v.
Proof.
  rewrite trim_fieldLine. destruct v as [|d w] eqn:E; cbn [JS.isEmpty].
  - rewrite <- (append_nil_r (name ++ ":")).
    now rewrite extractValue_append.
  - unfold fieldLine. rewrite extractValue_append.
    rewrite <- E in *. exact Hv.
Qed.

(** The trimmed line starts with what starts the marker... *)
Lemma startsWith_fieldLine (p : string) :
  JS.startsWith (name ++ ":") p = true ->
  JS.startsWith (JS.trim (fieldLine name v)) p = true.
Proof.
  intros H. rewrite trim_fieldLine.
  destruct (JS.isEmpty v); [assumption |].
  unfold fieldLine. now apply startsWith_append.
Qed.

(** ... and with no marker that differs from its own. *)
Lemma startsWith_fieldLine_other (p : string) :
  JS.startsWith (name ++ ":") p = false ->
  JS.startsWith p (name ++ ":") = false ->
  JS.startsWith (JS.trim (fieldLine name v)) p = false.
Proof.
  intros H1 H2.
  apply (startsWith_exclusive _ (name ++ ":") p); try assumption.
  apply startsWith_fieldLine, startsWith_refl.
Qed.

End FieldLines.

Section RoundTrip.

Import AIService.

Ltac other_marker N v Hv p :=
  rewrite (startsWith_fieldLine_other N v eq_refl Hv p eq_refl eq_refl).

Ltac own_marker N v Hv p :=
  rewrite (startsWith_fieldLine N v eq_refl Hv p eq_refl).

Lemma newIssue_fieldLine (v : string) :
  Trimmed v ->
  newIssue (JS.trim (fieldLine "- **Issue Type**" v)) =
  {| type := v; severity := "MEDIUM"; line := None;
     description := EmptyString; suggestion := EmptyString;
     example := EmptyString |}.
Proof.
  intros Hv. unfold newIssue.
  now rewrite (extractValue_fieldLine "- **Issue Type**" v eq_refl Hv).
Qed.

Lemma setField_severity (j : Issue) (v : string) :
  Trimmed v ->
  setField j (JS.trim (fieldLine "- **Severity**" v)) =
  {| type := type j; severity := v; line := line j;
     description := description j; suggestion := suggestion j;
     example := example j |}.
Proof.
  intros Hv. unfold setField.
  own_marker "- **Severity**" v Hv "- **Severity**:".
  now rewrite (extractValue_fieldLine "- **Severity**" v eq_refl Hv).
Qed.

Lemma setField_line (j : Issue) (v : string) :
  Trimmed v ->
  setField j (JS.trim (fieldLine "- **Line**" v)) =
  {| type := type j; severity := severity j;
     line := if negb (String.eqb v "N/A") then Some (JS.parseInt v) else None;
     description := description j; suggestion := suggestion j;
     example := example j |}.
Proof.
  intros Hv. unfold setField.
  other_marker "- **Line**" v Hv "- **Severity**:".
  own_marker "- **Line**" v Hv "- **Line**:".
  now rewrite (extractValue_fieldLine "- **Line**" v eq_refl Hv).
Qed.

Lemma setField_description (j : Issue) (v : string) :
  Trimmed v ->
  setField j (JS.trim (fieldLine "- **Description**" v)) =
  {| type := type j; severity := severity j; line := line j;
     description := v; suggestion := suggestion j; example := example j |}.
Proof.
  intros Hv. unfold setField.
  other_marker "- **Description**" v Hv "- **Severity**:".
  other_marker "- **Description**" v Hv "- **Line**:".
  own_marker "- **Description**" v Hv "- **Description**:".
  now rewrite (extractValue_fieldLine "- **Description**" v eq_refl Hv).
Qed.

Lemma setField_suggestion (j : Issue) (v : string) :
  Trimmed v ->
  setField j (JS.trim (fieldLine "- **Suggestion**" v)) =
  {| type := type j; severity := severity j; line := line j;
     description := description j; suggestion := v; example := example j |}.
Proof.
  intros Hv. unfold setField.
  other_marker "- **Suggestion**" v Hv "- **Severity**:".
  other_marker "- **Suggestion**" v Hv "- **Line**:".
  other_marker "- **Suggestion**" v Hv "- **Description**:".
  own_marker "- **Suggestion**" v Hv "- **Suggestion**:".
  now rewrite (extractValue_fieldLine "- **Suggestion**" v eq_refl Hv).
Qed.

Lemma setField_example (j : Issue) (v : string) :
  Trimmed v ->
  setField j (JS.trim (fieldLine "- **Example**" v)) =
  {| type := type j; severity := severity j; line := line j;
     description := description j; suggestion := suggestion j; example := v |}.
Proof.
  intros Hv. unfold setField.
  other_marker "- **Example**" v Hv "- **Severity**:".
  other_marker "- **Example**" v Hv "- **Line**:".
  other_marker "- **Example**" v Hv "- **Description**:".
  other_marker "- **Example**" v Hv "- **Suggestion**:".
  own_marker "- **Example**" v Hv "- **Example**:".
  now rewrite (extractValue_fieldLine "- **Example**" v eq_refl Hv).
Qed.

Lemma KnownSeverity_FieldValue (s : string) : KnownSeverity s -> FieldValue s.
Proof. intros [-> | [-> | [-> | ->]]]; split; reflexivity. Qed.

(** The text of a line number is a field value that reads back. *)
Lemma lineText_FieldValue (l : option JS.number) :
  l = None \/ (exists n, (0 < n)%Z /\ l = Some (JS.JNum n)) ->
  FieldValue (lineText l) /\
  (if negb (String.eqb (lineText l) "N/A")
   then Some (JS.parseInt (lineText l)) else None) = l.
Proof.
  intros [-> | (n & Hn & ->)]; [repeat split |].
  cbn [lineText].
  destruct (numToString_digits n) as [Hall (c & s & E & Hc)]; [lia |].
  repeat split.
  - now apply allDigits_singleLine.
  - now apply allDigits_Trimmed.
  - rewrite parseInt_numToString by lia. rewrite E.
    destruct (digit_facts c Hc) as (_ & _ & _ & _ & _ & _ & HN & _).
    cbn [String.eqb]. now rewrite HN.
Qed.

(** One issue comes back from its six lines. *)
Lemma issue_roundtrip (i : Issue) :
  WellFormedIssue i ->
  fold_left setField (map JS.trim (tl (issueLines i)))
    (newIssue (JS.trim (hd EmptyString (issueLines i)))) = i.
Proof.
  intros [[_ Hty] Hsev Hline [_ Hdesc] [_ Hsug] [_ Hex]].
  destruct (KnownSeverity_FieldValue _ Hsev) as [_ Hs].
  destruct (lineText_FieldValue _ Hline) as [[_ Hl] Hback].
  destruct i as [ty sev ln desc sug ex].
  cbn [type severity line description suggestion example] in *.
  unfold issueLines.
  cbn [type severity line description suggestion example tl hd map fold_left].
  rewrite newIssue_fieldLine by assumption.
  rewrite setField_severity by assumption.
  rewrite setField_line by assumption.
  rewrite setField_description by assumption.
  rewrite setField_suggestion by assumption.
  rewrite setField_example by assumption.
  cbn [type severity line description suggestion example].
  now rewrite Hback.
Qed.

Lemma singleLine_append (a b : string) :
  singleLine (a ++ b) = singleLine a && singleLine b.
Proof.
  induction a as [|c a IH]; simpl; [reflexivity |].
  now rewrite IH, andb_assoc.
Qed.

Lemma singleLine_fieldLine (name v : string) :
  singleLine name = true -> singleLine v = true ->
  singleLine (fieldLine name v) = true.
Proof.
  intros Hn Hv. unfold fieldLine.
  now rewrite !singleLine_append, Hn, Hv.
Qed.

Lemma issueLines_singleLine (i : Issue) :
  WellFormedIssue i -> Forall (fun l => singleLine l = true) (issueLines i).
Proof.
  intros [[Hty _] Hsev Hline [Hdesc _] [Hsug _] [Hex _]].
  destruct (KnownSeverity_FieldValue _ Hsev) as [Hs _].
  destruct (lineText_FieldValue _ Hline) as [[Hl _] _].
  unfold issueLines.
  repeat constructor; now apply singleLine_fieldLine.
Qed.

Lemma issueLines_shape (i : Issue) :
  WellFormedIssue i ->
  isIssueMarker (hd EmptyString (issueLines i)) = true /\
  forallb (fun l => negb (isIssueMarker l)) (tl (issueLines i)) = true.
Proof.
  intros [[_ Hty] Hsev Hline [_ Hdesc] [_ Hsug] [_ Hex]].
  destruct (KnownSeverity_FieldValue _ Hsev) as [_ Hs].
  destruct (lineText_FieldValue _ Hline) as [[_ Hl] _].
  unfold issueLines, isIssueMarker. cbn [hd tl forallb]. split.
  - now own_marker "- **Issue Type**" (type i) Hty "- **Issue Type**:".
  - other_marker "- **Severity**" (severity i) Hs "- **Issue Type**:".
    other_marker "- **Line**" (lineText (line i)) Hl "- **Issue Type**:".
    other_marker "- **Description**" (description i) Hdesc "- **Issue Type**:".
    other_marker "- **Suggestion**" (suggestion i) Hsug "- **Issue Type**:".
    other_marker "- **Example**" (example i) Hex "- **Issue Type**:".
    reflexivity.
Qed.

(** The loop of [parseReview] over the lines of a list of issues. *)
Lemma parseLines_issueLines (l : list Issue) :
  Forall WellFormedIssue l ->
  pushCurrent (parseLines (flat_map issueLines l)) = l.
Proof.
  induction l as [|i l IH] using rev_ind; intros Hwf; [reflexivity |].
  apply Forall_app in Hwf as [Hl Hi]. inversion Hi as [|? ? Hwi _]; subst.
  rewrite flat_map_app. cbn [flat_map]. rewrite app_nil_r.
  destruct (issueLines_shape i Hwi) as [Hm Hspan].
  pose proof (issue_roundtrip i Hwi) as Hback.
  change (issueLines i)
    with (hd EmptyString (issueLines i) :: tl (issueLines i)).
  rewrite parseLines_issue by assumption.
  now rewrite IH, Hback.
Qed.


End RoundTrip.

(** ** Added lines *)

Section AddedLinesFacts.

Import DiffParser.

Lemma takeDigits_append (ds rest : string) :
  allDigits ds = true -> noDigitAhead rest = true ->
  takeDigits (ds ++ rest) = ds.
Proof.
  intros Hd Hr. induction ds as [|c ds IH].
  - destruct rest as [|r rest]; [reflexivity |].
    cbn in *. apply negb_true_iff in Hr. now rewrite Hr.
  - cbn [allDigits] in Hd. apply andb_prop in Hd as [Hc Hd].
    cbn [append takeDigits]. rewrite Hc. now rewrite IH.
Qed.

Lemma skipDigits_append (ds rest : string) :
  allDigits ds = true -> noDigitAhead rest = true ->
  skipDigits (ds ++ rest) = rest.
Proof.
  intros Hd Hr. induction ds as [|c ds IH].
  - destruct rest as [|r rest]; [reflexivity |].
    cbn in *. apply negb_true_iff in Hr. now rewrite Hr.
  - cbn [allDigits] in Hd. apply andb_prop in Hd as [Hc Hd].
    cbn [append skipDigits]. rewrite Hc. now apply IH.
Qed.

Lemma numToString_allDigits (n : Z) :
  (0 <= n)%Z ->
  allDigits (JS.numToString n) = true /\ JS.isEmpty (JS.numToString n) = false.
Proof.
  intros Hn. destruct (numToString_digits n Hn) as [H (c & s & E & _)].
  split; [assumption | now rewrite E].
Qed.

(** The header of the claimed form matches where it starts, and the group
    is the text of [c]. *)
Lemma hunkHeaderAt_hunkHeader (a b c d : Z) (tail : string) :
  (0 <= a)%Z -> (0 <= b)%Z -> (0 <= c)%Z -> (0 <= d)%Z ->
  hunkHeaderAt (hunkHeader a b c d tail) = Some (JS.numToString c).
Proof.
  intros Ha Hb Hc Hd.
  destruct (numToString_allDigits a Ha) as [Da Ea].
  destruct (numToString_allDigits b Hb) as [Db Eb].
  destruct (numToString_allDigits c Hc) as [Dc Ec].
  destruct (numToString_allDigits d Hd) as [Dd Ed].
  unfold hunkHeaderAt, hunkHeader.
  change (expect "@@ -" ("@@ -" ++ ?x)) with (Some x).
  cbv beta iota.
  rewrite (takeDigits_append (JS.numToString a)), Ea by easy.
  rewrite (skipDigits_append (JS.numToString a)) by easy.
  change (skipComma ("," ++ ?x)) with x.
  rewrite (skipDigits_append (JS.numToString b)) by easy.
  change (expect " +" (" +" ++ ?x)) with (Some x).
  cbv beta iota.
  rewrite (takeDigits_append (JS.numToString c)), Ec by easy.
  rewrite (skipDigits_append (JS.numToString c)) by easy.
  change (skipComma ("," ++ ?x)) with x.
  rewrite (skipDigits_append (JS.numToString d)) by easy.
  reflexivity.
Qed.

Lemma scanStep_hunkHeader (st : ScanState) (a b c d : Z) (tail : string) :
  (0 <= a)%Z -> (0 <= b)%Z -> (0 <= c)%Z -> (0 <= d)%Z ->
  scanStep st (hunkHeader a b c d tail) =
  {| currentLineNumber := JS.JNum (c - 1);
     inHunk := true;
     addedLines := addedLines st |}.
Proof.
  intros Ha Hb Hc Hd. unfold scanStep.
  replace (JS.startsWith (hunkHeader a b c d tail) "@@") with true
    by reflexivity.
  replace (hunkHeaderMatch (hunkHeader a b c d tail))
    with (Some (JS.numToString c)).
  - rewrite parseInt_numToString by assumption. reflexivity.
  - destruct (hunkHeader a b c d tail) eqn:E;
      cbn [hunkHeaderMatch]; rewrite <- ?E;
      now rewrite hunkHeaderAt_hunkHeader.
Qed.

(** Inside a hunk, the loop records what [addedFrom] describes. *)
Lemma scan_body (body : list string) (k : Z) (acc : list AddedLine) :
  Forall (fun l => JS.startsWith l "@@" = false) body ->
  addedLines
    (fold_left scanStep body
       {| currentLineNumber := JS.JNum k; inHunk := true; addedLines := acc |}) =
  (acc ++ addedFrom k body)%list.
Proof.
  revert k acc. induction body as [|l body IH]; intros k acc H.
  - cbn. now rewrite app_nil_r.
  - inversion H as [|? ? Hl Hb]; subst.
    cbn [fold_left addedFrom]. unfold scanStep at 2. rewrite Hl.
    cbn [inHunk negb currentLineNumber addedLines numAdd].
    destruct (JS.startsWith l " " || JS.startsWith l "+");
      destruct (JS.startsWith l "+" && negb (JS.startsWith l "+++"));
      rewrite IH by assumption; cbn [app]; now rewrite <- ?app_assoc.
Qed.

(** Before the first header nothing is recorded. *)
Lemma scan_inactive (pre : list string) :
  Forall (fun l => headerOf l = None) pre -> scanLines pre = scanStart.
Proof.
  unfold scanLines. induction pre as [|l pre IH] using rev_ind; intros H;
    [reflexivity |].
  apply Forall_app in H as [Hp Hl]. inversion Hl as [|? ? Hh _]; subst.
  rewrite fold_left_snoc, IH by assumption.
  unfold scanStep, headerOf in *.
  destruct (JS.startsWith l "@@"); [now rewrite Hh | reflexivity].
Qed.



End AddedLinesFacts.

(** ** Eligibility of a file *)

Section EligibilityFacts.

Import DiffParser.

Variable regExpTest : string -> string -> option bool.
Variable config : ReviewConfig.


End EligibilityFacts.

Section EligibilityExamples.

Import DiffParser.



(** C6 on a pattern with a question mark and no star: the pattern is taken
    literally, whatever the engine, so [abc] is not skipped by [a?c]; with a
    star in the pattern the question mark is a wildcard. *)
Theorem shouldSkipFile_question_mark :
  (forall regExpTest,
     shouldSkipFile regExpTest
       {| maxDiffSize := 10000; supportedLanguages := []; skipFiles := ["a?c"] |}
       "abc" = Some false) /\
  shouldSkipFile JS.wildcardRegExp
    {| maxDiffSize := 10000; supportedLanguages := []; skipFiles := ["a?c*"] |}
    "abc" = Some true.
Proof. split; reflexivity. Qed.

(** The skip patterns of the specification. *)
Example shouldSkipFile_samples :
  let config := {| maxDiffSize := 10000; supportedLanguages := [];
                   skipFiles := ["*.min.js"; "package-lock.json"] |} in
  shouldSkipFile JS.wildcardRegExp config "app.min.js" = Some true /\
  shouldSkipFile JS.wildcardRegExp config "package-lock.json" = Some true /\
  shouldSkipFile JS.wildcardRegExp config "app.js" = Some false.
Proof. repeat split. Qed.

Example detectLanguage_samples :
  detectLanguage "x/y/Foo.TS" = Lang "typescript" /\
  detectLanguage "Dockerfile" = Lang "dockerfile" /\
  detectLanguage "notes" = Lang "unknown".
Proof. repeat split. Qed.

End EligibilityExamples.

(** ** The loop over the files *)

Section ReviewLoopFacts.

Import GitLabReviewer.

Variable World : Type.
Variable reviewCode :
  string -> DiffParser.Language -> string -> ReviewContext ->
  World -> World * (string + AIService.Review).
Variable context : ReviewContext.

#[local] Abbreviation step := (reviewFile World reviewCode context).
#[local] Abbreviation run := (reviewFiles World reviewCode context).

(** Reviews pushed before a run of the loop stay in front of its result. *)
Lemma reviewFile_prefix (files : list DiffParser.ParsedFile) (w : World)
  (acc : list FileReview) :
  fold_left step files (w, acc) =
  (fst (run w files), (acc ++ snd (run w files))%list).
Proof.
  unfold reviewFiles. revert w acc.
  induction files as [|file files IH]; intros w acc.
  - cbn. now rewrite app_nil_r.
  - cbn [fold_left]. unfold reviewFile at 2 4 6.
    destruct (DiffParser.tooLarge file).
    + rewrite (IH w (acc ++ _)%list), (IH w ([] ++ _)%list).
      cbn [fst snd]. now rewrite <- app_assoc.
    + destruct (reviewCode _ _ _ _ w) as [w' [message | review]].
      * rewrite (IH w' (acc ++ _)%list), (IH w' ([] ++ _)%list).
        cbn [fst snd]. now rewrite <- app_assoc.
      * rewrite (IH w' (acc ++ _)%list), (IH w' ([] ++ _)%list).
        cbn [fst snd]. now rewrite <- app_assoc.
Qed.

Lemma reviewFiles_app (w : World) (l1 l2 : list DiffParser.ParsedFile) :
  run w (l1 ++ l2) =
  (fst (run (fst (run w l1)) l2),
   (snd (run w l1) ++ snd (run (fst (run w l1)) l2))%list).
Proof.
  unfold reviewFiles at 1. rewrite fold_left_app.
  fold (run w l1). destruct (run w l1) as [w1 r1]. cbn [fst snd].
  apply reviewFile_prefix.
Qed.

Lemma reviewFile_single (w : World) (file : DiffParser.ParsedFile) :
  run w [file] =
  if DiffParser.tooLarge file then (w, [skippedReview file])
  else
    match reviewCode (DiffParser.filename file) (DiffParser.language file)
            (DiffParser.cleaned file) context w with
    | (w', inr review) => (w', [normalReview file review])
    | (w', inl message) => (w', [erroredReview file message])
    end.
Proof.
  unfold reviewFiles. cbn [fold_left]. unfold reviewFile.
  destruct (DiffParser.tooLarge file); [reflexivity |].
  now destruct (reviewCode _ _ _ _ w) as [w' [message | review]].
Qed.

(** One review per file, whatever the calls answer. *)
Lemma reviewFiles_length (w : World) (files : list DiffParser.ParsedFile) :
  List.length (snd (run w files)) = List.length files.
Proof.
  revert w. induction files as [|file files IH]; intros w; [reflexivity |].
  change (file :: files) with ([file] ++ files)%list.
  rewrite reviewFiles_app. cbn [snd]. rewrite length_app, IH.
  rewrite reviewFile_single.
  destruct (DiffParser.tooLarge file); [reflexivity |].
  now destruct (reviewCode _ _ _ _ w) as [w' [message | review]].
Qed.

(** C2.  When the call for one file throws, the review of that file is
    marked as an error, carries the message and has no issue; the files
    before it and after it are reviewed as if nothing had happened, the ones
    after it from the world that the failed call left, and there is one
    review per file. *)
Theorem reviewFiles_error_isolated
  (w : World) (before after : list DiffParser.ParsedFile)
  (file : DiffParser.ParsedFile) (message : string) :
  DiffParser.tooLarge file = false ->
  snd (reviewCode (DiffParser.filename file) (DiffParser.language file)
         (DiffParser.cleaned file) context (fst (run w before))) = inl message ->
  let w' := fst (reviewCode (DiffParser.filename file) (DiffParser.language file)
                   (DiffParser.cleaned file) context (fst (run w before))) in
  let reviews := snd (run w (before ++ file :: after)) in
  exists review,
    reviews = (snd (run w before) ++ review :: snd (run w' after))%list /\
    nth_error reviews (List.length before) = Some review /\
    filename review = DiffParser.filename file /\
    error review = true /\
    errorMessage review = Some message /\
    issues review = Some [] /\
    skipped review = false /\
    List.length reviews = List.length (before ++ file :: after).
Proof.
  intros Hsize Hcall w' reviews.
  exists (erroredReview file message).
  assert (reviews =
          (snd (run w before) ++
           erroredReview file message :: snd (run w' after))%list) as E.
  { unfold reviews. rewrite reviewFiles_app. cbn [snd].
    f_equal. change (file :: after) with ([file] ++ after)%list.
    rewrite reviewFiles_app, reviewFile_single, Hsize. subst w'.
    destruct (reviewCode _ _ _ _ (fst (run w before))) as [w1 [m | r]];
      cbn [snd fst] in *; [| discriminate].
    now injection Hcall as ->. }
  repeat split; try reflexivity.
  - exact E.
  - rewrite E, nth_error_app2, reviewFiles_length, Nat.sub_diag;
      [reflexivity | rewrite reviewFiles_length; lia].
  - unfold reviews. apply reviewFiles_length.
Qed.

End ReviewLoopFacts.

Section ReviewLoopExample.

Import GitLabReviewer.

Lemma reviewFiles_error_isolated_witness :
  let reviews :=
    snd (reviewFiles nat failingService noContext 0
           ([fileNamed "src/a.js"] ++
            fileNamed "src/bad.js" :: [fileNamed "src/c.js"])) in
  exists review,
    reviews =
      (snd (reviewFiles nat failingService noContext 0 [fileNamed "src/a.js"]) ++
       review ::
       snd (reviewFiles nat failingService noContext 2 [fileNamed "src/c.js"]))%list /\
    nth_error reviews 1 = Some review /\
    filename review = "src/bad.js" /\
    error review = true /\
    errorMessage review = Some "AI service unavailable" /\
    issues review = Some [] /\
    skipped review = false /\
    List.length reviews = 3.
Proof.
  apply (reviewFiles_error_isolated nat failingService noContext 0
           [fileNamed "src/a.js"] [fileNamed "src/c.js"]
           (fileNamed "src/bad.js") "AI service unavailable");
    reflexivity.
Defined.

End ReviewLoopExample.

(** ** The comment *)

Section CommentFacts.

Import GitLabReviewer.

Ltac norm_append :=
  repeat (progress (rewrite ?append_assoc; cbn [append])).

Lemma fold_left_text {A : Type} (f : string -> A -> string) (l : list A)
  (c : string) :
  (forall c a, f c a = c ++ f EmptyString a) ->
  fold_left f l c = c ++ concatAll (map (f EmptyString) l).
Proof.
  intros Hf. revert c. induction l as [|a l IH]; intros c; cbn.
  - now rewrite append_nil_r.
  - rewrite IH, Hf, append_assoc. reflexivity.
Qed.

Lemma renderIssue_text (c : string) (issue : AIService.Issue) :
  renderIssue c issue = c ++ issueText issue.
Proof.
  unfold issueText, renderIssue.
  destruct (AIService.line issue) as [[|z]|];
    try destruct (JS.truthyNumber (JS.JNum z));
    destruct (negb (JS.isEmpty (AIService.suggestion issue)));
    destruct (negb (JS.isEmpty (AIService.example issue)));
    norm_append; reflexivity.
Qed.

Lemma renderGroup_text (c : string) (entry : string * list AIService.Issue) :
  renderGroup c entry = c ++ groupText (fst entry) (snd entry).
Proof.
  destruct entry as [severity l]. unfold groupText, renderGroup. cbn [fst snd].
  destruct (List.length l =? 0)%nat; [now rewrite append_nil_r |].
  rewrite !(fold_left_text renderIssue) by apply renderIssue_text.
  norm_append. reflexivity.
Qed.

Lemma renderReview_text (c : string) (review : FileReview) :
  renderReview c review = c ++ fileText review.
Proof.
  unfold fileText, renderReview.
  destruct (error review); [reflexivity |].
  destruct (skipped review); [reflexivity |].
  destruct (issues review) as [[|i l]|]; try reflexivity.
  rewrite !(fold_left_text renderGroup)
    by (intros; rewrite renderGroup_text;
        now rewrite (renderGroup_text EmptyString)).
  norm_append. reflexivity.
Qed.

Lemma sumOver_list_sum (f : FileReview -> nat) (reviews : list FileReview) :
  sumOver f reviews = list_sum (map f reviews).
Proof.
  unfold sumOver.
  assert (forall n, fold_left (fun sum review => sum + f review) reviews n =
                    n + list_sum (map f reviews)) as H.
  { induction reviews as [|r reviews IH]; intros n;
      cbn [fold_left map]; [cbn; lia |].
    rewrite IH. change (list_sum (f r :: map f reviews))
      with (f r + list_sum (map f reviews)). lia. }
  apply H.
Qed.

(** The group of a severity is empty when no issue has it. *)
Lemma group_nonempty (s : string) (l : list AIService.Issue) :
  negb (List.length (filter (hasSeverity s) l) =? 0)%nat =
  existsb (hasSeverity s) l.
Proof.
  induction l as [|i l IH]; [reflexivity |].
  cbn [filter existsb]. destruct (hasSeverity s i); [reflexivity | exact IH].
Qed.

Lemma existsb_Permutation {A : Type} (p : A -> bool) (l l' : list A) :
  Permutation l l' -> existsb p l = existsb p l'.
Proof.
  induction 1 as [| x l l' _ IH | x y l | l l' l'' _ IH1 _ IH2]; cbn.
  - reflexivity.
  - now rewrite IH.
  - now destruct (p x), (p y).
  - now rewrite IH1.
Qed.

Lemma renderedGroups_eq (l : list AIService.Issue) :
  renderedGroups l = filter (fun s => existsb (hasSeverity s) l) severityOrder.
Proof.
  unfold renderedGroups, issuesBySeverity, severityOrder.
  cbn [filter snd map]. rewrite !group_nonempty.
  destruct (existsb (hasSeverity "CRITICAL") l),
           (existsb (hasSeverity "HIGH") l),
           (existsb (hasSeverity "MEDIUM") l),
           (existsb (hasSeverity "LOW") l); reflexivity.
Qed.


End CommentFacts.

Section Witnesses.

Import GitLabReviewer.


(** The response of the two sample issues, line by line. *)
Example responseOf_sample :
  JS.split (responseOf [injectionIssue; semicolonIssue]) =
  [ "- **Issue Type**: SECURITY"; "- **Severity**: CRITICAL"; "- **Line**: 10";
    "- **Description**: SQL injection vulnerability";
    "- **Suggestion**: Use parameterized queries"; "- **Example**: ";
    "- **Issue Type**: STYLE"; "- **Severity**: LOW"; "- **Line**: N/A";
    "- **Description**: Missing semicolon"; "- **Suggestion**: Add semicolon";
    "- **Example**: return x;" ].
Proof. reflexivity. Qed.


(** The critical issue is rendered before the low one, which came first. *)
Example fileText_sample :
  fileText lowThenCritical =
  "### 📝 src/test.js" ++ JS.nl ++
  "*2 issue(s) found*" ++ JS.nl ++ JS.nl ++
  "#### 🚨 CRITICAL Issues" ++ JS.nl ++ JS.nl ++
  "**SECURITY** (Line 10)" ++ JS.nl ++
  "SQL injection vulnerability" ++ JS.nl ++ JS.nl ++
  "*Suggestion:* Use parameterized queries" ++ JS.nl ++ JS.nl ++
  "#### 💡 LOW Issues" ++ JS.nl ++ JS.nl ++
  "**STYLE**" ++ JS.nl ++
  "Missing semicolon" ++ JS.nl ++ JS.nl ++
  "*Suggestion:* Add semicolon" ++ JS.nl ++ JS.nl ++
  "*Example:*" ++ JS.nl ++ "```" ++ JS.nl ++ "return x;" ++ JS.nl ++ "```" ++
  JS.nl ++ JS.nl.
Proof. reflexivity. Qed.

(** The comment for reviews without issue, and for one failed review. *)
Example generateReviewComment_samples :
  generateReviewComment "2024-01-01T00:00:00.000Z" "openrouter" "gpt-4" [] =
    "## 🤖 AI Code Review" ++ JS.nl ++ JS.nl ++
    "✅ **Great work!** No issues found in this merge request." ++ JS.nl ++ JS.nl ++
    "---" ++ JS.nl ++
    "*Review generated by GitLab AI Reviewer at 2024-01-01T00:00:00.000Z*" ++
    JS.nl ++ "*Powered by OPENROUTER gpt-4*" /\
  fileText (erroredReview (fileNamed "src/bad.js") "AI service unavailable") =
    "### ❌ src/bad.js" ++ JS.nl ++
    "*Error during review: AI service unavailable*" ++ JS.nl ++ JS.nl.
Proof. split; reflexivity. Qed.

(** Samples of the primitives. *)
Example primitives_samples :
  JS.split ("a" ++ JS.nl ++ JS.nl ++ "b") = ["a"; EmptyString; "b"] /\
  JS.trim ("  a b " ++ JS.nl) = "a b" /\
  JS.parseInt "42" = JS.JNum 42 /\ JS.parseInt "12abc" = JS.JNum 12 /\
  JS.parseInt "abc" = JS.JNaN /\ JS.parseInt "0x1f" = JS.JNum 31 /\
  JS.parseInt "-7" = JS.JNum (-7) /\ JS.parseInt EmptyString = JS.JNaN /\
  JS.numToString 0 = "0" /\ JS.numToString 1204 = "1204" /\
  JS.numToString (-35) = "-35".
Proof. repeat split. Qed.

End Witnesses.

(** * Further properties *)

(** ** What cleaning keeps *)

Section CleanedText.

Import DiffParser.

Lemma cleanDiff_join (d : string) :
  JS.includes d binaryMark = false ->
  cleanDiff d = JS.join JS.nl (filter keepLine (JS.split d)).
Proof.
  intros Hd. unfold cleanDiff. fold binaryMark. rewrite Hd.
  now rewrite cleanLoop_filter.
Qed.

Lemma split_join_kept (lines : list string) :
  Forall (fun l => singleLine l = true) lines ->
  JS.split (JS.join JS.nl lines) = linesOrBlank lines.
Proof.
  intros H. destruct lines as [|l lines]; [reflexivity |].
  now apply split_join.
Qed.

Lemma cleanDiff_split (d : string) :
  JS.includes d binaryMark = false ->
  JS.split (cleanDiff d) = linesOrBlank (filter keepLine (JS.split d)).
Proof.
  intros Hd. rewrite cleanDiff_join by assumption.
  apply split_join_kept, Forall_filter, split_singleLine.
Qed.

(** X1.  The lines of the cleaned text are the kept lines of the diff, in
    their order and as they were; one empty line when none is kept. *)
Theorem cleanDiff_lines (d : string) :
  JS.includes d binaryMark = false ->
  JS.split (cleanDiff d) = linesOrBlank (filter keepLine (JS.split d)) /\
  Forall (fun l => keepLine l = true) (filter keepLine (JS.split d)).
Proof.
  intros Hd. split; [now apply cleanDiff_split | apply filter_kept].
Qed.

Lemma cleanDiff_lines_witness :
  JS.split (cleanDiff headedDiff) =
    linesOrBlank (filter keepLine (JS.split headedDiff)) /\
  Forall (fun l => keepLine l = true) (filter keepLine (JS.split headedDiff)).
Proof. apply (cleanDiff_lines headedDiff). reflexivity. Defined.

Example cleanDiff_headedDiff :
  JS.split (cleanDiff headedDiff) =
  [ "@@ -1,3 +1,4 @@"; " function test() {"; "-  return false;";
    "+  console.log(1);"; "+  return true;"; " }" ].
Proof. reflexivity. Qed.

(** A line that is dropped and is no [+++] line leaves the scan as it is. *)
Lemma scanStep_dropped (st : ScanState) (line : string) :
  keepLine line = false -> JS.startsWith line "+++" = false ->
  scanStep st line = st.
Proof.
  unfold keepLine, isHeaderLine. intros Hk Hp. rewrite Hp in Hk.
  assert (JS.startsWith line "@@" = false /\ JS.startsWith line "+" = false /\
          JS.startsWith line " " = false) as (H1 & H2 & H3).
  { destruct (JS.startsWith line "diff --git") eqn:Ha.
    { repeat split;
        apply (startsWith_exclusive line "diff --git"); reflexivity || assumption. }
    destruct (JS.startsWith line "index ") eqn:Hb.
    { repeat split;
        apply (startsWith_exclusive line "index "); reflexivity || assumption. }
    destruct (JS.startsWith line "---") eqn:Hc.
    { repeat split;
        apply (startsWith_exclusive line "---"); reflexivity || assumption. }
    cbn [orb negb andb] in Hk.
    destruct (JS.startsWith line "@@"); [discriminate |].
    destruct (JS.startsWith line "+"); [discriminate |].
    destruct (JS.startsWith line "-"); [discriminate |].
    destruct (JS.startsWith line " "); [discriminate | auto]. }
  unfold scanStep. rewrite H1, H2, H3. cbn [andb orb].
  destruct st as [n h a]. cbn. now destruct h.
Qed.

Lemma scan_filter (lines : list string) (st : ScanState) :
  Forall (fun l => JS.startsWith l "+++" = false) lines ->
  fold_left scanStep (filter keepLine lines) st = fold_left scanStep lines st.
Proof.
  revert st. induction lines as [|l lines IH]; intros st H; [reflexivity |].
  inversion H as [|? ? Hl Hs]; subst. cbn [filter fold_left].
  destruct (keepLine l) eqn:Hk.
  - cbn [fold_left]. now apply IH.
  - rewrite (scanStep_dropped st l Hk Hl). now apply IH.
Qed.

Lemma scanLines_linesOrBlank (kept : list string) :
  scanLines (linesOrBlank kept) = scanLines kept.
Proof. now destruct kept. Qed.

(** X2.  The added lines of a diff and their numbers are the same before and
    after cleaning, provided that no line starting with three plus signs
    comes after the first hunk header. *)
Theorem extractAddedLines_cleanDiff (d : string) (pre post : list string) :
  JS.includes d binaryMark = false ->
  JS.split d = (pre ++ post)%list ->
  Forall (fun l => headerOf l = None) pre ->
  Forall (fun l => JS.startsWith l "+++" = false) post ->
  extractAddedLines (cleanDiff d) = extractAddedLines d.
Proof.
  intros Hd Hsplit Hpre Hpost. unfold extractAddedLines.
  rewrite (cleanDiff_split d Hd).
  rewrite scanLines_linesOrBlank, Hsplit, filter_app. unfold scanLines.
  rewrite !fold_left_app.
  fold (scanLines (filter keepLine pre)). fold (scanLines pre).
  rewrite !scan_inactive by (assumption || now apply Forall_filter).
  now rewrite scan_filter.
Qed.

Lemma extractAddedLines_cleanDiff_witness :
  extractAddedLines (cleanDiff headedDiff) = extractAddedLines headedDiff.
Proof.
  apply (extractAddedLines_cleanDiff headedDiff
           [ "diff --git a/src/test.js b/src/test.js";
             "index 83db48f..bf12a4c 100644";
             "--- a/src/test.js"; "+++ b/src/test.js" ]
           [ "@@ -1,3 +1,4 @@"; " function test() {"; "-  return false;";
             "+  console.log(1);"; "+  return true;";
             "\ No newline at end of file"; " }" ]);
    try reflexivity; repeat constructor.
Defined.

End CleanedText.

(** Without the side condition the numbers may shift: the line [+++i;] of
    the hunk is counted by the scan of the diff and dropped by cleaning. *)
Example extractAddedLines_cleanDiff_shift :
  let d := "@@ -1,1 +1,3 @@" ++ JS.nl ++ "+++i;" ++ JS.nl ++ "+x" in
  DiffParser.extractAddedLines d =
    [ {| DiffParser.lineNumber := JS.JNum 2; DiffParser.content := "x" |} ] /\
  DiffParser.extractAddedLines (DiffParser.cleanDiff d) =
    [ {| DiffParser.lineNumber := JS.JNum 1; DiffParser.content := "x" |} ].
Proof. split; reflexivity. Qed.

(** ** Counting additions and deletions *)

Section CountFacts.

Import DiffParser.

Variable sign : ascii.
Hypothesis sign_not_LF : Ascii.eqb sign JS.LF = false.

Lemma signedLine_empty : signedLine sign EmptyString = false.
Proof. reflexivity. Qed.

(** The first character of a text is the first character of its first
    line. *)
Lemma startsWith_first_line (s l : string) (ls : list string) :
  JS.split s = l :: ls ->
  JS.startsWith s (String sign EmptyString) =
  JS.startsWith l (String sign EmptyString).
Proof.
  intros E. rewrite <- (join_split s), E.
  destruct ls as [|l' ls]; [reflexivity |].
  rewrite join_cons2. apply startsWith_line.
  cbn [singleLine]. now rewrite sign_not_LF.
Qed.

(** The count, at the start of a line and inside a line. *)
Lemma countAtLineStart_lines (s : string) :
  occurs JS.CR s = false ->
  countAtLineStart sign true s =
    List.length (filter (signedLine sign) (JS.split s)) /\
  countAtLineStart sign false s =
    List.length (filter (signedLine sign) (tl (JS.split s))).
Proof.
  induction s as [|a s IH]; intros Hcr; [split; reflexivity |].
  cbn [occurs] in Hcr. apply orb_false_elim in Hcr as [Ha Hs].
  destruct (IH Hs) as [IHt IHf]. clear IH.
  cbn [countAtLineStart JS.split]. rewrite Ha, orb_false_r.
  destruct (Ascii.eqb a JS.LF) eqn:Hlf.
  - apply Ascii.eqb_eq in Hlf. subst a.
    rewrite (Ascii.eqb_sym JS.LF sign), sign_not_LF, andb_false_r.
    cbn [andb tl filter]. rewrite signedLine_empty. now rewrite IHt.
  - pose proof (split_not_nil s) as Hne.
    destruct (JS.split s) as [|l ls] eqn:E; [contradiction |].
    cbn [tl andb] in *. rewrite IHf. split; [| reflexivity].
    cbn [filter]. unfold signedLine at 2.
    cbn [JS.startsWith]. rewrite !andb_true_r.
    rewrite (startsWith_first_line s l ls E).
    destruct (Ascii.eqb a sign); cbn [andb negb];
      [| reflexivity].
    now destruct (JS.startsWith l (String sign EmptyString)).
Qed.

Lemma occurs_append (c : ascii) (a b : string) :
  occurs c (a ++ b) = occurs c a || occurs c b.
Proof.
  induction a as [|x a IH]; [reflexivity |].
  cbn [append occurs]. now rewrite IH, orb_assoc.
Qed.

Lemma occurs_join (c : ascii) (ls : list string) :
  Ascii.eqb JS.LF c = false ->
  occurs c (JS.join JS.nl ls) = existsb (occurs c) ls.
Proof.
  intros Hc. induction ls as [|l ls IH]; [reflexivity |].
  destruct ls as [|l' ls].
  - cbn. now rewrite orb_false_r.
  - rewrite join_cons2, !occurs_append, IH.
    cbn [occurs JS.nl]. rewrite Hc. reflexivity.
Qed.

End CountFacts.

Section CountTheorems.

Import DiffParser.

Lemma count_lines_aux (d : string) :
  occurs JS.CR d = false ->
  countAdditions d = List.length (filter (signedLine "+") (JS.split d)) /\
  countDeletions d = List.length (filter (signedLine "-") (JS.split d)).
Proof.
  intros H. split.
  - now apply (countAtLineStart_lines "+" eq_refl d).
  - now apply (countAtLineStart_lines "-" eq_refl d).
Qed.

(** X3.  In a diff whose only line ends are line feeds (no carriage return,
    no line or paragraph separator), the additions counted are the lines
    that start with one plus sign not followed by a second one, and the
    deletions the lines that start with one minus sign not followed by a
    second one. *)
Theorem count_lines (d : string) :
  occurs JS.CR d = false ->
  JS.includes d lineSeparator = false ->
  JS.includes d paragraphSeparator = false ->
  countAdditions d = List.length (filter (signedLine "+") (JS.split d)) /\
  countDeletions d = List.length (filter (signedLine "-") (JS.split d)).
Proof. intros Hcr _ _. now apply count_lines_aux. Qed.

Lemma count_lines_witness :
  countAdditions headedDiff =
    List.length (filter (signedLine "+") (JS.split headedDiff)) /\
  countDeletions headedDiff =
    List.length (filter (signedLine "-") (JS.split headedDiff)).
Proof. apply (count_lines headedDiff); reflexivity. Defined.

Lemma signedLine_keep (sign : ascii) (l : string) :
  sign = "+"%char \/ sign = "-"%char ->
  signedLine sign l = true -> keepLine l = true.
Proof.
  unfold signedLine, keepLine, isHeaderLine. intros Hs H.
  apply andb_prop in H as [H1 H2]. apply negb_true_iff in H2.
  destruct Hs as [-> | ->].
  - rewrite (startsWith_exclusive l "+" "diff --git"),
            (startsWith_exclusive l "+" "index "),
            (startsWith_exclusive l "+" "---") by (reflexivity || assumption).
    rewrite H1.
    destruct (JS.startsWith l "+++") eqn:H3.
    + assert (JS.startsWith l "++" = true) as C; [| congruence].
      clear - H3. destruct l as [|a [|b [|c l]]];
        cbn [JS.startsWith] in *; try discriminate H3.
      * apply andb_prop in H3 as [_ H3]. discriminate H3.
      * apply andb_prop in H3 as [_ H3]. apply andb_prop in H3 as [_ H3].
        discriminate H3.
      * apply andb_prop in H3 as [-> H3]. apply andb_prop in H3 as [-> _].
        reflexivity.
    + now rewrite !orb_true_r.
  - rewrite (startsWith_exclusive l "-" "diff --git"),
            (startsWith_exclusive l "-" "index "),
            (startsWith_exclusive l "-" "+++") by (reflexivity || assumption).
    rewrite H1.
    destruct (JS.startsWith l "---") eqn:H3.
    + assert (JS.startsWith l "--" = true) as C; [| congruence].
      clear - H3. destruct l as [|a [|b [|c l]]];
        cbn [JS.startsWith] in *; try discriminate H3.
      * apply andb_prop in H3 as [_ H3]. discriminate H3.
      * apply andb_prop in H3 as [_ H3]. apply andb_prop in H3 as [_ H3].
        discriminate H3.
      * apply andb_prop in H3 as [-> H3]. apply andb_prop in H3 as [-> _].
        reflexivity.
    + now rewrite !orb_true_r.
Qed.

Lemma filter_filter_sub {A : Type} (p q : A -> bool) (l : list A) :
  (forall x, p x = true -> q x = true) ->
  filter p (filter q l) = filter p l.
Proof.
  intros H. induction l as [|x l IH]; [reflexivity |].
  cbn [filter]. destruct (q x) eqn:Hq; cbn [filter].
  - now rewrite IH.
  - destruct (p x) eqn:Hp; [| exact IH].
    apply H in Hp. congruence.
Qed.

Lemma filter_linesOrBlank (sign : ascii) (kept : list string) :
  filter (signedLine sign) (linesOrBlank kept) = filter (signedLine sign) kept.
Proof. now destruct kept. Qed.

(** X4.  Cleaning changes neither count: for a diff whose only line ends are
    line feeds, the numbers stored with a parsed file, which are taken from
    the raw diff, are those of the cleaned diff sent for review. *)
Theorem count_cleanDiff (d : string) :
  JS.includes d binaryMark = false ->
  occurs JS.CR d = false ->
  JS.includes d lineSeparator = false ->
  JS.includes d paragraphSeparator = false ->
  countAdditions (cleanDiff d) = countAdditions d /\
  countDeletions (cleanDiff d) = countDeletions d.
Proof.
  intros Hb Hcr _ _.
  assert (occurs JS.CR (cleanDiff d) = false) as Hc.
  { rewrite cleanDiff_join by assumption.
    rewrite occurs_join by reflexivity.
    apply existsb_filter.
    rewrite <- (occurs_join JS.CR) by reflexivity.
    now rewrite join_split. }
  destruct (count_lines_aux d Hcr) as [Ea Ed].
  destruct (count_lines_aux (cleanDiff d) Hc) as [Ea' Ed'].
  pose proof (cleanDiff_split d Hb) as El.
  rewrite Ea, Ed, Ea', Ed', El, !filter_linesOrBlank.
  rewrite !filter_filter_sub; [split; reflexivity | |];
    intros x; apply signedLine_keep; auto.
Qed.

Lemma count_cleanDiff_witness :
  countAdditions (cleanDiff headedDiff) = countAdditions headedDiff /\
  countDeletions (cleanDiff headedDiff) = countDeletions headedDiff.
Proof. apply (count_cleanDiff headedDiff); reflexivity. Defined.

End CountTheorems.

(** ** The language of a path *)

Section LanguageFacts.

Import DiffParser.

Lemma includes_dot_cons (c : ascii) (s : string) :
  JS.includes (String c s) "." = Ascii.eqb c "." || JS.includes s ".".
Proof. cbn [JS.includes JS.startsWith]. now rewrite andb_true_r. Qed.

Lemma includes_dot_append (a b : string) :
  JS.includes (a ++ "." ++ b) "." = true.
Proof.
  induction a as [|c a IH].
  - reflexivity.
  - change (String c a ++ "." ++ b) with (String c (a ++ "." ++ b)).
    rewrite includes_dot_cons, IH. apply orb_true_r.
Qed.

Lemma lastDotComponent_cons (c : ascii) (s : string) :
  lastDotComponent (String c s) =
  if JS.includes s "." then lastDotComponent s
  else if Ascii.eqb c "." then s else String c s.
Proof. reflexivity. Qed.

Lemma lastDotComponent_plain (s : string) :
  JS.includes s "." = false -> lastDotComponent s = s.
Proof.
  destruct s as [|c s]; [reflexivity |].
  rewrite includes_dot_cons, lastDotComponent_cons.
  intros H. apply orb_false_elim in H as [-> ->]. reflexivity.
Qed.

Lemma lastDotComponent_append (base ext : string) :
  JS.includes ext "." = false ->
  lastDotComponent (base ++ "." ++ ext) = ext.
Proof.
  intros He. induction base as [|c base IH].
  - change (EmptyString ++ "." ++ ext) with (String "." ext).
    rewrite lastDotComponent_cons, He. reflexivity.
  - change (String c base ++ "." ++ ext) with (String c (base ++ "." ++ ext)).
    rewrite lastDotComponent_cons, includes_dot_append. exact IH.
Qed.

(** X5.  Only what follows the last dot of a path decides its language; a name
    without dot is taken whole, as an extension. *)
Theorem detectLanguage_last_component (base ext : string) :
  JS.includes ext "." = false ->
  detectLanguage (base ++ "." ++ ext) = detectLanguage ext.
Proof.
  intros He. unfold detectLanguage.
  now rewrite lastDotComponent_append, lastDotComponent_plain.
Qed.

Lemma detectLanguage_last_component_witness :
  detectLanguage ("src/app.min" ++ "." ++ "js") = detectLanguage "js".
Proof. apply (detectLanguage_last_component "src/app.min" "js"). reflexivity. Defined.

Lemma lowerChar_upperChar (c : ascii) :
  JS.lowerChar (JS.upperChar c) = JS.lowerChar c.
Proof. destruct c as [[] [] [] [] [] [] [] []]; reflexivity. Qed.

Lemma lowerChar_idem (c : ascii) :
  JS.lowerChar (JS.lowerChar c) = JS.lowerChar c.
Proof. destruct c as [[] [] [] [] [] [] [] []]; reflexivity. Qed.

Lemma caseChar_dot (c : ascii) :
  Ascii.eqb (JS.upperChar c) "." = Ascii.eqb c "." /\
  Ascii.eqb (JS.lowerChar c) "." = Ascii.eqb c ".".
Proof. destruct c as [[] [] [] [] [] [] [] []]; split; reflexivity. Qed.

Section CaseMap.

Variable f : ascii -> ascii.
Hypothesis f_dot : forall c, Ascii.eqb (f c) "." = Ascii.eqb c ".".
Hypothesis f_lower : forall c, JS.lowerChar (f c) = JS.lowerChar c.

Lemma includes_dot_mapChars (s : string) :
  JS.includes (JS.mapChars f s) "." = JS.includes s ".".
Proof.
  induction s as [|c s IH]; [reflexivity |].
  cbn [JS.mapChars]. now rewrite !includes_dot_cons, IH, f_dot.
Qed.

Lemma lastDotComponent_mapChars (s : string) :
  lastDotComponent (JS.mapChars f s) = JS.mapChars f (lastDotComponent s).
Proof.
  induction s as [|c s IH]; [reflexivity |].
  cbn [JS.mapChars]. rewrite !lastDotComponent_cons.
  rewrite includes_dot_mapChars, f_dot, IH.
  destruct (JS.includes s "."); [reflexivity |].
  now destruct (Ascii.eqb c ".").
Qed.

Lemma toLowerCase_mapChars (s : string) :
  JS.toLowerCase (JS.mapChars f s) = JS.toLowerCase s.
Proof.
  unfold JS.toLowerCase. induction s as [|c s IH]; [reflexivity |].
  cbn [JS.mapChars]. now rewrite f_lower, IH.
Qed.

Lemma detectLanguage_mapChars (s : string) :
  detectLanguage (JS.mapChars f s) = detectLanguage s.
Proof.
  unfold detectLanguage.
  now rewrite lastDotComponent_mapChars, toLowerCase_mapChars.
Qed.

End CaseMap.

(** X6.  The language of a path of ASCII characters does not depend on the
    case of its letters. *)
Theorem detectLanguage_case (filename : string) :
  asciiText filename = true ->
  detectLanguage (JS.toUpperCase filename) = detectLanguage filename /\
  detectLanguage (JS.toLowerCase filename) = detectLanguage filename.
Proof.
  intros _.
  split; apply detectLanguage_mapChars; intros c;
    solve [apply caseChar_dot | apply lowerChar_upperChar | apply lowerChar_idem].
Qed.

Lemma detectLanguage_case_witness :
  detectLanguage (JS.toUpperCase "src/Main.Kt") = detectLanguage "src/Main.Kt" /\
  detectLanguage (JS.toLowerCase "src/Main.Kt") = detectLanguage "src/Main.Kt".
Proof. apply (detectLanguage_case "src/Main.Kt"). reflexivity. Defined.

End LanguageFacts.

(** ** Skip patterns *)

Section SkipFacts.

Import DiffParser.

Variable regExpTest : string -> string -> option bool.
Variable config : ReviewConfig.

Lemma drop_all (s : string) : JS.drop (String.length s) s = EmptyString.
Proof. induction s as [|c s IH]; [reflexivity | exact IH]. Qed.

Lemma endsWith_empty (s : string) : JS.endsWith s EmptyString = true.
Proof.
  unfold JS.endsWith. cbn [String.length Nat.leb].
  now rewrite Nat.sub_0_r, drop_all.
Qed.

Lemma endsWith_refl (s : string) : JS.endsWith s s = true.
Proof.
  unfold JS.endsWith. rewrite Nat.leb_refl, Nat.sub_diag.
  cbn [JS.drop]. destruct s; cbn [andb]; apply String.eqb_refl.
Qed.

(** A scan that meets neither a match nor a throw before an element that
    matches answers true, whatever follows. *)
Lemma some_found {A : Type} (f : A -> option bool) (pre post : list A) (x : A) :
  Forall (fun y => f y <> None) pre -> f x = Some true ->
  some f (pre ++ x :: post) = Some true.
Proof.
  intros Hpre Hx. induction Hpre as [|y pre Hy _ IH]; cbn [app some].
  - now rewrite Hx.
  - destruct (f y) as [[|]|]; [reflexivity | exact IH | contradiction].
Qed.

(** X7.  An empty pattern matches every path: with one in the list, and no
    throw before it, every file is skipped. *)
Theorem shouldSkipFile_empty_pattern (filename : string)
  (pre post : list string) :
  skipFiles config = (pre ++ EmptyString :: post)%list ->
  Forall (fun p => matchesSkipPattern regExpTest filename p <> None) pre ->
  shouldSkipFile regExpTest config filename = Some true.
Proof.
  intros E Hpre. unfold shouldSkipFile. rewrite E.
  apply some_found; [assumption |].
  unfold matchesSkipPattern. cbn [JS.includes JS.startsWith orb].
  now rewrite endsWith_empty, orb_true_r.
Qed.

(** X8.  With patterns that hold no star, the engine is not consulted, nothing is
    thrown, and a path is skipped when it ends with one of the patterns. *)
Theorem shouldSkipFile_literal (filename : string) :
  Forall (fun p => JS.includes p "*" = false) (skipFiles config) ->
  shouldSkipFile regExpTest config filename =
  Some (existsb (JS.endsWith filename) (skipFiles config)).
Proof.
  unfold shouldSkipFile. induction 1 as [|p ps Hp _ IH]; [reflexivity |].
  cbn [some existsb]. unfold matchesSkipPattern at 1. rewrite Hp.
  destruct (String.eqb_spec filename p) as [-> | _].
  - now rewrite endsWith_refl.
  - cbn [orb]. destruct (JS.endsWith filename p); [reflexivity | exact IH].
Qed.

End SkipFacts.

Section SkipExamples.

Import DiffParser.

Lemma shouldSkipFile_empty_pattern_witness :
  shouldSkipFile JS.wildcardRegExp trailingCommaConfig "src/app.js" = Some true.
Proof.
  apply (shouldSkipFile_empty_pattern JS.wildcardRegExp trailingCommaConfig
           "src/app.js" ["*.lock"] []); [reflexivity |].
  repeat constructor. discriminate.
Defined.

Lemma shouldSkipFile_literal_witness :
  shouldSkipFile JS.wildcardRegExp literalConfig "web/yarn.lock" =
  Some (existsb (JS.endsWith "web/yarn.lock") (skipFiles literalConfig)).
Proof.
  apply (shouldSkipFile_literal JS.wildcardRegExp literalConfig "web/yarn.lock").
  repeat constructor.
Defined.

End SkipExamples.

(** ** The parsed files of a merge request *)

Section ParsedFilesFacts.

Import DiffParser.

Variable regExpTest : string -> string -> option bool.
Variable config : ReviewConfig.

#[local] Abbreviation parseAll := (parseMergeRequestChanges regExpTest config).
#[local] Abbreviation parseOne := (parseFileChange regExpTest config).

Lemma parseLoop_acc (changes : list Change) (acc : list ParsedFile) :
  fold_left
    (fun parsedFiles change =>
       match parseOne change with
       | Some (Some parsedFile) => (parsedFiles ++ [parsedFile])%list
       | Some None | None => parsedFiles
       end)
    changes acc =
  (acc ++ flat_map (parsedOf regExpTest config) changes)%list.
Proof.
  revert acc. induction changes as [|c changes IH]; intros acc; cbn [fold_left flat_map].
  - now rewrite app_nil_r.
  - rewrite IH. unfold parsedOf at 2.
    destruct (parseOne c) as [[file|]|]; cbn [app];
      now rewrite <- ?app_assoc.
Qed.

Lemma parseAll_flat_map (changes : list Change) :
  parseAll changes = flat_map (parsedOf regExpTest config) changes.
Proof. unfold parseMergeRequestChanges. now rewrite parseLoop_acc. Qed.

(** X9.  Each change is parsed on its own: the files of two lists of changes put
    end to end are the files of the first followed by those of the second,
    so the order of the changes is kept, a change that is left out or whose
    parsing throws takes nothing away from the others, and there are at most
    as many files as changes. *)
Theorem parseMergeRequestChanges_app (changes1 changes2 : list Change) :
  parseAll (changes1 ++ changes2) =
    (parseAll changes1 ++ parseAll changes2)%list /\
  List.length (parseAll changes1) <= List.length changes1.
Proof.
  rewrite !parseAll_flat_map. split; [apply flat_map_app |].
  induction changes1 as [|c l IH]; [apply Nat.le_refl |].
  cbn [flat_map]. rewrite length_app. cbn [List.length].
  unfold parsedOf at 1.
  destruct (parseOne c) as [[file|]|]; cbn [List.length]; lia.
Qed.


End ParsedFilesFacts.

Section ParsedFilesExamples.

Import DiffParser.


(** The unsupported change is left out, the other one parsed. *)
Example parseMergeRequestChanges_sample :
  map filename
    (parseMergeRequestChanges JS.wildcardRegExp defaultConfig
       [readmeChange; sampleChange]) = ["src/test.js"].
Proof. reflexivity. Qed.

End ParsedFilesExamples.

(** ** What the response parser reads and what it gives *)

Section ParserRobustness.

Import AIService.

Lemma parseStep_trim (st : ParseState) (a b : string) :
  JS.trim a = JS.trim b -> parseStep st a = parseStep st b.
Proof. intros E. unfold parseStep. now rewrite E. Qed.

Lemma parseLoop_trim (l1 l2 : list string) (st : ParseState) :
  map JS.trim l1 = map JS.trim l2 ->
  fold_left parseStep l1 st = fold_left parseStep l2 st.
Proof.
  revert l2 st. induction l1 as [|a l1 IH]; intros [|b l2] st E;
    try discriminate; [reflexivity |].
  cbn [map] in E. injection E as Ea El.
  cbn [fold_left]. rewrite (parseStep_trim st a b Ea). now apply IH.
Qed.

Lemma takeUntil_trim (l1 l2 : list string) :
  map JS.trim l1 = map JS.trim l2 ->
  map JS.trim (takeUntil isFieldLine l1) = map JS.trim (takeUntil isFieldLine l2).
Proof.
  revert l2. induction l1 as [|a l1 IH]; intros [|b l2] E;
    try discriminate; [reflexivity |].
  cbn [map] in E. injection E as Ea El.
  cbn [takeUntil]. unfold isFieldLine at 1 3. rewrite Ea.
  destruct (JS.startsWith (JS.trim b) "- **"); [reflexivity |].
  cbn [map]. now rewrite Ea, (IH l2 El).
Qed.



Lemma setField_other (issue : Issue) (t : string) :
  JS.startsWith t "- **Severity**:" = false ->
  JS.startsWith t "- **Line**:" = false ->
  JS.startsWith t "- **Description**:" = false ->
  JS.startsWith t "- **Suggestion**:" = false ->
  JS.startsWith t "- **Example**:" = false ->
  setField issue t = issue.
Proof. intros H1 H2 H3 H4 H5. unfold setField. now rewrite H1, H2, H3, H4, H5. Qed.

Lemma parseStep_noise (st : ParseState) (line : string) :
  isMarkerLine line = false -> parseStep st line = st.
Proof.
  unfold isMarkerLine. intros H.
  repeat (apply orb_false_elim in H as [H ?]).
  unfold parseStep. rewrite H.
  destruct st as [done [issue|]]; cbn [fst snd]; [| reflexivity].
  now rewrite setField_other.
Qed.

Lemma parseLoop_noise (lines : list string) (st : ParseState) :
  fold_left parseStep (filter isMarkerLine lines) st =
  fold_left parseStep lines st.
Proof.
  revert st. induction lines as [|l lines IH]; intros st; [reflexivity |].
  cbn [filter fold_left]. destruct (isMarkerLine l) eqn:E.
  - cbn [fold_left]. apply IH.
  - rewrite (parseStep_noise st l E). apply IH.
Qed.


Lemma parseLoop_before_marker (pre : list string) :
  forallb (fun l => negb (isIssueMarker l)) pre = true ->
  fold_left parseStep pre ([], None) = ([], None).
Proof.
  induction pre as [|l pre IH] using rev_ind; intros H; [reflexivity |].
  rewrite forallb_app in H. apply andb_prop in H as [Hp Hl].
  cbn [forallb] in Hl. rewrite andb_true_r in Hl. apply negb_true_iff in Hl.
  rewrite fold_left_snoc, (IH Hp). unfold parseStep.
  unfold isIssueMarker in Hl. now rewrite Hl.
Qed.



(** *** The texts of the issues *)

Lemma singleLine_trimStart (s : string) :
  singleLine s = true -> singleLine (JS.trimStart s) = true.
Proof.
  induction s as [|c s IH]; [reflexivity |].
  intros H. cbn [JS.trimStart]. destruct (JS.isWhite c); [| exact H].
  cbn [singleLine] in H. apply andb_prop in H as [_ H]. now apply IH.
Qed.

Lemma singleLine_trimEnd (s : string) :
  singleLine s = true -> singleLine (JS.trimEnd s) = true.
Proof.
  induction s as [|c s IH]; [reflexivity |].
  intros H. cbn [singleLine] in H. apply andb_prop in H as [Hc Hs].
  rewrite trimEnd_cons. specialize (IH Hs).
  destruct (JS.trimEnd s) as [|d t].
  - destruct (JS.isWhite c); [reflexivity |].
    cbn [singleLine]. now rewrite Hc.
  - cbn [singleLine] in *. now rewrite Hc, IH.
Qed.

Lemma singleLine_trim (s : string) :
  singleLine s = true -> singleLine (JS.trim s) = true.
Proof. intros H. now apply singleLine_trimEnd, singleLine_trimStart. Qed.

Lemma singleLine_drop (n : nat) (s : string) :
  singleLine s = true -> singleLine (JS.drop n s) = true.
Proof.
  revert s. induction n as [|n IH]; intros [|c s] H; try assumption.
  cbn [JS.drop]. cbn [singleLine] in H. apply andb_prop in H as [_ H].
  now apply IH.
Qed.

Lemma extractValue_FieldValue (t : string) :
  singleLine t = true -> FieldValue (extractValue t).
Proof.
  intros H. unfold extractValue.
  destruct (JS.indexOf ":" t =? -1)%Z; [split; reflexivity |].
  split; [| apply trim_Trimmed].
  now apply singleLine_trim, singleLine_drop.
Qed.

Lemma setField_clean (issue : Issue) (t : string) :
  singleLine t = true -> CleanIssue issue -> CleanIssue (setField issue t).
Proof.
  intros Ht (H1 & H2 & H3 & H4 & H5).
  pose proof (extractValue_FieldValue t Ht) as Hv.
  unfold setField.
  repeat match goal with
         | |- context [if JS.startsWith t ?m then _ else _] =>
             destruct (JS.startsWith t m)
         end;
    repeat split; cbn; first [apply H1 | apply H2 | apply H3 | apply H4
                             | apply H5 | apply Hv].
Qed.

Lemma newIssue_clean (t : string) :
  singleLine t = true -> CleanIssue (newIssue t).
Proof.
  intros Ht. pose proof (extractValue_FieldValue t Ht) as Hv.
  repeat split; cbn; apply Hv.
Qed.

(** The loop keeps the issues pushed and the one in hand clean. *)
Lemma parseLoop_clean (lines : list string) (st : ParseState) :
  Forall (fun l => singleLine l = true) lines ->
  Forall CleanIssue (pushCurrent st) ->
  Forall CleanIssue (pushCurrent (fold_left parseStep lines st)).
Proof.
  intros Hl. revert st. induction Hl as [|l lines Hl _ IH]; intros st Hst;
    [exact Hst |].
  cbn [fold_left]. apply IH. unfold parseStep.
  pose proof (singleLine_trim l Hl) as Ht.
  destruct (JS.startsWith (JS.trim l) "- **Issue Type**:").
  - cbn [pushCurrent]. apply Forall_app. split; [exact Hst |].
    constructor; [now apply newIssue_clean | constructor].
  - destruct st as [done [issue|]]; cbn [fst snd pushCurrent] in *;
      [| exact Hst].
    apply Forall_app in Hst as [Hd Hi]. apply Forall_app. split; [exact Hd |].
    inversion Hi; subst. constructor; [now apply setField_clean | constructor].
Qed.


Lemma singleLine_join_space (ls : list string) :
  Forall (fun l => singleLine l = true) ls ->
  singleLine (JS.join " " ls) = true.
Proof.
  induction 1 as [|l ls Hl _ IH]; [reflexivity |].
  destruct ls as [|l' ls]; [exact Hl |].
  rewrite join_cons2, !singleLine_append, Hl, IH. reflexivity.
Qed.

Lemma summaryLines_singleLine (reviewText : string) :
  Forall (fun l => singleLine l = true) (summaryLines reviewText).
Proof.
  unfold summaryLines. apply Forall_filter.
  apply Forall_forall. intros t Ht.
  apply in_map_iff in Ht as (l & <- & Hl).
  apply singleLine_trim.
  assert (forall (p : string -> bool) (xs : list string) x,
            In x (takeUntil p xs) -> In x xs) as Hsub.
  { intros p xs. induction xs as [|y xs IHx]; intros x Hx; [contradiction |].
    cbn [takeUntil] in Hx. destruct (p y); [contradiction |].
    destruct Hx as [-> | Hx]; [now left | right; now apply IHx]. }
  apply Hsub in Hl.
  pose proof (split_singleLine reviewText) as Hall.
  rewrite Forall_forall in Hall. now apply Hall.
Qed.


End ParserRobustness.

(** ** The prompt *)

Section ReplaceFacts.

Lemma take_append (pre rest : string) :
  JS.take (String.length pre) (pre ++ rest) = pre.
Proof. induction pre as [|c pre IH]; [now destruct rest |]. cbn. now rewrite IH. Qed.

Lemma drop_past (pre p post : string) :
  JS.drop (String.length pre + String.length p) (pre ++ p ++ post) = post.
Proof.
  induction pre as [|c pre IH]; cbn [String.length Nat.add append JS.drop];
    [apply drop_append | apply IH].
Qed.

(** The first occurrence of a text is where it stands when its first
    character does not occur before. *)
Lemma indexOfText_first (c : ascii) (p pre post : string) :
  occurs c pre = false ->
  JS.indexOfText (String c p) (pre ++ String c p ++ post) =
  Some (String.length pre).
Proof.
  induction pre as [|d pre IH]; intros H.
  - cbn [append JS.indexOfText].
    change (String c (p ++ post)) with (String c p ++ post).
    rewrite startsWith_append by apply startsWith_refl. reflexivity.
  - cbn [occurs] in H. apply orb_false_elim in H as [Hd H].
    change (String d pre ++ String c p ++ post)
      with (String d (pre ++ String c p ++ post)).
    cbn [JS.indexOfText JS.startsWith]. rewrite Hd. cbn [andb].
    rewrite (IH H). reflexivity.
Qed.

Lemma indexOfText_absent (c : ascii) (p s : string) :
  occurs c s = false -> JS.indexOfText (String c p) s = None.
Proof.
  induction s as [|d s IH]; intros H; [reflexivity |].
  cbn [occurs] in H. apply orb_false_elim in H as [Hd H].
  cbn [JS.indexOfText JS.startsWith]. rewrite Hd. cbn [andb].
  rewrite (IH H). reflexivity.
Qed.

(** A template without dollar stands for itself. *)
Lemma substitution_plain (matched before after r : string) :
  occurs "$" r = false -> JS.substitution matched before after r = r.
Proof.
  induction r as [|c r IH]; intros H; [reflexivity |].
  cbn [occurs] in H. apply orb_false_elim in H as [Hc H].
  cbn [JS.substitution]. rewrite Hc, (IH H). reflexivity.
Qed.

Lemma substitution_append (matched before after a r : string) :
  occurs "$" a = false ->
  JS.substitution matched before after (a ++ r) =
  a ++ JS.substitution matched before after r.
Proof.
  induction a as [|c a IH]; intros H; [reflexivity |].
  cbn [occurs] in H. apply orb_false_elim in H as [Hc H].
  cbn [append JS.substitution]. rewrite Hc, (IH H). reflexivity.
Qed.

Lemma replace_first (c : ascii) (p r pre post : string) :
  occurs c pre = false ->
  JS.replace (String c p) r (pre ++ String c p ++ post) =
  pre ++ JS.substitution (String c p) pre post r ++ post.
Proof.
  intros H. unfold JS.replace. rewrite (indexOfText_first c p pre post H).
  now rewrite take_append, drop_past.
Qed.

End ReplaceFacts.

Section PromptFacts.

Import AIRequest.

Variable flags : Config.ReviewCriteria.
Variable context : GitLabReviewer.ReviewContext.

(** What follows the template does not depend on it. *)
Lemma buildReviewPrompt_tail (template filename : string)
  (language : DiffParser.Language) (diff : string) :
  buildReviewPrompt template flags filename language diff context =
  JS.replace "{diff}" diff
    (replaceLanguage language (JS.replace "{filename}" filename template)) ++
  promptTail flags context.
Proof.
  unfold promptTail, buildReviewPrompt.
  change (JS.replace "{diff}" EmptyString
            (replaceLanguage (DiffParser.Lang EmptyString)
               (JS.replace "{filename}" EmptyString EmptyString)))
    with EmptyString.
  destruct (GitLabReviewer.ctxDescription context) as [description|];
    [destruct (JS.isEmpty description) |];
    destruct (0 <? List.length (GitLabReviewer.commitMessages context))%nat;
    destruct (0 <? List.length (criteriaOf flags))%nat;
    cbn [append]; rewrite ?append_assoc, ?append_nil_r; reflexivity.
Qed.

(** The three replacements on the template of the configuration. *)
Lemma reviewPrompt_replaced (filename tag diff : string) :
  plainName filename -> plainName tag ->
  JS.replace "{diff}" diff
    (replaceLanguage (DiffParser.Lang tag)
       (JS.replace "{filename}" filename Config.reviewPrompt)) =
  (fileHeading ++ filename ++ languageHeading ++ tag ++ changesHeading) ++
  JS.substitution "{diff}"
    (fileHeading ++ filename ++ languageHeading ++ tag ++ changesHeading)
    promptFoot diff ++
  promptFoot.
Proof.
  intros [Hf1 Hf2] [Ht1 Ht2]. unfold replaceLanguage.
  set (head := fileHeading ++ filename ++ languageHeading ++ tag ++ changesHeading).
  assert (JS.replace "{filename}" filename Config.reviewPrompt =
          (fileHeading ++ filename ++ languageHeading) ++ "{language}" ++
          changesHeading ++ "{diff}" ++ promptFoot) as ->.
  { change Config.reviewPrompt
      with (fileHeading ++ "{filename}" ++
            (languageHeading ++ "{language}" ++ changesHeading ++ "{diff}" ++
             promptFoot)).
    rewrite replace_first by reflexivity.
    rewrite substitution_plain by assumption.
    now rewrite !append_assoc. }
  assert (JS.replace "{language}" tag
            ((fileHeading ++ filename ++ languageHeading) ++ "{language}" ++
             changesHeading ++ "{diff}" ++ promptFoot) =
          head ++ "{diff}" ++ promptFoot) as ->.
  { rewrite replace_first by (rewrite !occurs_append, Hf2; reflexivity).
    rewrite substitution_plain by assumption.
    unfold head. now rewrite !append_assoc. }
  apply replace_first.
  unfold head. rewrite !occurs_append, Hf2, Ht2. reflexivity.
Qed.


(** X17.  The diff is a replacement template for [replace]: a doubled dollar of
    the diff reaches the model as a single one, and a dollar followed by an
    ampersand as the name [{diff}] itself. *)
Theorem buildReviewPrompt_dollar (filename tag before after : string) :
  plainName filename -> plainName tag ->
  occurs "$" before = false -> occurs "$" after = false ->
  buildReviewPrompt Config.reviewPrompt flags filename (DiffParser.Lang tag)
    (before ++ "$$" ++ after) context =
  promptBody filename tag (before ++ "$" ++ after) ++ promptTail flags context /\
  buildReviewPrompt Config.reviewPrompt flags filename (DiffParser.Lang tag)
    (before ++ "$&" ++ after) context =
  promptBody filename tag (before ++ "{diff}" ++ after) ++
  promptTail flags context.
Proof.
  intros Hf Ht Hb Ha.
  split; rewrite buildReviewPrompt_tail;
    rewrite (reviewPrompt_replaced filename tag _ Hf Ht);
    rewrite substitution_append by assumption;
    cbn [append JS.substitution Ascii.eqb Bool.eqb];
    rewrite substitution_plain by assumption;
    unfold promptBody; rewrite !append_assoc; reflexivity.
Qed.

End PromptFacts.

Section PromptExamples.

Import AIRequest.


Lemma buildReviewPrompt_dollar_witness :
  buildReviewPrompt Config.reviewPrompt allChecks "run.sh"
    (DiffParser.Lang "bash") ("+echo " ++ "$$" ++ " > pid") sampleContext =
  promptBody "run.sh" "bash" ("+echo " ++ "$" ++ " > pid") ++
  promptTail allChecks sampleContext.
Proof.
  apply (buildReviewPrompt_dollar allChecks sampleContext
           "run.sh" "bash" "+echo " " > pid");
    repeat split; reflexivity.
Defined.

(** The text after the template, for all the checks and a context with a
    description and two commits. *)
Example promptTail_sample :
  promptTail allChecks sampleContext =
  JS.nl ++ JS.nl ++ "**Merge Request Description**:" ++ JS.nl ++
  "Adds logging" ++ JS.nl ++ JS.nl ++
  "**Recent Commit Messages**:" ++ JS.nl ++ "add log" ++ JS.nl ++
  "fix return" ++ JS.nl ++ JS.nl ++
  "**Focus Areas**: security vulnerabilities, performance issues, " ++
  "code style and formatting, best practices, potential bugs".
Proof. reflexivity. Qed.

(** A name that holds [{diff}] takes the diff, and the diff then stays
    out of the block that was meant for it. *)
Example buildReviewPrompt_brace_name :
  JS.replace "{diff}" "+x"
    (replaceLanguage (DiffParser.Lang "javascript")
       (JS.replace "{filename}" "a{diff}.js" Config.reviewPrompt)) =
  fileHeading ++ "a+x.js" ++ languageHeading ++ "javascript" ++
  changesHeading ++ "{diff}" ++ promptFoot.
Proof. reflexivity. Qed.

End PromptExamples.

(** ** The answer of the model *)

Section AnswerFacts.

Import GitLabReviewer.

Variable Temperature : Type.
Variable World : Type.
Variable create :
  AIRequest.ChatRequest Temperature -> World ->
  World * (string + AIRequest.ChatResponse).
Variable flags : Config.ReviewCriteria.
Variable ai : AIRequest.ProviderConfig Temperature.
Variable context : ReviewContext.

#[local] Abbreviation ask :=
  (AIRequest.reviewCode Temperature World create Config.reviewPrompt flags ai).

(** An answer without a marker line gives no issue. *)
Lemma parseReview_no_marker (answer : string) :
  filter isIssueMarker (JS.split answer) = [] ->
  AIService.issues (AIService.parseReview answer) = [].
Proof.
  intros H. apply length_zero_iff_nil.
  unfold AIService.parseReview, AIService.parseLines. cbn [AIService.issues].
  rewrite parseLines_count, H. reflexivity.
Qed.

(** X18.  When the answer of the model carries no text (no choice, no message,
    no content or an empty one), the file is not lost: its review is an
    error with the message of [reviewCode], and the comment shows the file
    with that message. *)
Theorem reviewFiles_no_content (file : DiffParser.ParsedFile) (w w' : World)
  (response : AIRequest.ChatResponse) (comment : string) :
  DiffParser.tooLarge file = false ->
  create (requestFor ai flags context file) w = (w', inr response) ->
  AIRequest.firstContent response = None \/
  AIRequest.firstContent response = Some EmptyString ->
  reviewFiles World ask context w [file] =
    (w', [erroredReview file "No review content received from AI"]) /\
  renderReview comment
    (erroredReview file "No review content received from AI") =
  comment ++ "### ❌ " ++ DiffParser.filename file ++ JS.nl ++
  "*Error during review: No review content received from AI*" ++
  JS.nl ++ JS.nl.
Proof.
  intros Hsize Hcall Hnone. split; [| reflexivity].
  rewrite reviewFile_single, Hsize.
  unfold AIRequest.reviewCode.
  change (create _ w) with (create (requestFor ai flags context file) w).
  rewrite Hcall. now destruct Hnone as [-> | ->].
Qed.


End AnswerFacts.

Section AnswerExamples.

Import GitLabReviewer.

Lemma reviewFiles_no_content_witness :
  reviewFiles nat
    (AIRequest.reviewCode Z nat (fixedAnswer None) Config.reviewPrompt
       allChecks sampleProvider)
    sampleContext 0 [fileNamed "src/test.js"] =
  (1, [erroredReview (fileNamed "src/test.js")
         "No review content received from AI"]).
Proof.
  apply (reviewFiles_no_content Z nat (fixedAnswer None) allChecks
           sampleProvider sampleContext (fileNamed "src/test.js") 0 1
           (answerOf None) EmptyString);
    [reflexivity | reflexivity | left; reflexivity].
Defined.


(** The request names the model and the limit of the provider. *)
Example requestFor_sample :
  AIRequest.requestModel Z
    (requestFor sampleProvider allChecks sampleContext
       (fileNamed "src/test.js")) = "deepseek-coder" /\
  AIRequest.max_tokens Z
    (requestFor sampleProvider allChecks sampleContext
       (fileNamed "src/test.js")) = 4000%Z.
Proof. split; reflexivity. Qed.

End AnswerExamples.

(** ** The run over a merge request *)

Section LoopNames.

Import GitLabReviewer.

Variable World : Type.
Variable reviewCode :
  string -> DiffParser.Language -> string -> ReviewContext ->
  World -> World * (string + AIService.Review).
Variable context : ReviewContext.

(** X20.  Whatever the model answers, fails on or is spared, the reviews name the
    parsed files, one review per file and in the same order. *)
Theorem reviewFiles_filenames (w : World) (files : list DiffParser.ParsedFile) :
  map filename (snd (reviewFiles World reviewCode context w files)) =
  map DiffParser.filename files.
Proof.
  revert w. induction files as [|file files IH]; intros w; [reflexivity |].
  change (file :: files) with ([file] ++ files)%list.
  rewrite reviewFiles_app. cbn [snd]. rewrite map_app, IH.
  rewrite reviewFile_single.
  destruct (DiffParser.tooLarge file); [reflexivity |].
  now destruct (reviewCode _ _ _ _ w) as [w' [message | review]].
Qed.

End LoopNames.

Section RunFacts.

Import GitLabReviewer ReviewRun.

Variable World : Type.
Variable validateConfig : World -> string + unit.
Variable getMergeRequest :
  string -> string -> World -> World * (string + MergeRequest).
Variable getMergeRequestChanges :
  string -> string -> World -> World * (string + list DiffParser.Change).
Variable getMergeRequestCommits :
  string -> string -> World -> World * (string + list Commit).
Variable postMergeRequestComment :
  string -> string -> string -> World -> World * (string + unit).
Variable getMergeRequestComments :
  string -> string -> World -> World * (string + list GitLabAPI.Note).
Variable updateMergeRequestComment :
  string -> string -> Z -> string -> World -> World * (string + unit).
Variable reviewCode :
  string -> DiffParser.Language -> string -> ReviewContext ->
  World -> World * (string + AIService.Review).
Variable clock : World -> string.
Variable regExpTest : string -> string -> option bool.
Variable config : DiffParser.ReviewConfig.
Variable provider : string.
Variable model : string.

#[local] Abbreviation context_of :=
  (gatherContext World getMergeRequestCommits).
#[local] Abbreviation post_review :=
  (postReviewComment World postMergeRequestComment getMergeRequestComments
     updateMergeRequestComment clock provider model).
#[local] Abbreviation review_run :=
  (reviewMergeRequest World validateConfig getMergeRequest
     getMergeRequestChanges getMergeRequestCommits postMergeRequestComment
     getMergeRequestComments updateMergeRequestComment reviewCode clock
     regExpTest config provider model).

(** X21.  The context of a review never fails to be built: it carries the
    description of the merge request and the messages of at most five
    commits, the first ones in their order, those of the commits after the
    fifth being left out, and no message when the commits cannot be read;
    the world moves on as the request for the commits moves it. *)
Theorem gatherContext_messages (projectId mergeRequestIid : string)
  (mergeRequest : MergeRequest) (w : World) :
  fst (context_of projectId mergeRequestIid mergeRequest w) =
    fst (getMergeRequestCommits projectId mergeRequestIid w) /\
  ctxDescription (snd (context_of projectId mergeRequestIid mergeRequest w)) =
    description mergeRequest /\
  List.length
    (commitMessages (snd (context_of projectId mergeRequestIid mergeRequest w)))
    <= 5 /\
  match snd (getMergeRequestCommits projectId mergeRequestIid w) with
  | inr commits =>
      map message commits =
      (commitMessages
         (snd (context_of projectId mergeRequestIid mergeRequest w)) ++
       map message (skipn 5 commits))%list
  | inl _ =>
      commitMessages
        (snd (context_of projectId mergeRequestIid mergeRequest w)) = []
  end.
Proof.
  unfold gatherContext.
  destruct (getMergeRequestCommits projectId mergeRequestIid w)
    as [w' [e | commits]]; cbn [fst snd ctxDescription commitMessages].
  - repeat split. apply Nat.le_0_l.
  - repeat split.
    + rewrite length_map, length_firstn. apply Nat.le_min_l.
    + now rewrite <- map_app, firstn_skipn.
Qed.

(** X22.  A run whose reads of GitLab succeed and whose comments are accepted
    completes, whatever the model does and whether or not the commits and
    the notes can be read: no failure of the model, of the commits or of
    the search for an earlier comment is one of the run. *)
Theorem reviewMergeRequest_completes (projectId mergeRequestIid : string)
  (w w1 w2 : World) (mergeRequest : MergeRequest)
  (changes : list DiffParser.Change) :
  validateConfig w = inr tt ->
  getMergeRequest projectId mergeRequestIid w = (w1, inr mergeRequest) ->
  getMergeRequestChanges projectId mergeRequestIid w1 = (w2, inr changes) ->
  (forall comment w',
     snd (postMergeRequestComment projectId mergeRequestIid comment w') =
     inr tt) ->
  (forall noteId comment w',
     snd (updateMergeRequestComment projectId mergeRequestIid noteId comment w')
     = inr tt) ->
  snd (review_run projectId mergeRequestIid w) = inr tt.
Proof.
  intros Hconfig Hmr Hchanges Hpost Hupdate.
  unfold reviewMergeRequest, reviewSteps. rewrite Hconfig, Hmr, Hchanges.
  destruct (List.length _ =? 0)%nat.
  - unfold postNoReviewComment.
    specialize (Hpost (noReviewComment (clock w2)) w2).
    destruct (postMergeRequestComment _ _ _ w2) as [w3 [e | []]];
      cbn [snd] in *; [discriminate | reflexivity].
  - destruct (gatherContext _ _ _ _ _ w2) as [w3 context].
    destruct (reviewFiles _ _ context w3 _) as [w4 reviews].
    unfold postReviewComment.
    destruct (GitLabAPI.findExistingBotComment _ _ _ _ _ w4) as [w5 [note|]].
    + specialize (Hupdate (GitLabAPI.id note)
                    (generateReviewComment (clock w5) provider model reviews) w5).
      destruct (updateMergeRequestComment _ _ _ _ w5) as [w6 [e | []]];
        cbn [snd] in *; [discriminate | reflexivity].
    + specialize (Hpost
                    (generateReviewComment (clock w5) provider model reviews) w5).
      destruct (postMergeRequestComment _ _ _ w5) as [w6 [e | []]];
        cbn [snd] in *; [discriminate | reflexivity].
Qed.

(** X23.  When no change of the merge request gives a file to review, the run
    posts the comment that says so and nothing else: the model, the
    commits and the notes are not consulted.  If that comment is refused,
    the run tries to post the error comment with the message of the refusal
    and fails with that message. *)
Theorem reviewMergeRequest_no_files (projectId mergeRequestIid : string)
  (w w1 w2 : World) (mergeRequest : MergeRequest)
  (changes : list DiffParser.Change) :
  validateConfig w = inr tt ->
  getMergeRequest projectId mergeRequestIid w = (w1, inr mergeRequest) ->
  getMergeRequestChanges projectId mergeRequestIid w1 = (w2, inr changes) ->
  DiffParser.parseMergeRequestChanges regExpTest config changes = [] ->
  review_run projectId mergeRequestIid w =
  match postMergeRequestComment projectId mergeRequestIid
          (noReviewComment (clock w2)) w2 with
  | (w3, inr done) => (w3, inr done)
  | (w3, inl e) =>
      (fst (postMergeRequestComment projectId mergeRequestIid
              (errorComment e (clock w3)) w3),
       inl e)
  end.
Proof.
  intros Hconfig Hmr Hchanges Hnone.
  unfold reviewMergeRequest, reviewSteps.
  rewrite Hconfig, Hmr, Hchanges, Hnone. cbn [List.length Nat.eqb].
  unfold postNoReviewComment, postErrorComment. reflexivity.
Qed.


End RunFacts.

Section RunExamples.

Import GitLabReviewer ReviewRun.

Lemma reviewMergeRequest_completes_witness :
  snd (sampleRun [sampleChange] []) = inr tt.
Proof.
  apply (reviewMergeRequest_completes (list GitLabAPI.Note) validConfig
           mergeRequestOf (changesOf [sampleChange]) noCommits postNote notesOf
           updateNote brokenService fixedClock JS.wildcardRegExp
           DiffParser.defaultConfig "deepseek" "gpt-4" "42" "7" [] [] []
           sampleMergeRequest [sampleChange]);
    reflexivity.
Defined.

Lemma reviewMergeRequest_no_files_witness :
  sampleRun [readmeChange] [] =
  match postNote "42" "7" (noReviewComment (fixedClock [])) [] with
  | (w3, inr done) => (w3, inr done)
  | (w3, inl e) =>
      (fst (postNote "42" "7" (errorComment e (fixedClock w3)) w3), inl e)
  end.
Proof.
  apply (reviewMergeRequest_no_files (list GitLabAPI.Note) validConfig
           mergeRequestOf (changesOf [readmeChange]) noCommits postNote notesOf
           updateNote brokenService fixedClock JS.wildcardRegExp
           DiffParser.defaultConfig "deepseek" "gpt-4" "42" "7" [] [] []
           sampleMergeRequest [readmeChange]);
    reflexivity.
Defined.


(** The run over one file with a model that fails leaves one note, which
    shows the file with the message of the failure. *)
Example sampleRun_note :
  map GitLabAPI.body (fst (sampleRun [sampleChange] [])) =
  [ "## 🤖 AI Code Review" ++ JS.nl ++ JS.nl ++
    "✅ **Great work!** No issues found in this merge request." ++
    JS.nl ++ JS.nl ++
    "### ❌ src/test.js" ++ JS.nl ++
    "*Error during review: AI service unavailable*" ++ JS.nl ++ JS.nl ++
    "---" ++ JS.nl ++
    "*Review generated by GitLab AI Reviewer at 2024-05-01T10:00:00.000Z*" ++
    JS.nl ++ "*Powered by DEEPSEEK gpt-4*" ].
Proof. reflexivity. Qed.

End RunExamples.

(** ** The comments of the bot and their recognition *)

Section BotCommentFacts.

Import GitLabReviewer.

Lemma free_append (a b : string) :
  identifierFree a -> identifierFree b -> identifierFree (a ++ b).
Proof.
  unfold identifierFree. intros Ha Hb. now rewrite occurs_append, Ha, Hb.
Qed.

Lemma upperChar_head (c : ascii) :
  Ascii.eqb (JS.upperChar c) identifierHead = Ascii.eqb c identifierHead.
Proof. destruct c as [[] [] [] [] [] [] [] []]; reflexivity. Qed.

Lemma toUpperCase_free (s : string) :
  identifierFree s -> identifierFree (JS.toUpperCase s).
Proof.
  unfold identifierFree, JS.toUpperCase.
  induction s as [|c s IH]; [easy |].
  cbn [occurs JS.mapChars]. rewrite upperChar_head.
  intros H. apply orb_false_elim in H as [-> H]. now apply IH.
Qed.

Lemma isDigit_head (c : ascii) :
  DiffParser.isDigit c = true -> Ascii.eqb c identifierHead = false.
Proof.
  destruct c as [[] [] [] [] [] [] [] []]; intros H;
    solve [discriminate H | reflexivity].
Qed.

Lemma allDigits_free (s : string) : allDigits s = true -> identifierFree s.
Proof.
  unfold identifierFree. induction s as [|c s IH]; [easy |].
  cbn [allDigits occurs]. intros H. apply andb_prop in H as [Hc H].
  now rewrite (isDigit_head c Hc), IH.
Qed.

Lemma numToString_free (z : Z) : identifierFree (JS.numToString z).
Proof.
  unfold JS.numToString. destruct (Z.ltb_spec z 0) as [H | H].
  - assert (identifierFree
              (JS.digitsOf (S (Z.to_nat (Z.log2 (- z)))) (- z) EmptyString))
      as Hd by (apply allDigits_free, digitsOf_allDigits; [lia | reflexivity]).
    unfold identifierFree in *. cbn [occurs]. now rewrite Hd.
  - apply allDigits_free, digitsOf_allDigits; [assumption | reflexivity].
Qed.

Lemma str_free (n : nat) : identifierFree (str n).
Proof. apply numToString_free. Qed.

(** A text put together from texts without the byte has none. *)
Ltac free :=
  repeat match goal with
         | |- identifierFree (_ ++ _) => apply free_append
         | |- identifierFree (if ?b then _ else _) => destruct b
         end;
  try solve [ assumption | reflexivity | apply str_free
            | apply numToString_free | now apply toUpperCase_free ].

Lemma renderIssue_free (c : string) (issue : AIService.Issue) :
  identifierFree c -> PlainIssue issue -> identifierFree (renderIssue c issue).
Proof.
  intros Hc (Ht & Hd & Hs & He). unfold renderIssue.
  destruct (AIService.line issue) as [[|z]|]; free.
Qed.

Lemma renderIssues_free (l : list AIService.Issue) (c : string) :
  identifierFree c -> Forall PlainIssue l ->
  identifierFree (fold_left renderIssue l c).
Proof.
  revert c. induction l as [|issue l IH]; intros c Hc Hl; [assumption |].
  inversion Hl as [|? ? Hi Hl']; subst. cbn [fold_left].
  apply IH; [now apply renderIssue_free | assumption].
Qed.

Lemma renderGroup_free (c severity : string) (l : list AIService.Issue) :
  identifierFree c -> identifierFree severity ->
  identifierFree (severityIcon severity) -> Forall PlainIssue l ->
  identifierFree (renderGroup c (severity, l)).
Proof.
  intros Hc Hs Hi Hl. unfold renderGroup.
  destruct (List.length l =? 0)%nat; [assumption |].
  apply renderIssues_free; [free | assumption].
Qed.

Lemma renderReview_free (c : string) (review : FileReview) :
  identifierFree c -> PlainReview review ->
  identifierFree (renderReview c review).
Proof.
  intros Hc (Hf & He & Hr & Hi). unfold renderReview.
  destruct (error review).
  { destruct (errorMessage review); cbn in He; free. }
  destruct (skipped review).
  { destruct (reason review); cbn in Hr; free. }
  destruct (issues review) as [[|issue l]|]; [free | | free].
  unfold issuesBySeverity. cbn [fold_left].
  repeat (apply renderGroup_free;
          [| reflexivity | reflexivity | now apply Forall_filter]).
  free.
Qed.

Lemma renderReviews_free (reviews : list FileReview) (c : string) :
  identifierFree c -> Forall PlainReview reviews ->
  identifierFree (fold_left renderReview reviews c).
Proof.
  revert c. induction reviews as [|review l IH]; intros c Hc Hl; [assumption |].
  inversion Hl as [|? ? Hr Hl']; subst. cbn [fold_left].
  apply IH; [now apply renderReview_free | assumption].
Qed.

Lemma generateReviewComment_free (now provider model : string)
  (reviews : list FileReview) :
  identifierFree now -> identifierFree provider -> identifierFree model ->
  Forall PlainReview reviews ->
  identifierFree (generateReviewComment now provider model reviews).
Proof.
  intros Hn Hp Hm Hr. unfold generateReviewComment. cbv zeta.
  repeat (apply free_append; [| free]).
  apply renderReviews_free; [| assumption].
  free.
Qed.

Lemma BotComment_free (comment : string) :
  BotComment comment -> identifierFree comment.
Proof.
  intros [now provider model reviews Hn Hp Hm Hr | t Ht | e t He Ht].
  - now apply generateReviewComment_free.
  - unfold ReviewRun.noReviewComment. free.
  - unfold ReviewRun.errorComment. free.
Qed.

(** A text is included only where its first character occurs. *)
Lemma includes_head (s : string) (c : ascii) (p : string) :
  occurs c s = false -> JS.includes s (String c p) = false.
Proof.
  induction s as [|a s IH]; intros H; [reflexivity |].
  cbn [occurs] in H. apply orb_false_elim in H as [Ha H].
  cbn [JS.includes JS.startsWith]. rewrite Ha, (IH H). reflexivity.
Qed.

Lemma BotComment_not_found (notes : list GitLabAPI.Note) :
  Forall (fun note => BotComment (GitLabAPI.body note)) notes ->
  find (GitLabAPI.isBotComment GitLabAPI.botIdentifier) notes = None.
Proof.
  induction 1 as [|note notes Hnote _ IH]; [reflexivity |].
  cbn [find]. unfold GitLabAPI.isBotComment at 1.
  apply BotComment_free in Hnote.
  change GitLabAPI.botIdentifier
    with (String identifierHead (JS.drop 1 GitLabAPI.botIdentifier)) at 1.
  rewrite (includes_head _ _ _ Hnote). exact IH.
Qed.

Section Posting.

Variable World : Type.
Variable postMergeRequestComment :
  string -> string -> string -> World -> World * (string + unit).
Variable getMergeRequestComments :
  string -> string -> World -> World * (string + list GitLabAPI.Note).
Variable updateMergeRequestComment :
  string -> string -> Z -> string -> World -> World * (string + unit).
Variable clock : World -> string.
Variable provider : string.
Variable model : string.

(** X24.  The comments that the bot has written are not recognised as its own:
    when the notes of the merge request are comments of the bot (review,
    no-review or error comments whose texts hold nowhere the first byte of
    the default identifier), or cannot be read, [postReviewComment] updates
    no note and posts the review as a new comment. *)
Theorem postReviewComment_posts_again (projectId mergeRequestIid : string)
  (reviews : list FileReview) (w : World) :
  match snd (getMergeRequestComments projectId mergeRequestIid w) with
  | inr notes => Forall (fun note => BotComment (GitLabAPI.body note)) notes
  | inl _ => True
  end ->
  ReviewRun.postReviewComment World postMergeRequestComment
    getMergeRequestComments updateMergeRequestComment clock provider model
    projectId mergeRequestIid reviews w =
  postMergeRequestComment projectId mergeRequestIid
    (generateReviewComment
       (clock (fst (getMergeRequestComments projectId mergeRequestIid w)))
       provider model reviews)
    (fst (getMergeRequestComments projectId mergeRequestIid w)).
Proof.
  unfold ReviewRun.postReviewComment, GitLabAPI.findExistingBotComment.
  destruct (getMergeRequestComments projectId mergeRequestIid w)
    as [w1 [e | notes]]; cbn [fst snd]; intros H; [reflexivity |].
  now rewrite (BotComment_not_found notes H).
Qed.

End Posting.

(** X25.  Every comment that the bot writes begins with the same heading, the
    review comment whatever the reviews are. *)
Theorem comments_heading (now provider model errorMessage timestamp : string)
  (reviews : list FileReview) :
  JS.startsWith (generateReviewComment now provider model reviews)
    commentHeading = true /\
  JS.startsWith (ReviewRun.noReviewComment timestamp) commentHeading = true /\
  JS.startsWith (ReviewRun.errorComment errorMessage timestamp)
    commentHeading = true.
Proof.
  split; [| split; reflexivity].
  unfold generateReviewComment. cbv zeta.
  rewrite (fold_left_text renderReview) by (intros; apply renderReview_text).
  destruct (sumOver issueCount reviews =? 0)%nat; [reflexivity |].
  destruct (0 <? sumOver (countWhere (hasSeverity "CRITICAL")) reviews)%nat;
    destruct (0 <? sumOver (countWhere (hasType "SECURITY")) reviews)%nat;
    reflexivity.
Qed.

Section AllFailed.

Variable World : Type.
Variable reviewCode :
  string -> DiffParser.Language -> string -> ReviewContext ->
  World -> World * (string + AIService.Review).
Variable context : ReviewContext.

Lemma reviewFiles_failed_counts (files : list DiffParser.ParsedFile) (w : World) :
  (forall filename language diff w',
     exists e, snd (reviewCode filename language diff context w') = inl e) ->
  Forall (fun review => issueCount review = 0)
    (snd (reviewFiles World reviewCode context w files)).
Proof.
  intros Hfail. revert w.
  induction files as [|file files IH]; intros w; [constructor |].
  change (file :: files) with ([file] ++ files)%list.
  rewrite reviewFiles_app. cbn [snd]. apply Forall_app. split; [| apply IH].
  rewrite reviewFile_single.
  destruct (DiffParser.tooLarge file); [now repeat constructor |].
  destruct (Hfail (DiffParser.filename file) (DiffParser.language file)
              (DiffParser.cleaned file) w) as [e He].
  destruct (reviewCode _ _ _ _ w) as [w' [message | review]];
    cbn [snd] in *; [now repeat constructor | discriminate].
Qed.

Lemma sumOver_zero (f : FileReview -> nat) (reviews : list FileReview) :
  Forall (fun review => f review = 0) reviews -> sumOver f reviews = 0.
Proof.
  intros H. rewrite sumOver_list_sum.
  induction H as [|review l Hr _ IH]; [reflexivity |].
  cbn [map].
  change (list_sum (f review :: map f l))
    with (f review + list_sum (map f l)).
  now rewrite Hr, IH.
Qed.

(** X26.  When the model fails on every file, the comment of the run opens with
    the praise for a merge request without issues: a failed review counts
    as a review that found nothing. *)
Theorem generateReviewComment_all_failed (now provider model : string)
  (files : list DiffParser.ParsedFile) (w : World) :
  (forall filename language diff w',
     exists e, snd (reviewCode filename language diff context w') = inl e) ->
  JS.startsWith
    (generateReviewComment now provider model
       (snd (reviewFiles World reviewCode context w files)))
    (commentHeading ++
     "✅ **Great work!** No issues found in this merge request.") = true.
Proof.
  intros Hfail. unfold generateReviewComment. cbv zeta.
  rewrite (fold_left_text renderReview) by (intros; apply renderReview_text).
  rewrite (sumOver_zero issueCount)
    by (apply reviewFiles_failed_counts; assumption).
  reflexivity.
Qed.

End AllFailed.

End BotCommentFacts.

Section BotCommentExamples.

Import GitLabReviewer.

Lemma postReviewComment_posts_again_witness :
  ReviewRun.postReviewComment (list GitLabAPI.Note) postNote notesOf updateNote
    fixedClock "deepseek" "gpt-4" "42" "7" [] [earlierNote] =
  postNote "42" "7" (generateReviewComment sampleTime "deepseek" "gpt-4" [])
    [earlierNote].
Proof.
  apply (postReviewComment_posts_again (list GitLabAPI.Note) postNote notesOf
           updateNote fixedClock "deepseek" "gpt-4" "42" "7" [] [earlierNote]).
  apply Forall_cons; [| apply Forall_nil].
  apply (isReviewComment sampleTime "deepseek" "gpt-4"
           [erroredReview (fileNamed "src/test.js") "AI service unavailable"]);
    repeat constructor.
Defined.

(** A second run over the same merge request leaves a second note. *)
Example sampleRun_twice :
  List.length (fst (sampleRun [sampleChange] [])) = 1 /\
  List.length
    (fst (sampleRun [sampleChange] (fst (sampleRun [sampleChange] [])))) = 2.
Proof. split; reflexivity. Qed.

(** A note that holds the identifier as the source file spells it is
    found, and updated. *)
Example findExistingBotComment_identifier :
  ReviewRun.postReviewComment (list GitLabAPI.Note) postNote notesOf updateNote
    fixedClock "deepseek" "gpt-4" "42" "7" []
    [ {| GitLabAPI.id := 5;
         GitLabAPI.body := "## " ++ GitLabAPI.botIdentifier;
         GitLabAPI.system := false |} ] =
  ([ {| GitLabAPI.id := 5;
        GitLabAPI.body :=
          generateReviewComment sampleTime "deepseek" "gpt-4" [];
        GitLabAPI.system := false |} ],
   inr tt).
Proof. reflexivity. Qed.

Lemma generateReviewComment_all_failed_witness :
  JS.startsWith
    (generateReviewComment sampleTime "deepseek" "gpt-4"
       (snd (reviewFiles (list GitLabAPI.Note) brokenService noContext []
               [fileNamed "src/a.js"; fileNamed "src/b.js"])))
    (commentHeading ++
     "✅ **Great work!** No issues found in this merge request.") = true.
Proof.
  apply (generateReviewComment_all_failed (list GitLabAPI.Note) brokenService
           noContext sampleTime "deepseek" "gpt-4"
           [fileNamed "src/a.js"; fileNamed "src/b.js"] []).
  intros filename language diff w'. exists "AI service unavailable".
  reflexivity.
Defined.

End BotCommentExamples.

(** ** The configuration and the provider *)

Section ConfigFacts.

Import Config.

(** X27.  When the keys of [config.ai] were read from the environment that
    [validateConfig] looks at, the only error that it throws is the one that
    lists the variables that are missing, and every variable listed is
    missing; the four errors on the key of a provider are never thrown. *)
Theorem validateConfig_loaded (env : string -> option string) :
  validateConfig env (aiKeys env) = inr tt \/
  exists missing,
    missing <> [] /\
    Forall (fun key => missingValue (env key) = true) missing /\
    validateConfig env (aiKeys env) =
    inl ("Missing required environment variables: " ++ JS.join ", " missing).
Proof.
  unfold validateConfig, aiKeys.
  cbn [provider openaiKey openrouterKey deepseekKey anthropicKey].
  generalize (orDefault (env "AI_PROVIDER") "openrouter"). intros name.
  destruct (String.eqb_spec name "openai") as [-> | _];
    [| destruct (String.eqb_spec name "openrouter") as [-> | _];
       [| destruct (String.eqb_spec name "deepseek") as [-> | _];
          [| destruct (String.eqb_spec name "anthropic") as [-> | _]]]];
    cbn [String.eqb Ascii.eqb Bool.eqb app filter andb
         List.length Nat.ltb Nat.leb];
    repeat match goal with
           | |- context [missingValue (env ?key)] =>
               destruct (missingValue (env key)) eqn:?;
               cbn [app filter andb List.length Nat.ltb Nat.leb]
           end;
    solve [ left; reflexivity
          | right; refine (ex_intro _ _ (conj _ (conj _ eq_refl)));
            [discriminate | repeat constructor; assumption] ].
Qed.

(** X28.  With the provider that the configuration takes when none is named,
    [openrouter], the token of GitLab and the key of OpenRouter are all that
    [validateConfig] asks for, and the service cannot be built: there is no
    client for that provider. *)
Theorem initializeProvider_openrouter (env : string -> option string)
  (keys : AIRequest.ClientConfig) :
  missingValue (env "AI_PROVIDER") = true ->
  missingValue (env "GITLAB_TOKEN") = false ->
  missingValue (env "OPENROUTER_API_KEY") = false ->
  validateConfig env (aiKeys env) = inr tt /\
  AIRequest.initializeProvider (provider (aiKeys env)) keys =
  inl "Unsupported AI provider: openrouter".
Proof.
  intros Hprovider Htoken Hkey.
  assert (orDefault (env "AI_PROVIDER") "openrouter" = "openrouter") as E.
  { unfold orDefault, missingValue in *.
    destruct (env "AI_PROVIDER") as [s|]; [now rewrite Hprovider | reflexivity]. }
  unfold validateConfig, aiKeys.
  cbn [provider openaiKey openrouterKey deepseekKey anthropicKey].
  rewrite E. cbn [String.eqb Ascii.eqb Bool.eqb andb app filter].
  rewrite Htoken, Hkey. split; reflexivity.
Qed.

End ConfigFacts.

Section ConfigExamples.

Import Config.

Lemma initializeProvider_openrouter_witness :
  validateConfig defaultProviderEnv (aiKeys defaultProviderEnv) = inr tt /\
  AIRequest.initializeProvider (provider (aiKeys defaultProviderEnv))
    noClientKeys =
  inl "Unsupported AI provider: openrouter".
Proof.
  apply (initializeProvider_openrouter defaultProviderEnv noClientKeys);
    reflexivity.
Defined.

(** The error lists the token first and then the key of the provider. *)
Example validateConfig_missing :
  validateConfig (fun _ => None) (aiKeys (fun _ => None)) =
  inl "Missing required environment variables: GITLAB_TOKEN, OPENROUTER_API_KEY".
Proof. reflexivity. Qed.

End ConfigExamples.
